(** * local-nginx-ingress: the reconciliation pipeline, embedded and verified

    A shallow embedding of the Go packages [pkg/provider/docker],
    [pkg/errors] and [pkg/health] of menta2k/local-nginx-ingress.

    Conventions of the embedding.
    - A Go [string] is a byte string: Rocq's [string] (a list of 8-bit
      [ascii]); [len] is [String.length].
    - A Go [int] holds 64 bits; it is a [Z], and the one place where the code
      increments a counter writes the wrap-around out ([wrap_int]).
    - A Go [map[string]T] is a [gmap string T]; where the code ranges over a
      map and the visiting order shows in the result, the order is an
      explicit input.
    - An [error] is its message; a function returning [(T, error)] returns an
      [outcome T], which also records a run-time panic.
    - Code with effects (files, the container runtime, printed lines) passes
      a [World] explicitly. *)

From Stdlib Require Import ZArith String Ascii List Lia Permutation Sorted Bool DecimalString.
From stdpp Require Import base gmap strings sorting.

(** ** The Go standard library, as far as the program uses it *)

Module GoStrings.

(** [strings.HasPrefix] *)
Fixpoint HasPrefix (s prefix : string) : bool :=
  match prefix, s with
  | EmptyString, _ => true
  | String p prefix', String a s' => Ascii.eqb a p && HasPrefix s' prefix'
  | String _ _, EmptyString => false
  end.

(** [strings.HasSuffix]: some tail of [s] is [suffix]. *)
Fixpoint HasSuffix (s suffix : string) : bool :=
  String.eqb s suffix ||
  match s with
  | EmptyString => false
  | String _ s' => HasSuffix s' suffix
  end.

(** [strings.Contains]: [substr] starts at some position of [s]. *)
Fixpoint Contains (s substr : string) : bool :=
  HasPrefix s substr ||
  match s with
  | EmptyString => false
  | String _ s' => Contains s' substr
  end.

(** [strings.TrimSuffix] *)
Definition TrimSuffix (s suffix : string) : string :=
  if HasSuffix s suffix
  then substring 0 (String.length s - String.length suffix) s
  else s.

(** [strings.ReplaceAll(s, old, new)] for a pattern [old] of one byte, the
    only way the program calls it. *)
Fixpoint ReplaceAll (s : string) (old : ascii) (new : string) : string :=
  match s with
  | EmptyString => EmptyString
  | String a s' =>
      if Ascii.eqb a old then new +:+ ReplaceAll s' old new
      else String a (ReplaceAll s' old new)
  end.

Fixpoint trimLeftByte (s : string) (c : ascii) : string :=
  match s with
  | EmptyString => EmptyString
  | String a s' => if Ascii.eqb a c then trimLeftByte s' c else s
  end.

Fixpoint trimRightByte (s : string) (c : ascii) : string :=
  match s with
  | EmptyString => EmptyString
  | String a s' =>
      match trimRightByte s' c with
      | EmptyString => if Ascii.eqb a c then EmptyString else String a EmptyString
      | r => String a r
      end
  end.

(** [strings.Trim(s, cutset)] for a cutset of one ASCII byte (Go's own
    fast path: [trimLeftByte(trimRightByte(s, c), c)]). *)
Definition Trim (s : string) (cutset : ascii) : string :=
  trimLeftByte (trimRightByte s cutset) cutset.

(** [strings.Split(s, sep)] for a separator of one byte. *)
Fixpoint Split (s : string) (sep : ascii) : list string :=
  match s with
  | EmptyString => [EmptyString]
  | String a s' =>
      if Ascii.eqb a sep then EmptyString :: Split s' sep
      else match Split s' sep with
           | p :: ps => String a p :: ps
           | [] => [String a EmptyString]
           end
  end.

(** [strings.SplitN(s, sep, 2)] for a separator of one byte: cut at the
    first separator, or the whole string when there is none. *)
Fixpoint SplitN2 (s : string) (sep : ascii) : list string :=
  match s with
  | EmptyString => [EmptyString]
  | String a s' =>
      if Ascii.eqb a sep then [EmptyString; s']
      else match SplitN2 s' sep with
           | p :: ps => String a p :: ps
           | [] => [String a EmptyString]
           end
  end.

(** [strings.Join] *)
Fixpoint Join (elems : list string) (sep : string) : string :=
  match elems with
  | [] => EmptyString
  | [e] => e
  | e :: es => e +:+ sep +:+ Join es sep
  end.

(** *** Case mapping and white space

    [strings.ToUpper], [ToLower], [TrimSpace] and [Fields] work on bytes
    when the string is pure ASCII and decode UTF-8 otherwise.  The ASCII
    behaviour is defined here; what Go's Unicode tables do to a string
    with a byte above 127 is a parameter. *)

Record UnicodeTables := {
  unicode_ToUpper : string -> string;
  unicode_ToLower : string -> string;
  unicode_TrimSpace : string -> string;
  unicode_Fields : string -> list string
}.

Definition isASCIIByte (c : ascii) : bool :=
  match c with Ascii _ _ _ _ _ _ _ b7 => negb b7 end.

Fixpoint isASCII (s : string) : bool :=
  match s with
  | EmptyString => true
  | String a s' => isASCIIByte a && isASCII s'
  end.

Definition upperByte (c : ascii) : ascii :=
  if (("a" <=? c) && (c <=? "z"))%char
  then ascii_of_N (N_of_ascii c - 32) else c.

Definition lowerByte (c : ascii) : ascii :=
  if (("A" <=? c) && (c <=? "Z"))%char
  then ascii_of_N (N_of_ascii c + 32) else c.

Fixpoint mapBytes (f : ascii -> ascii) (s : string) : string :=
  match s with
  | EmptyString => EmptyString
  | String a s' => String (f a) (mapBytes f s')
  end.

(** Go's [asciiSpace] table: tab, line feed, vertical tab, form feed,
    carriage return, space. *)
Definition asciiSpace (c : ascii) : bool :=
  (N_of_ascii c =? 9)%N || (N_of_ascii c =? 10)%N || (N_of_ascii c =? 11)%N ||
  (N_of_ascii c =? 12)%N || (N_of_ascii c =? 13)%N || (N_of_ascii c =? 32)%N.

Fixpoint trimLeftSpace (s : string) : string :=
  match s with
  | EmptyString => EmptyString
  | String a s' => if asciiSpace a then trimLeftSpace s' else s
  end.

Fixpoint trimRightSpace (s : string) : string :=
  match s with
  | EmptyString => EmptyString
  | String a s' =>
      match trimRightSpace s' with
      | EmptyString => if asciiSpace a then EmptyString else String a EmptyString
      | r => String a r
      end
  end.

(** Fields of an ASCII string: maximal runs of bytes that are not white
    space.  [cur] is the field being read. *)
Fixpoint fieldsFrom (s : string) (cur : option string) : list string :=
  match s with
  | EmptyString =>
      match cur with Some f => [f] | None => [] end
  | String a s' =>
      if asciiSpace a
      then match cur with
           | Some f => f :: fieldsFrom s' None
           | None => fieldsFrom s' None
           end
      else fieldsFrom s' (Some (match cur with
                                | Some f => f +:+ String a EmptyString
                                | None => String a EmptyString
                                end))
  end.

Section WithUnicode.
Variable U : UnicodeTables.

Definition ToUpper (s : string) : string :=
  if isASCII s then mapBytes upperByte s else unicode_ToUpper U s.

Definition ToLower (s : string) : string :=
  if isASCII s then mapBytes lowerByte s else unicode_ToLower U s.

Definition TrimSpace (s : string) : string :=
  if isASCII s then trimLeftSpace (trimRightSpace s) else unicode_TrimSpace U s.

Definition Fields (s : string) : list string :=
  if isASCII s then fieldsFrom s None else unicode_Fields U s.
End WithUnicode.

(** Tables that treat every string as ASCII, to run the model on concrete
    ASCII inputs. *)
Definition asciiTables : UnicodeTables :=
  {| unicode_ToUpper := mapBytes upperByte;
     unicode_ToLower := mapBytes lowerByte;
     unicode_TrimSpace := fun s => trimLeftSpace (trimRightSpace s);
     unicode_Fields := fun s => fieldsFrom s None |}.

End GoStrings.

Module GoStrconv.
Local Open Scope Z_scope.

Definition maxInt : Z := 9223372036854775807.
Definition minInt : Z := -9223372036854775808.

Definition digitValue (c : ascii) : option Z :=
  if (("0" <=? c) && (c <=? "9"))%char
  then Some (Z.of_N (N_of_ascii c) - 48) else None.

(** The value of a string of decimal digits, most significant first;
    [None] when a byte is not a digit. *)
Fixpoint digitsValue (s : string) (acc : Z) : option Z :=
  match s with
  | EmptyString => Some acc
  | String a s' =>
      match digitValue a with
      | Some d => digitsValue s' (10 * acc + d)
      | None => None
      end
  end.

(** [strconv.Atoi]: an optional sign, at least one decimal digit, nothing
    else, and a value that fits an [int]; [None] is the error return. *)
Definition Atoi (s : string) : option Z :=
  let parse (neg : bool) (body : string) :=
    match body with
    | EmptyString => None
    | _ =>
        match digitsValue body 0 with
        | Some v =>
            let n := if neg then - v else v in
            if (minInt <=? n) && (n <=? maxInt) then Some n else None
        | None => None
        end
    end in
  match s with
  | String "+"%char body => parse false body
  | String "-"%char body => parse true body
  | _ => parse false s
  end.

(** The verb [%d] of [fmt.Sprintf]. *)
Definition Itoa (n : Z) : string := NilZero.string_of_int (Z.to_int n).

End GoStrconv.

Import GoStrings GoStrconv.

(** ** Results and effects *)

(** What a Go call that returns [(T, error)] produces: the value, the error
    (its message), or a run-time panic. *)
Inductive outcome (A : Type) : Type :=
| Ok (a : A)
| Err (e : string)
| Panic (msg : string).
Arguments Ok {A} a.
Arguments Err {A} e.
Arguments Panic {A} msg.

(** A call the program makes on the container runtime client. *)
Inductive RuntimeCall : Type :=
| CallContainerList
| CallContainerInspect (containerID : string)
| CallCopyFromContainer (containerID path : string).

(** The operating-system calls of the program that can fail. *)
Inductive syscall : Type :=
| SysMkdirAll (path : string)
| SysWriteFile (name : string)
| SysReadFile (name : string)
| SysRename (oldpath newpath : string).

(** How a failing call fails.  [os.WriteFile] opens the file with
    [O_CREATE|O_TRUNC] and then writes: it fails either before the file is
    touched, or after it was created and [written] bytes went in.  For the
    other calls both mean a failure without effect. *)
Inductive fault : Type :=
| FailEarly
| FailAfter (written : nat).

(** The world the program runs in: the files (directories are not tracked),
    the calls that will fail, the runtime calls issued so far and the lines
    printed so far, both most recent first. *)
Record World : Type := {
  files : gmap string string;
  faults : syscall -> option fault;
  runtime_calls : list RuntimeCall;
  output : list string
}.

Definition set_files (f : gmap string string) (w : World) : World :=
  {| files := f; faults := faults w;
     runtime_calls := runtime_calls w; output := output w |}.

Definition issue (c : RuntimeCall) (w : World) : World :=
  {| files := files w; faults := faults w;
     runtime_calls := c :: runtime_calls w; output := output w |}.

(** [fmt.Printf] and [log.Printf] *)
Definition Printf (line : string) (w : World) : World :=
  {| files := files w; faults := faults w;
     runtime_calls := runtime_calls w; output := line :: output w |}.

(** [os.MkdirAll] *)
Definition os_MkdirAll (path : string) (w : World) : option string * World :=
  match faults w (SysMkdirAll path) with
  | Some _ => (Some ("mkdir " +:+ path +:+ ": failed"), w)
  | None => (None, w)
  end.

(** [os.WriteFile] *)
Definition os_WriteFile (name data : string) (w : World) : option string * World :=
  match faults w (SysWriteFile name) with
  | Some FailEarly => (Some ("open " +:+ name +:+ ": failed"), w)
  | Some (FailAfter written) =>
      (Some ("write " +:+ name +:+ ": failed"),
       set_files (<[name := substring 0 written data]> (files w)) w)
  | None => (None, set_files (<[name := data]> (files w)) w)
  end.

(** [os.ReadFile] *)
Definition os_ReadFile (name : string) (w : World) : outcome string :=
  match faults w (SysReadFile name), files w !! name with
  | Some _, _ => Err ("read " +:+ name +:+ ": failed")
  | None, None => Err ("open " +:+ name +:+ ": no such file or directory")
  | None, Some content => Ok content
  end.

(** [os.Rename]: the file at [oldpath] replaces the one at [newpath] in one
    step. *)
Definition os_Rename (oldpath newpath : string) (w : World) : option string * World :=
  match faults w (SysRename oldpath newpath), files w !! oldpath with
  | Some _, _ => (Some ("rename " +:+ oldpath +:+ " " +:+ newpath +:+ ": failed"), w)
  | None, None =>
      (Some ("rename " +:+ oldpath +:+ " " +:+ newpath +:+ ": no such file or directory"), w)
  | None, Some content =>
      (None, set_files (<[newpath := content]> (delete oldpath (files w))) w)
  end.

(** [os.Remove]; the program ignores its result. *)
Definition os_Remove (name : string) (w : World) : World :=
  set_files (delete name (files w)) w.

(** The slice expression [s[:n]]: it panics when [s] is shorter. *)
Definition slice_to (s : string) (n : nat) : outcome string :=
  if (n <=? String.length s)%nat then Ok (substring 0 n s)
  else Panic "runtime error: slice bounds out of range".

Definition dquote : string := String "034"%char EmptyString.
Definition squote : string := String "039"%char EmptyString.
Definition newline : ascii := "010"%char.

(** ** Package [docker]: the label model ([labels.go]) *)

Module docker.

Definition LabelPrefix : string := "nginx.ingress".
Definition LabelEnable : string := LabelPrefix +:+ ".enable".
Definition LabelHost : string := LabelPrefix +:+ ".host".
Definition LabelPort : string := LabelPrefix +:+ ".port".
Definition LabelPath : string := LabelPrefix +:+ ".path".
Definition LabelProtocol : string := LabelPrefix +:+ ".protocol".
Definition LabelTLS : string := LabelPrefix +:+ ".tls".
Definition LabelCertName : string := LabelPrefix +:+ ".tls.certname".
Definition LabelPriority : string := LabelPrefix +:+ ".priority".
Definition LabelRule : string := LabelPrefix +:+ ".rule".
Definition LabelMethod : string := LabelPrefix +:+ ".loadbalancer.method".
Definition LabelHealthCheck : string := LabelPrefix +:+ ".healthcheck".
Definition LabelHealthCheckPath : string := LabelPrefix +:+ ".healthcheck.path".
Definition LabelAuth : string := LabelPrefix +:+ ".auth".
Definition LabelCORS : string := LabelPrefix +:+ ".cors".
Definition LabelConfigurationSnippet : string := LabelPrefix +:+ ".configuration-snippet".
Definition LabelServerSnippet : string := LabelPrefix +:+ ".server-snippet".
Definition LabelBackendProtocol : string := LabelPrefix +:+ ".backend-protocol".
Definition LabelFastCGIIndex : string := LabelPrefix +:+ ".fastcgi-index".
Definition LabelFastCGIParams : string := LabelPrefix +:+ ".fastcgi-params".
Definition LabelFastCGIParamsFile : string := LabelPrefix +:+ ".fastcgi-params-file".

Definition DefaultProtocol : string := "http".
Definition DefaultPath : string := "/".
Definition DefaultPriority : Z := 100.

Module LoadBalancerConfig.
Record t : Type := { Method : string }.
End LoadBalancerConfig.

Module HealthCheckConfig.
Record t : Type := { Enabled : bool; Path : string }.
End HealthCheckConfig.

Module AuthConfig.
Record t : Type := { Enabled : bool; Type_ : string; Realm : string; Users : list string }.
End AuthConfig.

Module CORSConfig.
Record t : Type := {
  Enabled : bool;
  AllowOrigins : list string;
  AllowMethods : list string;
  AllowHeaders : list string;
  AllowCredentials : bool
}.
End CORSConfig.

Module MiddlewareConfig.
Record t : Type := { Auth : AuthConfig.t; CORS : CORSConfig.t }.
End MiddlewareConfig.

Module FastCGIConfig.
Record t : Type := {
  Enabled : bool;
  BackendProtocol : string;
  Index : string;
  Params : gmap string string;
  ParamsFile : string
}.
End FastCGIConfig.

Module ContainerConfig.
Record t : Type := {
  ContainerID : string;
  ContainerName : string;
  NetworkIP : string;
  Enabled : bool;
  Host : string;
  Port : Z;
  Path : string;
  Protocol : string;
  Priority : Z;
  Rule : string;
  TLS : bool;
  CertName : string;
  LoadBalancer : LoadBalancerConfig.t;
  HealthCheck : HealthCheckConfig.t;
  Middleware : MiddlewareConfig.t;
  ConfigurationSnippet : string;
  ServerSnippet : string;
  FastCGI : FastCGIConfig.t
}.
End ContainerConfig.

(** A label read with [labels[key]]: the empty string when absent. *)
Definition label (labels : gmap string string) (key : string) : string :=
  default EmptyString (labels !! key).

Section Labels.
Variable U : UnicodeTables.

Definition parseBool (value : string) : bool :=
  let v := ToLower U value in
  String.eqb v "true" || String.eqb v "1" || String.eqb v "yes" || String.eqb v "on".

Definition extractLoadBalancerConfig (labels : gmap string string) : LoadBalancerConfig.t :=
  match labels !! LabelMethod with
  | Some method =>
      if String.eqb method "round_robin" || String.eqb method "least_conn"
         || String.eqb method "ip_hash"
      then {| LoadBalancerConfig.Method := method |}
      else {| LoadBalancerConfig.Method := "round_robin" |}
  | None => {| LoadBalancerConfig.Method := "round_robin" |}
  end.

Definition extractHealthCheckConfig (labels : gmap string string) : HealthCheckConfig.t :=
  {| HealthCheckConfig.Enabled := parseBool (label labels LabelHealthCheck);
     HealthCheckConfig.Path := default "/health"%string (labels !! LabelHealthCheckPath) |}.

Definition extractMiddlewareConfig (labels : gmap string string) : MiddlewareConfig.t :=
  let auth :=
    match labels !! LabelAuth with
    | Some authType =>
        {| AuthConfig.Enabled := true; AuthConfig.Type_ := authType;
           AuthConfig.Realm := EmptyString; AuthConfig.Users := [] |}
    | None =>
        {| AuthConfig.Enabled := false; AuthConfig.Type_ := EmptyString;
           AuthConfig.Realm := EmptyString; AuthConfig.Users := [] |}
    end in
  let cors :=
    if parseBool (label labels LabelCORS)
    then {| CORSConfig.Enabled := true;
            CORSConfig.AllowOrigins :=
              match labels !! (LabelCORS +:+ ".origins") with
              | Some origins => Split origins ","
              | None => []
              end;
            CORSConfig.AllowMethods :=
              match labels !! (LabelCORS +:+ ".methods") with
              | Some methods => Split methods ","
              | None => []
              end;
            CORSConfig.AllowHeaders := [];
            CORSConfig.AllowCredentials := false |}
    else {| CORSConfig.Enabled := false; CORSConfig.AllowOrigins := [];
            CORSConfig.AllowMethods := []; CORSConfig.AllowHeaders := [];
            CORSConfig.AllowCredentials := false |} in
  {| MiddlewareConfig.Auth := auth; MiddlewareConfig.CORS := cors |}.

(** One [key=value] pair of the [fastcgi-params] label added to [params];
    a pair without [=] is dropped. *)
Definition addFastCGIPair (params : gmap string string) (pair : string) : gmap string string :=
  match SplitN2 (TrimSpace U pair) "=" with
  | [k; v] => <[TrimSpace U k := TrimSpace U v]> params
  | _ => params
  end.

Definition parseFastCGIParams (paramStr : string) : gmap string string :=
  if String.eqb paramStr EmptyString then ∅
  else fold_left addFastCGIPair (Split paramStr ",") ∅.

Definition extractFastCGIConfig (labels : gmap string string) : FastCGIConfig.t :=
  {| FastCGIConfig.Enabled :=
       match labels !! LabelBackendProtocol with
       | Some backendProtocol => String.eqb (ToUpper U backendProtocol) "FCGI"
       | None => false
       end;
     FastCGIConfig.BackendProtocol := label labels LabelBackendProtocol;
     FastCGIConfig.Index := label labels LabelFastCGIIndex;
     FastCGIConfig.Params :=
       match labels !! LabelFastCGIParams with
       | Some params => parseFastCGIParams params
       | None => ∅
       end;
     FastCGIConfig.ParamsFile := label labels LabelFastCGIParamsFile |}.

(** The configuration [ExtractConfig] starts from: the defaults, every other
    field zero. *)
Definition initialConfig (containerID containerName networkIP : string) : ContainerConfig.t :=
  {| ContainerConfig.ContainerID := containerID;
     ContainerConfig.ContainerName := containerName;
     ContainerConfig.NetworkIP := networkIP;
     ContainerConfig.Enabled := false;
     ContainerConfig.Host := EmptyString;
     ContainerConfig.Port := 80;
     ContainerConfig.Path := DefaultPath;
     ContainerConfig.Protocol := DefaultProtocol;
     ContainerConfig.Priority := DefaultPriority;
     ContainerConfig.Rule := EmptyString;
     ContainerConfig.TLS := false;
     ContainerConfig.CertName := EmptyString;
     ContainerConfig.LoadBalancer := {| LoadBalancerConfig.Method := EmptyString |};
     ContainerConfig.HealthCheck :=
       {| HealthCheckConfig.Enabled := false; HealthCheckConfig.Path := EmptyString |};
     ContainerConfig.Middleware :=
       {| MiddlewareConfig.Auth :=
            {| AuthConfig.Enabled := false; AuthConfig.Type_ := EmptyString;
               AuthConfig.Realm := EmptyString; AuthConfig.Users := [] |};
          MiddlewareConfig.CORS :=
            {| CORSConfig.Enabled := false; CORSConfig.AllowOrigins := [];
               CORSConfig.AllowMethods := []; CORSConfig.AllowHeaders := [];
               CORSConfig.AllowCredentials := false |} |};
     ContainerConfig.ConfigurationSnippet := EmptyString;
     ContainerConfig.ServerSnippet := EmptyString;
     ContainerConfig.FastCGI :=
       {| FastCGIConfig.Enabled := false; FastCGIConfig.BackendProtocol := EmptyString;
          FastCGIConfig.Index := EmptyString; FastCGIConfig.Params := ∅;
          FastCGIConfig.ParamsFile := EmptyString |} |}.

(** The port label: absent keeps the default 80; present it must parse to
    1..65535. *)
Definition extractPort (containerName : string) (labels : gmap string string) : outcome Z :=
  match labels !! LabelPort with
  | Some portStr =>
      match Atoi portStr with
      | Some port =>
          if (0 <? port)%Z && (port <=? 65535)%Z then Ok port
          else Err ("container " +:+ containerName +:+ ": invalid port " +:+ portStr)
      | None => Err ("container " +:+ containerName +:+ ": invalid port " +:+ portStr)
      end
  | None => Ok 80%Z
  end.

Definition extractProtocol (containerName : string) (labels : gmap string string)
  : outcome string :=
  match labels !! LabelProtocol with
  | Some protocol =>
      if String.eqb protocol "http" || String.eqb protocol "https" then Ok protocol
      else Err ("container " +:+ containerName +:+ ": invalid protocol " +:+ protocol
                +:+ ", must be http or https")
  | None => Ok DefaultProtocol
  end.

Definition extractPriority (labels : gmap string string) : Z :=
  match labels !! LabelPriority with
  | Some priorityStr => default DefaultPriority (Atoi priorityStr)
  | None => DefaultPriority
  end.

Definition ExtractConfig (containerID containerName networkIP : string)
  (labels : gmap string string) : outcome ContainerConfig.t :=
  let config := initialConfig containerID containerName networkIP in
  match labels !! LabelEnable with
  | None => Ok config
  | Some enabled =>
      if negb (parseBool enabled) then Ok config
      else
        match labels !! LabelHost with
        | None =>
            Err ("container " +:+ containerName +:+ ": " +:+ LabelHost
                 +:+ " label is required when nginx ingress is enabled")
        | Some host =>
            match extractPort containerName labels with
            | Err e => Err e
            | Panic m => Panic m
            | Ok port =>
                match extractProtocol containerName labels with
                | Err e => Err e
                | Panic m => Panic m
                | Ok protocol =>
                    Ok {| ContainerConfig.ContainerID := containerID;
                          ContainerConfig.ContainerName := containerName;
                          ContainerConfig.NetworkIP := networkIP;
                          ContainerConfig.Enabled := true;
                          ContainerConfig.Host := host;
                          ContainerConfig.Port := port;
                          ContainerConfig.Path := default DefaultPath (labels !! LabelPath);
                          ContainerConfig.Protocol := protocol;
                          ContainerConfig.Priority := extractPriority labels;
                          ContainerConfig.Rule := label labels LabelRule;
                          ContainerConfig.TLS := parseBool (label labels LabelTLS);
                          ContainerConfig.CertName := label labels LabelCertName;
                          ContainerConfig.LoadBalancer := extractLoadBalancerConfig labels;
                          ContainerConfig.HealthCheck := extractHealthCheckConfig labels;
                          ContainerConfig.Middleware := extractMiddlewareConfig labels;
                          ContainerConfig.ConfigurationSnippet :=
                            label labels LabelConfigurationSnippet;
                          ContainerConfig.ServerSnippet := label labels LabelServerSnippet;
                          ContainerConfig.FastCGI := extractFastCGIConfig labels |}
                end
            end
        end
  end.

End Labels.

(** [ValidateConfig]: [None] is the nil error. *)
Definition ValidateConfig (config : ContainerConfig.t) : option string :=
  if negb (ContainerConfig.Enabled config) then None
  else if String.eqb (ContainerConfig.Host config) EmptyString
  then Some "host is required when nginx ingress is enabled"%string
  else if (ContainerConfig.Port config <=? 0)%Z || (65535 <? ContainerConfig.Port config)%Z
  then Some ("invalid port " +:+ Itoa (ContainerConfig.Port config))
  else if negb (String.eqb (ContainerConfig.Protocol config) "http")
          && negb (String.eqb (ContainerConfig.Protocol config) "https")
  then Some ("invalid protocol " +:+ ContainerConfig.Protocol config)
  else if FastCGIConfig.Enabled (ContainerConfig.FastCGI config)
          && negb (String.eqb (FastCGIConfig.BackendProtocol (ContainerConfig.FastCGI config))
                              "FCGI")
  then Some "backend-protocol must be 'FCGI' when FastCGI is enabled"%string
  else if negb (HasPrefix (ContainerConfig.Path config) "/")
  then Some "path must start with '/'"%string
  else None.

(** *** [examples.go]: the helpers *)

(** The first part of a host name that is empty or longer than 63 bytes
    decides the error. *)
Fixpoint validateHostnameParts (parts : list string) : option string :=
  match parts with
  | [] => None
  | part :: rest =>
      if (String.length part =? 0)%nat
      then Some "hostname cannot have empty parts"%string
      else if (63 <? String.length part)%nat
      then Some ("hostname part '" +:+ part +:+ "' too long (max 63 characters)")
      else validateHostnameParts rest
  end.

Definition ValidateHostname (hostname : string) : option string :=
  if String.eqb hostname EmptyString
  then Some "hostname cannot be empty"%string
  else if (253 <? String.length hostname)%nat
  then Some "hostname too long (max 253 characters)"%string
  else if HasPrefix hostname "." || HasSuffix hostname "."
  then Some "hostname cannot start or end with a dot"%string
  else validateHostnameParts (Split hostname ".").

Definition SanitizeContainerName (name : string) : string :=
  let sanitized := ReplaceAll name "-" "_" in
  let sanitized := ReplaceAll sanitized "." "_" in
  let sanitized := ReplaceAll sanitized "/" "_" in
  let sanitized := Trim sanitized "_" in
  if String.eqb sanitized EmptyString then "unnamed"%string else sanitized.

(** ** Package [docker]: the container runtime client *)

Module Summary.
Record t : Type := {
  ID : string;
  Names : list string;
  Labels : gmap string string;
  Status : string
}.
End Summary.

(** What [ContainerInspect] returns, as far as the program reads it.
    [Networks] lists [NetworkSettings.Networks] (network name, IP address) in
    the order in which a [range] over that map visits it. *)
Module InspectResponse.
Record t : Type := {
  Networks : list (string * string);
  IPAddress : string
}.
End InspectResponse.

(** [CopyFromContainer] followed by reading the stream to its end. *)
Inductive CopyResult : Type :=
| CopyFails (e : string)
| ReadFails (e : string)
| Stream (bytes : string).

Record Client : Type := {
  ContainerList : outcome (list Summary.t);
  ContainerInspect : string -> outcome InspectResponse.t;
  CopyFromContainer : string -> string -> CopyResult
}.

Module ContainerData.
Record t : Type := {
  Config : ContainerConfig.t;
  IPAddress : string;
  NetworkName : string;
  Status : string
}.
End ContainerData.

(** ** Package [docker]: the rendered model ([nginx.go]) *)

Module UpstreamServer.
Record t : Type := { Address : string; Weight : Z; Backup : bool }.
End UpstreamServer.

Module UpstreamConfig.
Record t : Type := {
  Name : string;
  Method : string;
  Servers : list UpstreamServer.t;
  HealthCheck : bool;
  HealthPath : string
}.
End UpstreamConfig.

Module SSLConfig.
Record t : Type := {
  Enabled : bool;
  Certificate : string;
  PrivateKey : string;
  Protocols : list string
}.
End SSLConfig.

Module FastCGILocationConfig.
Record t : Type := {
  Enabled : bool;
  Pass : string;
  Index : string;
  Params : gmap string string
}.
End FastCGILocationConfig.

Module LocationConfig.
Record t : Type := {
  Path : string;
  Upstream : string;
  Priority : Z;
  ProxyPass : string;
  Auth : bool;
  AuthType : string;
  CORS : CORSConfig.t;
  ProxyHeaders : gmap string string;
  ConfigurationSnippet : string;
  FastCGI : FastCGILocationConfig.t
}.
End LocationConfig.

Module ServerConfig.
Record t : Type := {
  ServerName : string;
  Listen : list string;
  SSL : SSLConfig.t;
  Locations : list LocationConfig.t;
  ServerSnippet : string
}.
End ServerConfig.

Module NginxConfig.
Record t : Type := {
  Upstreams : list UpstreamConfig.t;
  Servers : list ServerConfig.t;
  Generated : Z
}.
End NginxConfig.

Record Provider : Type := {
  nginxConfigPath : string;
  templatePath : string
}.

(** ** Package [docker]: snippets ([snippets.go]) *)

Module SnippetContent.
Record t : Type := { Content : string; FilePath : string; Hash : string }.
End SnippetContent.

Record SnippetManager : Type := {
  sm_client : Client;
  sm_cacheDir : string
}.

Definition NewSnippetManager (dockerClient : Client) (cacheDir : string) : SnippetManager :=
  {| sm_client := dockerClient; sm_cacheDir := cacheDir |}.

(** [validateFilePath]: [None] is the nil error. *)
Definition validateFilePath (filePath : string) : option string :=
  if Contains filePath ".."
  then Some "path traversal not allowed"%string
  else if HasPrefix filePath "/etc/" || HasPrefix filePath "/var/"
  then Some "system directories not allowed"%string
  else if negb (HasSuffix filePath ".conf") && negb (HasSuffix filePath ".txt")
  then Some "only .conf and .txt files allowed"%string
  else None.

Section Snippets.
Variable U : UnicodeTables.
(** [fmt.Sprintf("%x", sha256.Sum256([]byte(s)))]: 64 hexadecimal digits. *)
Variable sha256_hex : string -> string.
Variable filepath_Join : string -> string -> string.

Definition hashPath (path : string) : string := substring 0 12 (sha256_hex path).
Definition hashContent (content : string) : string := substring 0 12 (sha256_hex content).

Definition loadFromCache (cacheFile : string) (w : World) : outcome SnippetContent.t :=
  match files w !! cacheFile with
  | None => Err "cache file not found"
  | Some _ =>
      match os_ReadFile cacheFile w with
      | Ok content =>
          Ok {| SnippetContent.Content := content;
                SnippetContent.FilePath := EmptyString;
                SnippetContent.Hash := hashContent content |}
      | Err e => Err e
      | Panic m => Panic m
      end
  end.

Definition saveToCache (sm : SnippetManager) (cacheFile : string)
  (snippet : SnippetContent.t) (w : World) : option string * World :=
  match os_MkdirAll (sm_cacheDir sm) w with
  | (Some e, w1) => (Some e, w1)
  | (None, w1) => os_WriteFile cacheFile (SnippetContent.Content snippet) w1
  end.

(** The first part that is not blank and does not start with [PaxHeaders]. *)
Fixpoint firstContentPart (parts : list string) : option string :=
  match parts with
  | [] => None
  | part :: rest =>
      if negb (String.eqb (TrimSpace U part) EmptyString)
         && negb (HasPrefix part "PaxHeaders")
      then Some (TrimSpace U part)
      else firstContentPart rest
  end.

(** [downloadViaExec], after the stream was read into [content]. *)
Definition downloadViaExec (content : string) : string :=
  if Contains content (String "000"%char EmptyString)
  then match firstContentPart (Split content "000"%char) with
       | Some part => part
       | None => TrimSpace U content
       end
  else TrimSpace U content.

Definition downloadFromContainer (sm : SnippetManager) (containerID filePath : string)
  (w : World) : outcome string * World :=
  let w1 := issue (CallCopyFromContainer containerID filePath) w in
  match CopyFromContainer (sm_client sm) containerID filePath with
  | CopyFails e => (Err ("failed to copy file from container: " +:+ e), w1)
  | ReadFails e => (Err ("failed to extract file from tar: " +:+ e), w1)
  | Stream bytes => (Ok (downloadViaExec bytes), w1)
  end.

(** [DownloadSnippet]; [Ok None] is the return [nil, nil]. *)
Definition DownloadSnippet (sm : SnippetManager) (containerID filePath : string)
  (w : World) : outcome (option SnippetContent.t) * World :=
  if String.eqb filePath EmptyString then (Ok None, w)
  else
    match validateFilePath filePath with
    | Some e => (Err ("invalid file path " +:+ filePath +:+ ": " +:+ e), w)
    | None =>
        match slice_to containerID 12 with
        | Panic m => (Panic m, w)
        | Err e => (Err e, w)
        | Ok shortID =>
            let cacheKey := shortID +:+ "_" +:+ hashPath filePath in
            let cacheFile := filepath_Join (sm_cacheDir sm) (cacheKey +:+ ".conf") in
            match loadFromCache cacheFile w with
            | Ok content => (Ok (Some content), w)
            | _ =>
                match downloadFromContainer sm containerID filePath w with
                | (Err e, w1) =>
                    (Err ("failed to download " +:+ filePath +:+ " from container "
                          +:+ containerID +:+ ": " +:+ e), w1)
                | (Panic m, w1) => (Panic m, w1)
                | (Ok content, w1) =>
                    let snippet :=
                      {| SnippetContent.Content := content;
                         SnippetContent.FilePath := filePath;
                         SnippetContent.Hash := hashContent content |} in
                    match saveToCache sm cacheFile snippet w1 with
                    | (Some e, w2) =>
                        (Ok (Some snippet),
                         Printf ("Warning: failed to cache snippet " +:+ cacheFile
                                 +:+ ": " +:+ e) w2)
                    | (None, w2) => (Ok (Some snippet), w2)
                    end
                end
            end
        end
    end.

(** One of the two downloads of [DownloadAllSnippets]: the snippet at [path]
    is stored under [key]. *)
Definition downloadInto (sm : SnippetManager) (containerID : string)
  (key what path : string) (snippets : gmap string SnippetContent.t) (w : World)
  : outcome (gmap string SnippetContent.t) * World :=
  if String.eqb path EmptyString then (Ok snippets, w)
  else
    match DownloadSnippet sm containerID path w with
    | (Err e, w1) => (Err ("failed to download " +:+ what +:+ " snippet: " +:+ e), w1)
    | (Panic m, w1) => (Panic m, w1)
    | (Ok None, w1) => (Ok snippets, w1)
    | (Ok (Some snippet), w1) => (Ok (<[key := snippet]> snippets), w1)
    end.

Definition DownloadAllSnippets (sm : SnippetManager) (config : ContainerConfig.t)
  (w : World) : outcome (gmap string SnippetContent.t) * World :=
  match downloadInto sm (ContainerConfig.ContainerID config) "configuration" "configuration"
          (ContainerConfig.ConfigurationSnippet config) ∅ w with
  | (Ok snippets, w1) =>
      downloadInto sm (ContainerConfig.ContainerID config) "server" "server"
        (ContainerConfig.ServerSnippet config) snippets w1
  | r => r
  end.

(** ** Package [docker]: FastCGI parameters ([fastcgi.go]) *)

Record FastCGIParameterManager : Type := {
  fpm_client : Client;
  fpm_cacheDir : string;
  snippetManager : SnippetManager
}.

Definition NewFastCGIParameterManager (client : Client) (cacheDir : string)
  : FastCGIParameterManager :=
  {| fpm_client := client; fpm_cacheDir := cacheDir;
     snippetManager := NewSnippetManager client cacheDir |}.

(** [bufio.MaxScanTokenSize]: the scanner gives up on a line of that many
    bytes or more. *)
Definition MaxScanTokenSize : N := 65536.

Definition dropCR (line : string) : string := TrimSuffix line (String "013"%char EmptyString).

(** The tokens [bufio.Scanner] yields with [ScanLines] from the pieces
    between line feeds: one trailing carriage return dropped, no token for
    an empty last piece; the flag tells that the scan stopped at a line that
    is too long ([scanner.Err()] is not nil). *)
Fixpoint scanTokens (raw : list string) : list string * bool :=
  match raw with
  | [] => ([], false)
  | [EmptyString] => ([], false)
  | line :: rest =>
      if (MaxScanTokenSize <=? N.of_nat (String.length line))%N then ([], true)
      else let (tokens, failed) := scanTokens rest in (dropCR line :: tokens, failed)
  end.

Definition scanLines (content : string) : list string * bool :=
  scanTokens (Split content newline).

(** Surrounding quotes removed by [value[1 : len(value)-1]], which panics
    on the one-byte strings that are a single quote character. *)
Definition stripQuotes (value : string) : outcome string :=
  if (HasPrefix value dquote && HasSuffix value dquote)
     || (HasPrefix value squote && HasSuffix value squote)
  then if (1 <=? String.length value - 1)%nat
       then Ok (substring 1 (String.length value - 2) value)
       else Panic "runtime error: slice bounds out of range"
  else Ok value.

(** One line of a parameter file. *)
Definition parseParamLine (params : gmap string string) (rawLine : string)
  : outcome (gmap string string) :=
  let line := TrimSpace U rawLine in
  if String.eqb line EmptyString || HasPrefix line "#" then Ok params
  else if HasPrefix line "fastcgi_param "
  then match Fields U line with
       | _ :: paramName :: rest =>
           match rest with
           | [] => Ok params
           | _ =>
               match stripQuotes (TrimSuffix (Join rest " ") ";") with
               | Ok paramValue => Ok (<[paramName := paramValue]> params)
               | Err e => Err e
               | Panic m => Panic m
               end
           end
       | _ => Ok params
       end
  else match SplitN2 line "=" with
       | [k; v] =>
           match stripQuotes (TrimSpace U v) with
           | Ok value => Ok (<[TrimSpace U k := value]> params)
           | Err e => Err e
           | Panic m => Panic m
           end
       | _ => Ok params
       end.

Fixpoint parseParamLines (params : gmap string string) (lines : list string)
  : outcome (gmap string string) :=
  match lines with
  | [] => Ok params
  | line :: rest =>
      match parseParamLine params line with
      | Ok params' => parseParamLines params' rest
      | r => r
      end
  end.

Definition parseFastCGIParamsFile (content : string) : outcome (gmap string string) :=
  let (lines, failed) := scanLines content in
  match parseParamLines ∅ lines with
  | Ok params =>
      if failed
      then Err "error reading FastCGI params file: bufio.Scanner: token too long"
      else Ok params
  | r => r
  end.

Definition loadParamsFromFile (fpm : FastCGIParameterManager) (containerID filePath : string)
  (w : World) : outcome (gmap string string) * World :=
  match validateFilePath filePath with
  | Some e => (Err e, w)
  | None =>
      match DownloadSnippet (snippetManager fpm) containerID filePath w with
      | (Err e, w1) => (Err e, w1)
      | (Panic m, w1) => (Panic m, w1)
      | (Ok None, w1) =>
          (Panic "runtime error: invalid memory address or nil pointer dereference", w1)
      | (Ok (Some snippetContent), w1) =>
          (parseFastCGIParamsFile (SnippetContent.Content snippetContent), w1)
      end
  end.

Definition defaultPHPParams : gmap string string :=
  list_to_map
    [("SCRIPT_FILENAME", "$document_root$fastcgi_script_name");
     ("QUERY_STRING", "$query_string");
     ("REQUEST_METHOD", "$request_method");
     ("CONTENT_TYPE", "$content_type");
     ("CONTENT_LENGTH", "$content_length");
     ("SCRIPT_NAME", "$fastcgi_script_name");
     ("REQUEST_URI", "$request_uri");
     ("DOCUMENT_URI", "$document_uri");
     ("DOCUMENT_ROOT", "$document_root");
     ("SERVER_PROTOCOL", "$server_protocol");
     ("REQUEST_SCHEME", "$scheme");
     ("HTTPS", "$https if_not_empty");
     ("GATEWAY_INTERFACE", "CGI/1.1");
     ("SERVER_SOFTWARE", "nginx/$nginx_version");
     ("REMOTE_ADDR", "$remote_addr");
     ("REMOTE_PORT", "$remote_port");
     ("SERVER_ADDR", "$server_addr");
     ("SERVER_PORT", "$server_port");
     ("SERVER_NAME", "$server_name");
     ("REDIRECT_STATUS", "200")]%string.

(** [addDefaultPHPParams]: a default is added where the key is not set. *)
Definition addDefaultPHPParams (params : gmap string string) : gmap string string :=
  params ∪ defaultPHPParams.

Definition LoadFastCGIParams (fpm : FastCGIParameterManager) (config : ContainerConfig.t)
  (w : World) : outcome (gmap string string) * World :=
  let params := FastCGIConfig.Params (ContainerConfig.FastCGI config) in
  let paramsFile := FastCGIConfig.ParamsFile (ContainerConfig.FastCGI config) in
  if String.eqb paramsFile EmptyString
  then (Ok (addDefaultPHPParams params), w)
  else
    match loadParamsFromFile fpm (ContainerConfig.ContainerID config) paramsFile w with
    | (Err e, w1) =>
        (Err ("failed to load FastCGI params from file " +:+ paramsFile +:+ ": " +:+ e), w1)
    | (Panic m, w1) => (Panic m, w1)
    | (Ok fileParams, w1) => (Ok (addDefaultPHPParams (fileParams ∪ params)), w1)
    end.

Definition ValidateFastCGIParams (params : gmap string string) (w : World)
  : option string * World :=
  match params !! "SCRIPT_FILENAME", params !! "REQUEST_METHOD" with
  | None, _ => (Some "required FastCGI parameter SCRIPT_FILENAME is missing"%string, w)
  | Some _, None => (Some "required FastCGI parameter REQUEST_METHOD is missing"%string, w)
  | Some scriptFilename, Some _ =>
      if negb (Contains scriptFilename "$fastcgi_script_name")
         && negb (Contains scriptFilename "$document_root")
      then (None,
            Printf ("Warning: SCRIPT_FILENAME '" +:+ scriptFilename
                    +:+ "' should typically contain $fastcgi_script_name or $document_root variables")
                   w)
      else (None, w)
  end.

Definition GetSupportedFileExtensions : list string := [".conf"; ".txt"; ".params"]%string.

(** ** Package [docker]: listing the containers ([data.go]) *)


(** [hasNginxLabels]: some key starts with the prefix. *)
Definition hasNginxLabels (labels : gmap string string) : bool :=
  bool_decide (Exists (fun kv => HasPrefix (fst kv) LabelPrefix = true) (map_to_list labels)).

Fixpoint firstCustomNetwork (networks : list (string * string)) : option (string * string) :=
  match networks with
  | [] => None
  | (name, ip) :: rest =>
      if negb (String.eqb name "bridge") && negb (String.eqb ip EmptyString)
      then Some (ip, name)
      else firstCustomNetwork rest
  end.

Fixpoint networkIP (networks : list (string * string)) (name : string) : option string :=
  match networks with
  | [] => None
  | (n, ip) :: rest => if String.eqb n name then Some ip else networkIP rest name
  end.

Definition extractNetworkInfo (containerJSON : InspectResponse.t) : string * string :=
  let networks := InspectResponse.Networks containerJSON in
  match firstCustomNetwork networks with
  | Some r => r
  | None =>
      match networkIP networks "bridge" with
      | Some ip =>
          if negb (String.eqb ip EmptyString) then (ip, "bridge"%string)
          else if negb (String.eqb (InspectResponse.IPAddress containerJSON) EmptyString)
          then (InspectResponse.IPAddress containerJSON, "bridge"%string)
          else (EmptyString, EmptyString)
      | None =>
          if negb (String.eqb (InspectResponse.IPAddress containerJSON) EmptyString)
          then (InspectResponse.IPAddress containerJSON, "bridge"%string)
          else (EmptyString, EmptyString)
      end
  end.

Definition getContainerName (names : list string) : string :=
  match names with
  | [] => EmptyString
  | name :: _ =>
      match name with
      | String "/"%char rest => rest
      | _ => name
      end
  end.

(** The body of the loop of [ListContainers] for one container: the record
    to append, if any. *)
Definition listContainer (cli : Client) (container : Summary.t) (w : World)
  : outcome (option ContainerData.t) * World :=
  if negb (hasNginxLabels (Summary.Labels container)) then (Ok None, w)
  else
    let w1 := issue (CallContainerInspect (Summary.ID container)) w in
    match ContainerInspect cli (Summary.ID container) with
    | Panic m => (Panic m, w1)
    | Err e =>
        (Ok None, Printf ("Warning: failed to inspect container " +:+ Summary.ID container
                          +:+ ": " +:+ e) w1)
    | Ok containerJSON =>
        let (networkIP, networkName) := extractNetworkInfo containerJSON in
        match ExtractConfig U (Summary.ID container)
                (getContainerName (Summary.Names container)) networkIP
                (Summary.Labels container) with
        | Panic m => (Panic m, w1)
        | Err e =>
            (Ok None, Printf ("Warning: failed to extract config for container "
                              +:+ Summary.ID container +:+ ": " +:+ e) w1)
        | Ok config =>
            if negb (ContainerConfig.Enabled config) then (Ok None, w1)
            else
              match ValidateConfig config with
              | Some e =>
                  (Ok None, Printf ("Warning: invalid config for container "
                                    +:+ Summary.ID container +:+ ": " +:+ e) w1)
              | None =>
                  (Ok (Some {| ContainerData.Config := config;
                               ContainerData.IPAddress := networkIP;
                               ContainerData.NetworkName := networkName;
                               ContainerData.Status := Summary.Status container |}), w1)
              end
        end
    end.

Fixpoint listContainers (cli : Client) (containers : list Summary.t) (w : World)
  : outcome (list ContainerData.t) * World :=
  match containers with
  | [] => (Ok [], w)
  | container :: rest =>
      match listContainer cli container w with
      | (Ok data, w1) =>
          match listContainers cli rest w1 with
          | (Ok datas, w2) =>
              (Ok (match data with Some d => d :: datas | None => datas end), w2)
          | r => r
          end
      | (Err e, w1) => (Err e, w1)
      | (Panic m, w1) => (Panic m, w1)
      end
  end.

Definition ListContainers (cli : Client) (w : World) : outcome (list ContainerData.t) * World :=
  let w1 := issue CallContainerList w in
  match ContainerList cli with
  | Err e => (Err ("failed to list containers: " +:+ e), w1)
  | Panic m => (Panic m, w1)
  | Ok containers => listContainers cli containers w1
  end.

Definition FilterEnabledContainers (containers : list ContainerData.t) : list ContainerData.t :=
  filter (fun container => ContainerConfig.Enabled (ContainerData.Config container) = true)
         containers.

(** [hostGroups[host] = append(hostGroups[host], container)], on the groups
    kept in the order in which their hosts first occur. *)
Fixpoint appendToGroup (host : string) (container : ContainerData.t)
  (groups : list (string * list ContainerData.t)) : list (string * list ContainerData.t) :=
  match groups with
  | [] => [(host, [container])]
  | (h, members) :: rest =>
      if String.eqb h host then (h, members ++ [container]) :: rest
      else (h, members) :: appendToGroup host container rest
  end.

(** [GroupContainersByHost].  The Go map has no order of its own; this list
    is one enumeration of it, and [GenerateNginxConfig] below accepts every
    other. *)
Definition GroupContainersByHost (containers : list ContainerData.t)
  : list (string * list ContainerData.t) :=
  fold_left
    (fun groups container =>
       appendToGroup (ContainerConfig.Host (ContainerData.Config container)) container groups)
    containers [].

(** ** Package [docker]: generating the configuration ([nginx.go]) *)

Definition needsSSL (hostContainers : list ContainerData.t) : bool :=
  existsb (fun container => ContainerConfig.TLS (ContainerData.Config container)) hostContainers.

(** The loop "download server snippet if needed": the first container of the
    host that names a server snippet decides, whether its download works or
    not. *)
Fixpoint serverSnippetFor (sm : SnippetManager) (hostContainers : list ContainerData.t)
  (w : World) : outcome string * World :=
  match hostContainers with
  | [] => (Ok EmptyString, w)
  | container :: rest =>
      let config := ContainerData.Config container in
      if negb (String.eqb (ContainerConfig.ServerSnippet config) EmptyString)
      then match DownloadAllSnippets sm config w with
           | (Err e, w1) =>
               (Ok EmptyString,
                Printf ("Warning: failed to download snippets for container "
                        +:+ ContainerConfig.ContainerName config +:+ ": " +:+ e) w1)
           | (Panic m, w1) => (Panic m, w1)
           | (Ok snippets, w1) =>
               (Ok (match snippets !! "server" with
                    | Some serverSnippet => SnippetContent.Content serverSnippet
                    | None => EmptyString
                    end), w1)
           end
      else serverSnippetFor sm rest w
  end.

Definition upstreamNameFor (host : string) (container : ContainerData.t) : string :=
  "backend_" +:+ ReplaceAll host "." "_" +:+ "_"
  +:+ ContainerConfig.ContainerName (ContainerData.Config container).

Definition upstreamFor (host : string) (container : ContainerData.t) : UpstreamConfig.t :=
  let config := ContainerData.Config container in
  {| UpstreamConfig.Name := upstreamNameFor host container;
     UpstreamConfig.Method := LoadBalancerConfig.Method (ContainerConfig.LoadBalancer config);
     UpstreamConfig.Servers :=
       [ {| UpstreamServer.Address :=
              ContainerData.IPAddress container +:+ ":" +:+ Itoa (ContainerConfig.Port config);
            UpstreamServer.Weight := 1;
            UpstreamServer.Backup := false |} ];
     UpstreamConfig.HealthCheck := HealthCheckConfig.Enabled (ContainerConfig.HealthCheck config);
     UpstreamConfig.HealthPath := HealthCheckConfig.Path (ContainerConfig.HealthCheck config) |}.

(** "Download configuration snippet if needed" *)
Definition configSnippetFor (sm : SnippetManager) (container : ContainerData.t) (w : World)
  : outcome string * World :=
  let config := ContainerData.Config container in
  if negb (String.eqb (ContainerConfig.ConfigurationSnippet config) EmptyString)
  then match DownloadAllSnippets sm config w with
       | (Err e, w1) =>
           (Ok EmptyString,
            Printf ("Warning: failed to download snippets for container "
                    +:+ ContainerConfig.ContainerName config +:+ ": " +:+ e) w1)
       | (Panic m, w1) => (Panic m, w1)
       | (Ok snippets, w1) =>
           (Ok (match snippets !! "configuration" with
                | Some configSnippet => SnippetContent.Content configSnippet
                | None => EmptyString
                end), w1)
       end
  else (Ok EmptyString, w).

Definition noFastCGI : FastCGILocationConfig.t :=
  {| FastCGILocationConfig.Enabled := false; FastCGILocationConfig.Pass := EmptyString;
     FastCGILocationConfig.Index := EmptyString; FastCGILocationConfig.Params := ∅ |}.

(** The body of the loop "create upstream and locations for each container"
    after the upstream was appended: the location of one container. *)
Definition locationFor (sm : SnippetManager) (fastcgiManager : FastCGIParameterManager)
  (host : string) (container : ContainerData.t) (w : World)
  : outcome LocationConfig.t * World :=
  let config := ContainerData.Config container in
  let upstreamName := upstreamNameFor host container in
  match configSnippetFor sm container w with
  | (Err e, w1) => (Err e, w1)
  | (Panic m, w1) => (Panic m, w1)
  | (Ok configSnippetContent, w1) =>
      match slice_to (ContainerConfig.ContainerID config) 12 with
      | Err e => (Err e, w1)
      | Panic m => (Panic m, w1)
      | Ok shortID =>
          let location (proxyPass : string) (fastcgi : FastCGILocationConfig.t) :=
            {| LocationConfig.Path := ContainerConfig.Path config;
               LocationConfig.Upstream := upstreamName;
               LocationConfig.Priority := ContainerConfig.Priority config;
               LocationConfig.ProxyPass := proxyPass;
               LocationConfig.Auth :=
                 AuthConfig.Enabled (MiddlewareConfig.Auth (ContainerConfig.Middleware config));
               LocationConfig.AuthType :=
                 AuthConfig.Type_ (MiddlewareConfig.Auth (ContainerConfig.Middleware config));
               LocationConfig.CORS := MiddlewareConfig.CORS (ContainerConfig.Middleware config);
               LocationConfig.ProxyHeaders :=
                 <["X-Container-ID"%string := shortID]>
                   (<["X-Container-Name"%string := ContainerConfig.ContainerName config]> ∅);
               LocationConfig.ConfigurationSnippet := configSnippetContent;
               LocationConfig.FastCGI := fastcgi |} in
          if FastCGIConfig.Enabled (ContainerConfig.FastCGI config)
          then
            match LoadFastCGIParams fastcgiManager config w1 with
            | (Err e, w2) =>
                (Err ("failed to load FastCGI params for container "
                      +:+ ContainerConfig.ContainerName config +:+ ": " +:+ e), w2)
            | (Panic m, w2) => (Panic m, w2)
            | (Ok fastcgiParams, w2) =>
                match ValidateFastCGIParams fastcgiParams w2 with
                | (Some e, w3) =>
                    (Err ("invalid FastCGI params for container "
                          +:+ ContainerConfig.ContainerName config +:+ ": " +:+ e), w3)
                | (None, w3) =>
                    (Ok (location EmptyString
                           {| FastCGILocationConfig.Enabled := true;
                              FastCGILocationConfig.Pass :=
                                ContainerData.IPAddress container +:+ ":"
                                +:+ Itoa (ContainerConfig.Port config);
                              FastCGILocationConfig.Index :=
                                FastCGIConfig.Index (ContainerConfig.FastCGI config);
                              FastCGILocationConfig.Params := fastcgiParams |}), w3)
                end
            end
          else (Ok (location ("http://" +:+ upstreamName) noFastCGI), w1)
      end
  end.

(** The inner loop over the containers of one host: the upstreams and the
    locations, in the order of the containers.  An error of one container
    ends the loop, and the function, with that error. *)
Fixpoint hostContainersLoop (sm : SnippetManager) (fastcgiManager : FastCGIParameterManager)
  (host : string) (hostContainers : list ContainerData.t) (w : World)
  : outcome (list UpstreamConfig.t * list LocationConfig.t) * World :=
  match hostContainers with
  | [] => (Ok ([], []), w)
  | container :: rest =>
      match locationFor sm fastcgiManager host container w with
      | (Err e, w1) => (Err e, w1)
      | (Panic m, w1) => (Panic m, w1)
      | (Ok location, w1) =>
          match hostContainersLoop sm fastcgiManager host rest w1 with
          | (Ok (upstreams, locations), w2) =>
              (Ok (upstreamFor host container :: upstreams, location :: locations), w2)
          | r => r
          end
      end
  end.

(** The body of the outer loop: the server block of one host and the
    upstreams of its containers. *)
Definition serverFor (sm : SnippetManager) (fastcgiManager : FastCGIParameterManager)
  (host : string) (hostContainers : list ContainerData.t) (w : World)
  : outcome (list UpstreamConfig.t * ServerConfig.t) * World :=
  let ssl := needsSSL hostContainers in
  match serverSnippetFor sm hostContainers w with
  | (Err e, w1) => (Err e, w1)
  | (Panic m, w1) => (Panic m, w1)
  | (Ok serverSnippetContent, w1) =>
      match hostContainersLoop sm fastcgiManager host hostContainers w1 with
      | (Err e, w2) => (Err e, w2)
      | (Panic m, w2) => (Panic m, w2)
      | (Ok (upstreams, locations), w2) =>
          (Ok (upstreams,
               {| ServerConfig.ServerName := host;
                  ServerConfig.Listen :=
                    if ssl then ["80"; "443 ssl"]%string else ["80"]%string;
                  ServerConfig.SSL :=
                    if ssl
                    then {| SSLConfig.Enabled := true;
                            SSLConfig.Certificate := "/etc/nginx/ssl/default.crt";
                            SSLConfig.PrivateKey := "/etc/nginx/ssl/default.key";
                            SSLConfig.Protocols := ["TLSv1.2"; "TLSv1.3"]%string |}
                    else {| SSLConfig.Enabled := false;
                            SSLConfig.Certificate := EmptyString;
                            SSLConfig.PrivateKey := EmptyString;
                            SSLConfig.Protocols := [] |};
                  ServerConfig.Locations := locations;
                  ServerConfig.ServerSnippet := serverSnippetContent |}), w2)
      end
  end.

(** The outer loop, over the host groups in the order [hostGroups]. *)
Fixpoint hostGroupsLoop (sm : SnippetManager) (fastcgiManager : FastCGIParameterManager)
  (hostGroups : list (string * list ContainerData.t)) (w : World)
  : outcome (list UpstreamConfig.t * list ServerConfig.t) * World :=
  match hostGroups with
  | [] => (Ok ([], []), w)
  | (host, hostContainers) :: rest =>
      match serverFor sm fastcgiManager host hostContainers w with
      | (Err e, w1) => (Err e, w1)
      | (Panic m, w1) => (Panic m, w1)
      | (Ok (upstreams, server), w1) =>
          match hostGroupsLoop sm fastcgiManager rest w1 with
          | (Ok (upstreams', servers), w2) => (Ok (upstreams ++ upstreams', server :: servers), w2)
          | r => r
          end
      end
  end.

(** [GenerateNginxConfig] when the [range] over the host groups visits them
    in the order [visit]; [now] is the reading of [time.Now()]. *)
Definition GenerateNginxConfigIn (visit : list (string * list ContainerData.t))
  (sm : SnippetManager) (fastcgiManager : FastCGIParameterManager) (now : Z) (w : World)
  : outcome NginxConfig.t * World :=
  match hostGroupsLoop sm fastcgiManager visit w with
  | (Ok (upstreams, servers), w1) =>
      (Ok {| NginxConfig.Upstreams := upstreams; NginxConfig.Servers := servers;
             NginxConfig.Generated := now |}, w1)
  | (Err e, w1) => (Err e, w1)
  | (Panic m, w1) => (Panic m, w1)
  end.

(** [GenerateNginxConfig]: the runs of the function on [containers], one for
    each order in which the host groups can be visited. *)
Definition GenerateNginxConfig (containers : list ContainerData.t)
  (sm : SnippetManager) (fastcgiManager : FastCGIParameterManager) (now : Z) (w : World)
  (result : outcome NginxConfig.t * World) : Prop :=
  exists visit,
    Permutation visit (GroupContainersByHost containers) /\
    GenerateNginxConfigIn visit sm fastcgiManager now w = result.

(** ** Package [docker]: committing the file ([provider.go]) *)

(** [RenderNginxConfig] reads a template file and runs the template engine
    on it; neither is part of the sources at hand. *)
Variable RenderNginxConfig : NginxConfig.t -> string -> World -> outcome string.
Variable filepath_Dir : string -> string.

(** [writeConfigFile]: [None] is the nil error. *)
Definition writeConfigFile (p : Provider) (config : NginxConfig.t) (w : World)
  : outcome unit * World :=
  match RenderNginxConfig config (templatePath p) w with
  | Err e => (Err e, w)
  | Panic m => (Panic m, w)
  | Ok content =>
      let dir := filepath_Dir (nginxConfigPath p) in
      match os_MkdirAll dir w with
      | (Some e, w1) => (Err ("failed to create config directory: " +:+ e), w1)
      | (None, w1) =>
          let tempFile := nginxConfigPath p +:+ ".tmp" in
          match os_WriteFile tempFile content w1 with
          | (Some e, w2) => (Err ("failed to write temp config file: " +:+ e), w2)
          | (None, w2) =>
              match os_Rename tempFile (nginxConfigPath p) w2 with
              | (Some e, w3) =>
                  (Err ("failed to move config file: " +:+ e), os_Remove tempFile w3)
              | (None, w3) =>
                  (Ok tt, Printf ("Nginx configuration written to " +:+ nginxConfigPath p) w3)
              end
          end
      end
  end.

End Snippets.

(** [sort.Slice].  A slice of up to twelve elements is sorted by insertion
    ([insertionSortLessFunc]): each element in turn moves left while it is
    less than its left neighbour; [sorted_rev] is the sorted prefix, last
    element first.  A longer slice goes through the pattern-defeating
    quicksort of the library, which is not among the sources: [pdqsort]
    stands for it. *)
Fixpoint insertLess {A : Type} (less : A -> A -> bool) (x : A) (sorted_rev : list A) : list A :=
  match sorted_rev with
  | [] => [x]
  | y :: rest => if less x y then y :: insertLess less x rest else x :: sorted_rev
  end.

Definition insertionSortLessFunc {A : Type} (less : A -> A -> bool) (data : list A) : list A :=
  rev (fold_left (fun sorted_rev x => insertLess less x sorted_rev) data []).

Definition sort_Slice {A : Type} (pdqsort : (A -> A -> bool) -> list A -> list A)
  (less : A -> A -> bool) (data : list A) : list A :=
  if (length data <=? 12)%nat then insertionSortLessFunc less data else pdqsort less data.

(** The comparison of [sortLocationsByPriority]: higher priority first, then
    the longer path. *)
Definition locationLess (a b : LocationConfig.t) : bool :=
  if negb (LocationConfig.Priority a =? LocationConfig.Priority b)%Z
  then (LocationConfig.Priority b <? LocationConfig.Priority a)%Z
  else (String.length (LocationConfig.Path b) <? String.length (LocationConfig.Path a))%nat.

Definition sortLocationsByPriority
  (pdqsort : (LocationConfig.t -> LocationConfig.t -> bool)
             -> list LocationConfig.t -> list LocationConfig.t)
  (locations : list LocationConfig.t) : list LocationConfig.t :=
  sort_Slice pdqsort locationLess locations.

(** Modelled from the spec: the template that writes the server blocks
    ([templates/nginx.conf.tmpl]) is not among the sources; all the sources
    show is that [RenderNginxConfig] hands it [sortLocationsByPriority] under
    that name.  The specification has the locations of a server block sorted
    by priority, then path length, before they are emitted:
    [emittedLocations] is the order of their emission. *)
Definition emittedLocations
  (pdqsort : (LocationConfig.t -> LocationConfig.t -> bool)
             -> list LocationConfig.t -> list LocationConfig.t)
  (server : ServerConfig.t) : list LocationConfig.t :=
  sortLocationsByPriority pdqsort (ServerConfig.Locations server).

End docker.

(** ** Package [errors]: the circuit breaker *)

Module errors.
Local Open Scope Z_scope.

(** [x++] on an [int]: 64 bits, two's complement. *)
Definition wrap_int (x : Z) : Z := (x + 2 ^ 63) mod 2 ^ 64 - 2 ^ 63.

(** A [time.Duration] counts nanoseconds in 64 bits; [Time.Sub] saturates.
    A [time.Time] is the number of nanoseconds since a fixed instant. *)
Definition maxDuration : Z := 2 ^ 63 - 1.
Definition minDuration : Z := - 2 ^ 63.
Definition Sub (t u : Z) : Z := Z.max minDuration (Z.min maxDuration (t - u)).

(** The zero [time.Time]: 1 January of year 1, against the Unix epoch. *)
Definition zeroTime : Z := -62135596800 * 1000000000.

Inductive CircuitState : Type := Closed | Open | HalfOpen.

Record CircuitBreaker : Type := {
  failureThreshold : Z;
  timeout : Z;
  failureCount : Z;
  lastFailureTime : Z;
  state : CircuitState
}.

Definition NewCircuitBreaker (failureThreshold timeout : Z) : CircuitBreaker :=
  {| failureThreshold := failureThreshold; timeout := timeout;
     failureCount := 0; lastFailureTime := zeroTime; state := Closed |}.

Definition isOpen (s : CircuitState) : bool :=
  match s with Open => true | _ => false end.

(** The breaker set to half-open, its failure count back at zero. *)
Definition halfOpen (cb : CircuitBreaker) : CircuitBreaker :=
  {| failureThreshold := failureThreshold cb; timeout := timeout cb;
     failureCount := 0; lastFailureTime := lastFailureTime cb; state := HalfOpen |}.

(** "Check if circuit should be reset from open to half-open" *)
Definition checkReset (cb : CircuitBreaker) (now : Z) : CircuitBreaker :=
  if isOpen (state cb) && (timeout cb <? Sub now (lastFailureTime cb))
  then halfOpen cb
  else cb.

(** [Execute].  [now] is the clock when the call starts ([time.Since]) and
    [later] the clock after the operation failed ([time.Now()]).  The
    operation works on a state [W] of its own and returns its error, [None]
    for nil. *)
Definition Execute {W : Type} (cb : CircuitBreaker) (now later : Z)
  (operation : W -> option string * W) (w : W) : option string * CircuitBreaker * W :=
  let cb := checkReset cb now in
  if isOpen (state cb) then (Some "circuit breaker is open"%string, cb, w)
  else
    match operation w with
    | (Some err, w') =>
        let count := wrap_int (failureCount cb + 1) in
        (Some err,
         {| failureThreshold := failureThreshold cb; timeout := timeout cb;
            failureCount := count; lastFailureTime := later;
            state := if failureThreshold cb <=? count then Open else state cb |},
         w')
    | (None, w') =>
        (None,
         {| failureThreshold := failureThreshold cb; timeout := timeout cb;
            failureCount := 0; lastFailureTime := lastFailureTime cb;
            state := match state cb with HalfOpen => Closed | s => s end |},
         w')
    end.

Definition GetState (cb : CircuitBreaker) : CircuitState := state cb.

Definition Reset (cb : CircuitBreaker) : CircuitBreaker :=
  {| failureThreshold := failureThreshold cb; timeout := timeout cb;
     failureCount := 0; lastFailureTime := lastFailureTime cb; state := Closed |}.

(** A run of calls of [Execute], each with its two clock readings and its
    operation; the breaker and the operations' state after the last one. *)
Fixpoint ExecuteAll {W : Type} (cb : CircuitBreaker)
  (calls : list (Z * Z * (W -> option string * W))) (w : W) : CircuitBreaker * W :=
  match calls with
  | [] => (cb, w)
  | (now, later, operation) :: rest =>
      let '(_, cb', w') := Execute cb now later operation w in
      ExecuteAll cb' rest w'
  end.

(** An operation that fails whatever its state. *)
Definition alwaysFails {W : Type} (operation : W -> option string * W) : Prop :=
  forall w, fst (operation w) <> None.

End errors.

(** ** Package [health] *)

Module health.

Inductive HealthStatus : Type := Healthy | Degraded | Unhealthy.

Record ComponentHealth : Type := {
  Name : string;
  Status : HealthStatus;
  ErrorCount : Z
}.

Record HealthMonitor : Type := {
  components : gmap string ComponentHealth
}.

Definition NewHealthMonitor : HealthMonitor := {| components := ∅ |}.

Definition RegisterComponent (hm : HealthMonitor) (name : string) : HealthMonitor :=
  {| components :=
       <[name := {| Name := name; Status := Healthy; ErrorCount := 0 |}]> (components hm) |}.

(** The loop of [GetOverallHealth] over the components as visited:
    [overallStatus] is the status found so far. *)
Fixpoint overallOf (visit : list ComponentHealth) (overallStatus : HealthStatus) : HealthStatus :=
  match visit with
  | [] => overallStatus
  | component :: rest =>
      match Status component with
      | Unhealthy => Unhealthy
      | Degraded => overallOf rest Degraded
      | Healthy => overallOf rest overallStatus
      end
  end.

Definition GetOverallHealth (hm : HealthMonitor) : HealthStatus :=
  overallOf (snd <$> map_to_list (components hm)) Healthy.

Definition StatusOK : Z := 200.
Definition StatusServiceUnavailable : Z := 503.

(** The JSON body with the one field [status]. *)
Definition statusBody (word : string) : string :=
  "{" +:+ dquote +:+ "status" +:+ dquote +:+ ":" +:+ dquote +:+ word +:+ dquote +:+ "}".

(** [healthHandler]: the status code and the body written. *)
Definition healthHandler (hm : HealthMonitor) : Z * string :=
  match GetOverallHealth hm with
  | Healthy => (StatusOK, statusBody "healthy")
  | Degraded => (StatusOK, statusBody "degraded")
  | Unhealthy => (StatusServiceUnavailable, statusBody "unhealthy")
  end.

Definition IsHealthy (hm : HealthMonitor) : bool :=
  match GetOverallHealth hm with Healthy => true | _ => false end.

End health.

Import docker.

(** ** The vocabulary of the specification *)

(** A path the safety gate must refuse: it contains [..], or starts in a
    reserved system directory, or ends in none of the supported suffixes. *)
Definition unsafePath (filePath : string) : Prop :=
  Contains filePath ".." = true \/
  HasPrefix filePath "/etc/" = true \/
  HasPrefix filePath "/var/" = true \/
  (forall ext, In ext GetSupportedFileExtensions -> HasSuffix filePath ext = false).

(** The upstream name the specification asks for. *)
Definition specUpstreamName (host containerName : string) : string :=
  "backend_" +:+ ReplaceAll host "." "_" +:+ "_" +:+ SanitizeContainerName containerName.

(** [a] may be emitted before [b]: higher priority, or the same priority
    and a path at least as long. *)
Definition emittedBefore (a b : LocationConfig.t) : Prop :=
  (LocationConfig.Priority b < LocationConfig.Priority a)%Z \/
  (LocationConfig.Priority a = LocationConfig.Priority b /\
   String.length (LocationConfig.Path b) <= String.length (LocationConfig.Path a)).

(** What the library documents of its sort: for a comparison that is a
    strict weak order, the result holds the elements of the slice, and none
    of them is less than one placed before it. *)
Definition sortsAsDocumented {A : Type} (sort : (A -> A -> bool) -> list A -> list A) : Prop :=
  forall less : A -> A -> bool,
    (forall a b, less a b = true -> less b a = false) ->
    (forall a b c, less a b = false -> less b c = false -> less a c = false) ->
    forall data,
      Permutation (sort less data) data /\
      StronglySorted (fun a b => less b a = false) (sort less data).

(** The labels other than [host] that [ExtractConfig] and [ValidateConfig]
    check are absent or well formed. *)
Definition validPortLabel (labels : gmap string string) : Prop :=
  labels !! LabelPort = None \/
  exists portStr port,
    labels !! LabelPort = Some portStr /\ Atoi portStr = Some port /\
    (0 < port <= 65535)%Z.

Definition validProtocolLabel (labels : gmap string string) : Prop :=
  labels !! LabelProtocol = None \/
  labels !! LabelProtocol = Some "http"%string \/
  labels !! LabelProtocol = Some "https"%string.

Definition validPathLabel (labels : gmap string string) : Prop :=
  labels !! LabelPath = None \/
  exists path, labels !! LabelPath = Some path /\ HasPrefix path "/" = true.

(** A FastCGI container whose parameter file the path gate refuses. *)
Definition refusedParamsFile (container : ContainerData.t) : Prop :=
  let fastcgi := ContainerConfig.FastCGI (ContainerData.Config container) in
  FastCGIConfig.Enabled fastcgi = true /\
  FastCGIConfig.ParamsFile fastcgi <> EmptyString /\
  unsafePath (FastCGIConfig.ParamsFile fastcgi).

(** ** Concrete surroundings, to run the model *)

Module Fixture.

Definition hash (s : string) : string :=
  "e3b0c44298fc1c149afbf4c8996fb92427ae41e4649b934ca495991b7852b855".

Definition join (dir name : string) : string := dir +:+ "/" +:+ name.

Definition world : World :=
  {| files := ∅; faults := fun _ => None; runtime_calls := []; output := [] |}.

(** A runtime without containers. *)
Definition client : Client :=
  {| ContainerList := Ok [];
     ContainerInspect := fun _ => Err "No such container";
     CopyFromContainer := fun _ _ => CopyFails "No such container" |}.

Definition cacheDir : string := "/tmp/nginx-ingress-snippets".
Definition sm : SnippetManager := NewSnippetManager client cacheDir.
Definition fpm : FastCGIParameterManager := NewFastCGIParameterManager client cacheDir.

Definition containerID : string :=
  "4f8a1c2e9b7d4f8a1c2e9b7d4f8a1c2e9b7d4f8a1c2e9b7d4f8a1c2e9b7d0a1b".

(** A running container as [ListContainers] records it: the configuration
    extracted from [labels], at address [ip] on the bridge network. *)
Definition container (name ip : string) (labels : gmap string string) : option ContainerData.t :=
  match ExtractConfig asciiTables containerID name ip labels with
  | Ok config =>
      Some {| ContainerData.Config := config; ContainerData.IPAddress := ip;
              ContainerData.NetworkName := "bridge"; ContainerData.Status := "Up 2 minutes" |}
  | _ => None
  end.

Definition labelsOf (l : list (string * string)) : gmap string string := list_to_map l.

(** A plain web application. *)
Definition webLabels : gmap string string :=
  labelsOf [("nginx.ingress.enable", "true"); ("nginx.ingress.host", "app.local");
            ("nginx.ingress.port", "3000")]%string.

(** A PHP application behind FastCGI whose parameter file lies under
    [/etc/]. *)
Definition phpLabels : gmap string string :=
  labelsOf [("nginx.ingress.enable", "true"); ("nginx.ingress.host", "php.local");
            ("nginx.ingress.port", "9000"); ("nginx.ingress.backend-protocol", "FCGI");
            ("nginx.ingress.fastcgi-params-file", "/etc/php/fastcgi.conf")]%string.

(** The backend protocol in lower case. *)
Definition fcgiLowerLabels : gmap string string :=
  labelsOf [("nginx.ingress.enable", "true"); ("nginx.ingress.host", "php.local");
            ("nginx.ingress.backend-protocol", "fcgi")]%string.

Fixpoint repeatByte (n : nat) (c : ascii) : string :=
  match n with
  | O => EmptyString
  | S n' => String c (repeatByte n' c)
  end.

(** A host of 254 bytes. *)
Definition longHost : string := repeatByte 254 "a".

Definition longHostLabels : gmap string string :=
  labelsOf [("nginx.ingress.enable", "true"%string); ("nginx.ingress.host", longHost)]%string.

(** A runtime with the one container [longhost]. *)
Definition longHostClient : Client :=
  {| ContainerList :=
       Ok [ {| Summary.ID := containerID; Summary.Names := ["/longhost"]%string;
               Summary.Labels := longHostLabels; Summary.Status := "Up 2 minutes" |} ];
     ContainerInspect := fun _ =>
       Ok {| InspectResponse.Networks := [("bridge", "172.17.0.2")]%string;
             InspectResponse.IPAddress := "172.17.0.2" |};
     CopyFromContainer := fun _ _ => CopyFails "No such container" |}.

Definition renderStub (config : NginxConfig.t) (templatePath : string) (w : World)
  : outcome string := Ok "server { listen 80; }"%string.

Definition dirStub (path : string) : string := "/etc/nginx/conf.d".

Definition provider : Provider :=
  {| nginxConfigPath := "/etc/nginx/conf.d/docker-ingress.conf";
     templatePath := "templates/nginx.conf.tmpl" |}.

Definition emptyConfig : NginxConfig.t :=
  {| NginxConfig.Upstreams := []; NginxConfig.Servers := []; NginxConfig.Generated := 0 |}.

(** A disk that fills up while the temporary file is written: six bytes go
    in. *)
Definition fullDisk : World :=
  {| files := ∅;
     faults := fun call =>
       match call with
       | SysWriteFile name =>
           if String.eqb name "/etc/nginx/conf.d/docker-ingress.conf.tmp"
           then Some (FailAfter 6) else None
       | _ => None
       end;
     runtime_calls := []; output := [] |}.

(** An operation that fails and one that succeeds, on no state. *)
Definition failing (w : unit) : option string * unit := (Some "connection refused"%string, w).
Definition succeeding (w : unit) : option string * unit := (None, w).

Definition second : Z := 1000000000.

(** A breaker with threshold 3 and a timeout of 30 seconds, after three
    failures in a row at seconds 1, 2 and 3. *)
Definition threeFailures : list (Z * Z * (unit -> option string * unit)) :=
  [(1 * second, 1 * second, failing); (2 * second, 2 * second, failing);
   (3 * second, 3 * second, failing)]%Z.

Definition tripped : errors.CircuitBreaker :=
  fst (errors.ExecuteAll (errors.NewCircuitBreaker 3 (30 * second)) threeFailures tt).

(** A runtime whose containers all hold the same one-line file. *)
Definition snippetClient : Client :=
  {| ContainerList := Ok [];
     ContainerInspect := fun _ => Err "No such container";
     CopyFromContainer := fun _ _ => Stream "  proxy_read_timeout 30s;  " |}.

(** A location with nothing set but its path and priority. *)
Definition location (path : string) (priority : Z) : LocationConfig.t :=
  {| LocationConfig.Path := path; LocationConfig.Upstream := EmptyString;
     LocationConfig.Priority := priority; LocationConfig.ProxyPass := EmptyString;
     LocationConfig.Auth := false; LocationConfig.AuthType := EmptyString;
     LocationConfig.CORS :=
       {| CORSConfig.Enabled := false; CORSConfig.AllowOrigins := [];
          CORSConfig.AllowMethods := []; CORSConfig.AllowHeaders := [];
          CORSConfig.AllowCredentials := false |};
     LocationConfig.ProxyHeaders := ∅;
     LocationConfig.ConfigurationSnippet := EmptyString;
     LocationConfig.FastCGI := noFastCGI |}.

End Fixture.

(** ** More vocabulary *)

(** The byte [c] occurs in [s]. *)
Definition occurs (c : ascii) (s : string) : Prop := In c (list_ascii_of_string s).

(** The enable label is present and reads as true. *)
Definition enabledLabel (U : UnicodeTables) (labels : gmap string string) : Prop :=
  exists value, labels !! LabelEnable = Some value /\ parseBool U value = true.


(** A host group is well formed: it has a member, and its members have its
    host. *)
Definition groupOfHost (group : string * list ContainerData.t) : Prop :=
  snd group <> [] /\
  Forall (fun container =>
            ContainerConfig.Host (ContainerData.Config container) = fst group)
         (snd group).

(** The upstream name [GenerateNginxConfig] gives a container: the one built
    from the container's own host. *)
Definition upstreamNameOf (container : ContainerData.t) : string :=
  upstreamNameFor (ContainerConfig.Host (ContainerData.Config container)) container.

(** [location] routes the requests of [host] to [container]. *)
Definition locationOf (host : string) (container : ContainerData.t)
  (location : LocationConfig.t) : Prop :=
  let config := ContainerData.Config container in
  LocationConfig.Upstream location = upstreamNameFor host container /\
  LocationConfig.Path location = ContainerConfig.Path config /\
  LocationConfig.Priority location = ContainerConfig.Priority config /\
  FastCGILocationConfig.Enabled (LocationConfig.FastCGI location)
    = FastCGIConfig.Enabled (ContainerConfig.FastCGI config) /\
  LocationConfig.ProxyPass location
    = (if FastCGIConfig.Enabled (ContainerConfig.FastCGI config)
       then EmptyString else "http://" +:+ upstreamNameFor host container).

(** [server] is the server block of the host group [group]. *)
Definition serverOf (group : string * list ContainerData.t) (server : ServerConfig.t) : Prop :=
  ServerConfig.ServerName server = fst group /\
  ServerConfig.Listen server
    = (if needsSSL (snd group) then ["80"; "443 ssl"]%string else ["80"]%string) /\
  SSLConfig.Enabled (ServerConfig.SSL server) = needsSSL (snd group) /\
  Forall2 (locationOf (fst group)) (snd group) (ServerConfig.Locations server).

(** What holds of a circuit breaker between calls: its failure count is
    the threshold when it is open and below it otherwise. *)
Definition breakerInvariant (cb : errors.CircuitBreaker) : Prop :=
  (1 <= errors.failureThreshold cb <= GoStrconv.maxInt)%Z /\
  (0 <= errors.failureCount cb)%Z /\
  (errors.state cb = errors.Open -> errors.failureCount cb = errors.failureThreshold cb) /\
  (errors.state cb <> errors.Open ->
   (errors.failureCount cb < errors.failureThreshold cb)%Z).

(** A container with an id of at least twelve bytes that does not ask for
    FastCGI. *)
Definition plainContainer (container : ContainerData.t) : Prop :=
  12 <= String.length (ContainerConfig.ContainerID (ContainerData.Config container)) /\
  FastCGIConfig.Enabled (ContainerConfig.FastCGI (ContainerData.Config container)) = false.

(** The inspections [ListContainers] asks of the runtime for the containers
    [listed]: one for each container with an ingress label, the last one
    first. *)
Definition inspections (listed : list Summary.t) : list RuntimeCall :=
  rev (map (fun container => CallContainerInspect (Summary.ID container))
         (filter (fun container => hasNginxLabels (Summary.Labels container) = true) listed)).

(** ** Package [docker]: [ValidateNginxConfig] ([nginx.go]) *)

(** The loop over the upstreams.  [upstreamNames] is the Go map of the names
    seen so far; a key that is not in it reads [false]. *)
Fixpoint validateUpstreams (upstreams : list UpstreamConfig.t)
  (upstreamNames : gmap string bool) : option string :=
  match upstreams with
  | [] => None
  | upstream :: rest =>
      if default false (upstreamNames !! UpstreamConfig.Name upstream)
      then Some ("duplicate upstream name: " +:+ UpstreamConfig.Name upstream)
      else
        let upstreamNames := <[UpstreamConfig.Name upstream := true]> upstreamNames in
        if (length (UpstreamConfig.Servers upstream) =? 0)%nat
        then Some ("upstream " +:+ UpstreamConfig.Name upstream +:+ " has no servers")
        else validateUpstreams rest upstreamNames
  end.

(** The loop over the servers. *)
Fixpoint validateServers (servers : list ServerConfig.t)
  (serverNames : gmap string bool) : option string :=
  match servers with
  | [] => None
  | server :: rest =>
      if default false (serverNames !! ServerConfig.ServerName server)
      then Some ("duplicate server name: " +:+ ServerConfig.ServerName server)
      else
        let serverNames := <[ServerConfig.ServerName server := true]> serverNames in
        if (length (ServerConfig.Listen server) =? 0)%nat
        then Some ("server " +:+ ServerConfig.ServerName server +:+ " has no listen directives")
        else validateServers rest serverNames
  end.

(** [ValidateNginxConfig]: [None] is the nil error. *)
Definition ValidateNginxConfig (config : NginxConfig.t) : option string :=
  match validateUpstreams (NginxConfig.Upstreams config) ∅ with
  | Some e => Some e
  | None => validateServers (NginxConfig.Servers config) ∅
  end.

(** ** A snapshot of running containers, to run the generator *)

Module Running.

(** The API of the web application, on the same host, behind TLS. *)
Definition apiLabels : gmap string string :=
  Fixture.labelsOf [("nginx.ingress.enable", "true"); ("nginx.ingress.host", "app.local");
                    ("nginx.ingress.port", "8080"); ("nginx.ingress.path", "/api");
                    ("nginx.ingress.tls", "true")]%string.

Definition containers : list ContainerData.t :=
  match Fixture.container "web" "172.17.0.3" Fixture.webLabels,
        Fixture.container "api" "172.17.0.4" apiLabels with
  | Some web, Some api => [web; api]
  | _, _ => []
  end.

(** The runtime that runs the two, each on the bridge network. *)
Definition client : Client :=
  {| ContainerList :=
       Ok [ {| Summary.ID := Fixture.containerID; Summary.Names := ["/web"]%string;
               Summary.Labels := Fixture.webLabels; Summary.Status := "Up 2 minutes" |};
            {| Summary.ID := Fixture.containerID; Summary.Names := ["/api"]%string;
               Summary.Labels := apiLabels; Summary.Status := "Up 1 minute" |} ];
     ContainerInspect := fun _ =>
       Ok {| InspectResponse.Networks := [("bridge", "172.17.0.3")]%string;
             InspectResponse.IPAddress := "172.17.0.3" |};
     CopyFromContainer := fun _ _ => CopyFails "No such container" |}.

(** Two replicas of the web application under one name. *)
Definition replicas : list ContainerData.t :=
  match Fixture.container "web" "172.17.0.3" Fixture.webLabels,
        Fixture.container "web" "172.17.0.5" Fixture.webLabels with
  | Some web, Some replica => [web; replica]
  | _, _ => []
  end.

(** The run of [GenerateNginxConfig] that visits the host groups in the
    order in which they were made. *)
Definition generated (containers : list ContainerData.t) : outcome NginxConfig.t * World :=
  GenerateNginxConfigIn asciiTables Fixture.hash Fixture.join
    (GroupContainersByHost containers) Fixture.sm Fixture.fpm 0 Fixture.world.

(** A server block with thirteen locations, one more than [sort.Slice]
    sorts by insertion. *)
Definition thirteen : ServerConfig.t :=
  {| ServerConfig.ServerName := "app.local"; ServerConfig.Listen := ["80"]%string;
     ServerConfig.SSL :=
       {| SSLConfig.Enabled := false; SSLConfig.Certificate := EmptyString;
          SSLConfig.PrivateKey := EmptyString; SSLConfig.Protocols := [] |};
     ServerConfig.Locations :=
       map (Fixture.location "/p") [5; 3; 8; 1; 9; 2; 7; 4; 6; 13; 11; 12; 10]%Z;
     ServerConfig.ServerSnippet := EmptyString |}.

End Running.

(** ** Package [health]: checking a component ([health.go]) *)

(** [checkComponent], on the fields of the component that decide its
    status: [err] is what the component's [HealthChecker] returned, [None]
    for nil.  The reports to the error handler and the time of the check are
    left out. *)
Definition checkComponent (component : health.ComponentHealth) (err : option string)
  : health.ComponentHealth :=
  match err with
  | Some _ =>
      let count := errors.wrap_int (health.ErrorCount component + 1) in
      {| health.Name := health.Name component;
         health.Status :=
           if (5 <=? count)%Z then health.Unhealthy
           else if (2 <=? count)%Z then health.Degraded
           else health.Status component;
         health.ErrorCount := count |}
  | None =>
      {| health.Name := health.Name component;
         health.Status := health.Healthy;
         health.ErrorCount := 0 |}
  end.

(** The checks of a component one after the other, from its registration
    on. *)
Definition checkedFromRegistration (name : string) (results : list (option string))
  : health.ComponentHealth :=
  fold_left checkComponent results
    {| health.Name := name; health.Status := health.Healthy; health.ErrorCount := 0 |}.

(** The number of failures at the head of a list of results. *)
Fixpoint leadingFailures (results : list (option string)) : nat :=
  match results with
  | Some _ :: rest => S (leadingFailures rest)
  | _ => O
  end.

(** The number of failed checks since the last one that passed. *)
Definition failuresSinceSuccess (results : list (option string)) : nat :=
  leadingFailures (rev results).

(** ** Package [errors]: the error handler ([errors.go]) *)

Module errorhandler.
Import errors.
Local Open Scope Z_scope.

Inductive ErrorSeverity : Type :=
  SeverityInfo | SeverityWarning | SeverityError | SeverityCritical.

(** [time.Second] and [time.Minute], in nanoseconds. *)
Definition Second : Z := 1000000000.
Definition Minute : Z := 60 * Second.

Record ErrorHandler : Type := {
  exitOnCritical : bool;
  retryAttempts : Z;
  retryDelay : Z;
  circuitBreaker : CircuitBreaker;
  errorThreshold : Z;
  errorCount : Z;
  lastResetTime : Z
}.

(** [NewErrorHandler]; [now] is the reading of [time.Now()]. *)
Definition NewErrorHandler (now : Z) : ErrorHandler :=
  {| exitOnCritical := true; retryAttempts := 3; retryDelay := 5 * Second;
     circuitBreaker := NewCircuitBreaker 3 (30 * Second);
     errorThreshold := 10; errorCount := 0; lastResetTime := now |}.

Definition SetExitOnCritical (eh : ErrorHandler) (exit : bool) : ErrorHandler :=
  {| exitOnCritical := exit; retryAttempts := retryAttempts eh; retryDelay := retryDelay eh;
     circuitBreaker := circuitBreaker eh; errorThreshold := errorThreshold eh;
     errorCount := errorCount eh; lastResetTime := lastResetTime eh |}.

Definition SetRetryConfig (eh : ErrorHandler) (attempts delay : Z) : ErrorHandler :=
  {| exitOnCritical := exitOnCritical eh; retryAttempts := attempts; retryDelay := delay;
     circuitBreaker := circuitBreaker eh; errorThreshold := errorThreshold eh;
     errorCount := errorCount eh; lastResetTime := lastResetTime eh |}.

Definition SetErrorThreshold (eh : ErrorHandler) (threshold : Z) : ErrorHandler :=
  {| exitOnCritical := exitOnCritical eh; retryAttempts := retryAttempts eh;
     retryDelay := retryDelay eh; circuitBreaker := circuitBreaker eh;
     errorThreshold := threshold; errorCount := errorCount eh;
     lastResetTime := lastResetTime eh |}.

Definition GetErrorCount (eh : ErrorHandler) : Z := errorCount eh.

(** [IsInDegradedMode]; the division of two [int]s truncates. *)
Definition IsInDegradedMode (eh : ErrorHandler) : bool :=
  errorThreshold eh ÷ 2 <? errorCount eh.

(** The assignments to [eh.errorCount] and to [eh.circuitBreaker]. *)
Definition setErrorCount (eh : ErrorHandler) (count : Z) : ErrorHandler :=
  {| exitOnCritical := exitOnCritical eh; retryAttempts := retryAttempts eh;
     retryDelay := retryDelay eh; circuitBreaker := circuitBreaker eh;
     errorThreshold := errorThreshold eh; errorCount := count;
     lastResetTime := lastResetTime eh |}.

Definition setCircuitBreaker (eh : ErrorHandler) (cb : CircuitBreaker) : ErrorHandler :=
  {| exitOnCritical := exitOnCritical eh; retryAttempts := retryAttempts eh;
     retryDelay := retryDelay eh; circuitBreaker := cb;
     errorThreshold := errorThreshold eh; errorCount := errorCount eh;
     lastResetTime := lastResetTime eh |}.

(** [Handle], on the handler's state; the lines it logs are left out.
    [since] is the clock read by [time.Since], [now] the one read by
    [time.Now()] when the count is reset.  [None]: the process has left
    through [os.Exit(1)]. *)
Definition Handle (eh : ErrorHandler) (severity : ErrorSeverity) (since now : Z)
  : option ErrorHandler :=
  let eh := setErrorCount eh (wrap_int (errorCount eh + 1)) in
  let eh :=
    if 5 * Minute <? Sub since (lastResetTime eh)
    then {| exitOnCritical := exitOnCritical eh; retryAttempts := retryAttempts eh;
            retryDelay := retryDelay eh; circuitBreaker := Reset (circuitBreaker eh);
            errorThreshold := errorThreshold eh; errorCount := 0;
            lastResetTime := now |}
    else eh in
  match severity with
  | SeverityCritical => if exitOnCritical eh then None else Some eh
  | _ => Some eh
  end.

(** The delay before the retry number [attempt]: the product is one of
    64-bit integers. *)
Definition backoffDelay (eh : ErrorHandler) (attempt : Z) : Z :=
  let backoffDelay := wrap_int (wrap_int (attempt * attempt) * retryDelay eh) in
  if 30 * Second <? backoffDelay then 30 * Second else backoffDelay.

(** The loop of [HandleWithRetry] from the iteration [attempt] on.  The
    operation works on a state [W] of its own; [slept] lists the delays
    passed to [time.Sleep], the last one first.  [fuel] bounds the number of
    iterations; the loop leaves with the last error. *)
Fixpoint retryLoop {W : Type} (fuel : nat) (eh : ErrorHandler)
  (operation : W -> option string * W) (attempt : Z) (lastErr : option string)
  (w : W) (slept : list Z) : option string * (W * list Z) :=
  match fuel with
  | O => (lastErr, (w, slept))
  | S fuel =>
      if attempt <=? retryAttempts eh
      then
        let slept := if 0 <? attempt then backoffDelay eh attempt :: slept else slept in
        match operation w with
        | (Some err, w') =>
            retryLoop fuel eh operation (wrap_int (attempt + 1)) (Some err) w' slept
        | (None, w') => (None, (w', slept))
        end
      else (lastErr, (w, slept))
  end.

(** How a call ends: it returns; or it does not, because it waits for a
    lock that is held or because the process has left through [os.Exit]; or
    the [fuel] of the model did not reach to its end. *)
Inductive Run (A : Type) : Type :=
| Returns (a : A)
| NoReturn
| OutOfFuel.
Arguments Returns {A} a.
Arguments NoReturn {A}.
Arguments OutOfFuel {A}.

(** What an operation does to the handler while it runs: it reports to it
    through [Info], [Warning], [Error] or [Critical], which end in [Handle]
    with the clock [since] read by [time.Since]; or it asks for the breaker,
    as [GetCircuitBreakerState] and a [HandleWithRetry] of its own do. *)
Inductive Touch : Type :=
| Reports (severity : ErrorSeverity) (since : Z)
| LocksBreaker.

(** One touch made while [Execute] holds the lock of the breaker.  A report
    adds one to the error count; the periodic reset of [Handle] calls [Reset]
    on the breaker and waits for its lock, as does whatever asks for the
    breaker.  [None]: the call does not return. *)
Definition touchLocked (eh : ErrorHandler) (touch : Touch) : option ErrorHandler :=
  match touch with
  | Reports severity since =>
      let eh := setErrorCount eh (wrap_int (errorCount eh + 1)) in
      if 5 * Minute <? Sub since (lastResetTime eh) then None
      else match severity with
           | SeverityCritical => if exitOnCritical eh then None else Some eh
           | _ => Some eh
           end
  | LocksBreaker => None
  end.

Fixpoint touchAllLocked (eh : ErrorHandler) (touches : list Touch) : option ErrorHandler :=
  match touches with
  | [] => Some eh
  | touch :: rest =>
      match touchLocked eh touch with
      | Some eh => touchAllLocked eh rest
      | None => None
      end
  end.

(** The loop of [HandleWithRetry] with the handler in it, for an operation
    that gives, besides its error and its state, its touches of the handler
    in their order.  [sent] lists the touches made, the last one first.  The
    loop reads [retryAttempts] and [retryDelay] in each iteration. *)
Fixpoint retrying {W : Type} (fuel : nat) (eh : ErrorHandler)
  (operation : W -> option string * W * list Touch) (attempt : Z)
  (lastErr : option string) (w : W) (slept : list Z) (sent : list Touch)
  : Run (option string * ErrorHandler * W * list Z * list Touch) :=
  match fuel with
  | O => OutOfFuel
  | S fuel =>
      if attempt <=? retryAttempts eh
      then
        let slept := if 0 <? attempt then backoffDelay eh attempt :: slept else slept in
        let '(err, w', touches) := operation w in
        match touchAllLocked eh touches with
        | None => NoReturn
        | Some eh' =>
            let sent := rev touches ++ sent in
            match err with
            | Some e =>
                retrying fuel eh' operation (wrap_int (attempt + 1)) (Some e) w' slept sent
            | None => Returns (None, eh', w', slept, sent)
            end
        end
      else Returns (lastErr, eh, w, slept, sent)
  end.

(** The function [HandleWithRetry] hands to [Execute], on the handler, the
    state of the operation, the delays slept and the touches made.  When the
    loop does not return, neither does [Execute]: what [Execute] computes
    after it is not looked at. *)
Definition retryClosure {W : Type} (fuel : nat)
  (operation : W -> option string * W * list Touch)
  (state : Run (ErrorHandler * W * list Z * list Touch))
  : option string * Run (ErrorHandler * W * list Z * list Touch) :=
  match state with
  | Returns (eh, w, slept, sent) =>
      match retrying fuel eh operation 0 None w slept sent with
      | Returns (err, eh', w', slept', sent') => (err, Returns (eh', w', slept', sent'))
      | NoReturn => (None, NoReturn)
      | OutOfFuel => (None, OutOfFuel)
      end
  | NoReturn => (None, NoReturn)
  | OutOfFuel => (None, OutOfFuel)
  end.

(** [HandleWithRetry].  [start] and [later] are the clocks [Execute] reads,
    [since] and [now] the ones the [Handle] at its end reads; [fuel] bounds
    the iterations of the loop.  The result is the error returned, the
    handler, the state of the operation, the delays slept and the touches the
    operation made. *)
Definition HandleWithRetry {W : Type} (fuel : nat) (eh : ErrorHandler)
  (operation : W -> option string * W * list Touch) (description : string)
  (start later since now : Z) (w : W)
  : Run (option string * ErrorHandler * W * list Z * list Touch) :=
  let '(returnErr, cb, state) :=
    Execute (circuitBreaker eh) start later (retryClosure fuel operation)
      (Returns (eh, w, [], [])) in
  match state with
  | Returns (eh, w', slept, sent) =>
      let eh := setCircuitBreaker eh cb in
      match returnErr with
      | Some err =>
          let eh := setErrorCount eh (wrap_int (errorCount eh + 1)) in
          let finalErr :=
            "Failed " +:+ description +:+ " after "
            +:+ GoStrconv.Itoa (wrap_int (retryAttempts eh + 1)) +:+ " attempts: " +:+ err in
          match Handle eh SeverityError since now with
          | Some eh => Returns (Some finalErr, eh, w', slept, sent)
          | None => NoReturn
          end
      | None => Returns (None, setErrorCount eh 0, w', slept, sent)
      end
  | NoReturn => NoReturn
  | OutOfFuel => OutOfFuel
  end.

(** A touch that returns on the handler [eh]: a report that is not a
    critical one on a handler that exits on those, and that comes within
    five minutes of the last reset. *)
Definition returningTouch (eh : ErrorHandler) (touch : Touch) : Prop :=
  match touch with
  | Reports severity since =>
      (severity = SeverityCritical -> exitOnCritical eh = false) /\
      Sub since (lastResetTime eh) <= 5 * Minute
  | LocksBreaker => False
  end.

(** One more error counted. *)
Definition countOne (count : Z) : Z := wrap_int (count + 1).



(** The calls [Handle] gets in a row: the severity and the two clocks of
    each. *)
Fixpoint HandleAll (eh : ErrorHandler) (calls : list (ErrorSeverity * Z * Z))
  : option ErrorHandler :=
  match calls with
  | [] => Some eh
  | (severity, since, now) :: rest =>
      match Handle eh severity since now with
      | Some eh => HandleAll eh rest
      | None => None
      end
  end.

End errorhandler.

(** An operation that fails every time and reports its failure to the
    handler as a warning, one second after the last reset, the way
    [reloadNginx] does; its state counts the runs. *)
Definition reloadFails (ran : nat) : option string * nat * list errorhandler.Touch :=
  (Some "nginx reload failed: exit status 1"%string, S ran,
   [errorhandler.Reports errorhandler.SeverityWarning errorhandler.Second]).

(** * Theorems *)

(** ** The model on small inputs *)

Example HasSuffix_conf : HasSuffix "/app/config/location.conf" ".conf" = true.
Proof. reflexivity. Qed.

Example Contains_dotdot : Contains "/app/../secret.conf" ".." = true.
Proof. reflexivity. Qed.

Example Split_host : Split "app.local" "." = ["app"; "local"]%string.
Proof. reflexivity. Qed.

Example Trim_underscores : Trim "__my_app_" "_" = "my_app"%string.
Proof. reflexivity. Qed.

Example ToUpper_fcgi : ToUpper asciiTables "fcgi" = "FCGI"%string.
Proof. reflexivity. Qed.

Example Fields_param :
  Fields asciiTables "fastcgi_param  A  b c;" = ["fastcgi_param"; "A"; "b"; "c;"]%string.
Proof. reflexivity. Qed.

Example Atoi_port : Atoi "8080" = Some 8080%Z /\ Atoi "99999x" = None /\ Atoi "-" = None.
Proof. repeat split; reflexivity. Qed.

Example Itoa_port : Itoa 3000 = "3000"%string.
Proof. reflexivity. Qed.

Example sort_Slice_numbers :
  forall pdqsort, sort_Slice pdqsort Nat.ltb [3; 1; 2; 5; 4] = [1; 2; 3; 4; 5].
Proof. reflexivity. Qed.

Example SanitizeContainerName_examples :
  SanitizeContainerName "my-app.v2" = "my_app_v2"%string /\
  SanitizeContainerName "/-./" = "unnamed"%string.
Proof. split; reflexivity. Qed.

Example ValidateHostname_examples :
  ValidateHostname "app.local" = None /\
  ValidateHostname "app..local" = Some "hostname cannot have empty parts"%string /\
  ValidateHostname ".local" = Some "hostname cannot start or end with a dot"%string.
Proof. repeat split; reflexivity. Qed.


Example DownloadSnippet_fetches_and_caches :
  let sm := NewSnippetManager Fixture.snippetClient Fixture.cacheDir in
  let first :=
    DownloadSnippet asciiTables Fixture.hash Fixture.join sm Fixture.containerID
      "/app/config/location.conf" Fixture.world in
  let second :=
    DownloadSnippet asciiTables Fixture.hash Fixture.join sm Fixture.containerID
      "/app/config/location.conf" (snd first) in
  option_map SnippetContent.Content
    (match fst first with Ok r => r | _ => None end) = Some "proxy_read_timeout 30s;"%string /\
  runtime_calls (snd first)
    = [CallCopyFromContainer Fixture.containerID "/app/config/location.conf"] /\
  files (snd first) !! "/tmp/nginx-ingress-snippets/4f8a1c2e9b7d_e3b0c44298fc.conf"%string
    = Some "proxy_read_timeout 30s;"%string /\
  option_map SnippetContent.Content
    (match fst second with Ok r => r | _ => None end) = Some "proxy_read_timeout 30s;"%string /\
  runtime_calls (snd second) = runtime_calls (snd first).
Proof. repeat split; reflexivity. Qed.

Example DownloadSnippet_short_container_id_panics :
  fst (DownloadSnippet asciiTables Fixture.hash Fixture.join Fixture.sm "4f8a1c2e"
         "/app/config/location.conf" Fixture.world)
  = Panic "runtime error: slice bounds out of range".
Proof. reflexivity. Qed.

Example sortLocationsByPriority_example :
  forall pdqsort,
  map (fun l => (LocationConfig.Path l, LocationConfig.Priority l))
      (sortLocationsByPriority pdqsort
         [Fixture.location "/" 100; Fixture.location "/api/v1" 100;
          Fixture.location "/static" 50; Fixture.location "/admin" 200;
          Fixture.location "/api" 100])
  = [("/admin", 200); ("/api/v1", 100); ("/api", 100); ("/", 100); ("/static", 50)]%Z%string.
Proof. reflexivity. Qed.

Example parseFastCGIParamsFile_example :
  match parseFastCGIParamsFile asciiTables
          ("fastcgi_param  SCRIPT_FILENAME  /srv$fastcgi_script_name;"
           +:+ String newline ("# comment" +:+ String newline "APP_ENV = 'production'")) with
  | Ok params =>
      params !! "SCRIPT_FILENAME"%string = Some "/srv$fastcgi_script_name"%string /\
      params !! "APP_ENV"%string = Some "production"%string
  | _ => False
  end.
Proof. vm_compute. split; reflexivity. Qed.

(** ** The path gate *)

Lemma validateFilePath_unsafe (filePath : string) :
  unsafePath filePath -> exists e, validateFilePath filePath = Some e.
Proof.
  unfold unsafePath, validateFilePath.
  intros [H | [H | [H | H]]].
  - rewrite H. eauto.
  - rewrite H. destruct (Contains filePath ".."); eauto.
  - rewrite H, orb_true_r. destruct (Contains filePath ".."); eauto.
  - rewrite (H ".conf"%string), (H ".txt"%string) by (simpl; auto).
    destruct (Contains filePath ".."); [eauto|].
    destruct (HasPrefix filePath "/etc/" || HasPrefix filePath "/var/"); eauto.
Qed.

Lemma eqb_empty_false (s : string) : s <> EmptyString -> String.eqb s EmptyString = false.
Proof. intros H. apply String.eqb_neq. exact H. Qed.

Section PathGate.
Variable U : UnicodeTables.
Variable sha256_hex : string -> string.
Variable filepath_Join : string -> string -> string.

(** An empty path stands for a snippet label that is not set: for it
    [DownloadSnippet] returns [nil, nil] and asks nothing of the runtime.
    [DownloadAllSnippets] and [LoadFastCGIParams] do not pass it on. *)
Lemma DownloadSnippet_path_not_set (sm : SnippetManager) (containerID : string) (w : World) :
  DownloadSnippet U sha256_hex filepath_Join sm containerID EmptyString w = (Ok None, w).
Proof. reflexivity. Qed.

(** C1.  For every container-file path, that is every path that is not
    empty, which contains [..], or starts with [/etc/] or [/var/], or ends
    in none of the supported suffixes: [DownloadSnippet] returns an error,
    and so does [loadParamsFromFile], which also refuses the empty path; in
    both cases the world is left as it was, so that no call went to the
    container runtime. *)
Theorem C1_unsafe_path_rejected_without_runtime_call
  (sm : SnippetManager) (fpm : FastCGIParameterManager)
  (containerID filePath : string) (w : World) :
  unsafePath filePath ->
  (filePath <> EmptyString ->
   exists e, DownloadSnippet U sha256_hex filepath_Join sm containerID filePath w = (Err e, w)) /\
  (exists e, loadParamsFromFile U sha256_hex filepath_Join fpm containerID filePath w = (Err e, w)).
Proof.
  intros Hunsafe.
  destruct (validateFilePath_unsafe filePath Hunsafe) as [e He].
  split.
  - intros Hne. unfold DownloadSnippet.
    rewrite (eqb_empty_false _ Hne), He. eauto.
  - unfold loadParamsFromFile. rewrite He. eauto.
Qed.

End PathGate.

(** The theorem at the path [/etc/passwd]. *)
Lemma C1_unsafe_path_witness :
  unsafePath "/etc/passwd" /\
  exists e,
    DownloadSnippet asciiTables Fixture.hash Fixture.join Fixture.sm Fixture.containerID
      "/etc/passwd" Fixture.world = (Err e, Fixture.world).
Proof.
  assert (Hunsafe : unsafePath "/etc/passwd") by (right; left; reflexivity).
  split; [exact Hunsafe|].
  apply (C1_unsafe_path_rejected_without_runtime_call asciiTables Fixture.hash Fixture.join
           Fixture.sm Fixture.fpm Fixture.containerID "/etc/passwd" Fixture.world Hunsafe).
  discriminate.
Defined.

Lemma HasSuffix_cons (a : ascii) (s suffix : string) :
  HasSuffix (String a s) suffix = String.eqb (String a s) suffix || HasSuffix s suffix.
Proof. reflexivity. Qed.

(** A path that ends in [.params] ends neither in [.conf] nor in [.txt]. *)
Lemma params_suffix_excludes_allowed (s : string) :
  HasSuffix s ".params" = true ->
  HasSuffix s ".conf" = false /\ HasSuffix s ".txt" = false.
Proof.
  induction s as [|a s IH]; [discriminate|].
  rewrite !HasSuffix_cons. intros H.
  apply orb_true_iff in H. destruct H as [H | H].
  - apply String.eqb_eq in H. injection H as -> ->. split; reflexivity.
  - destruct (IH H) as [Hconf Htxt]. rewrite Hconf, Htxt, !orb_false_r.
    split; apply String.eqb_neq; intros Heq; injection Heq as -> ->; discriminate H.
Qed.

(** Whatever else holds of it, a path ending in [.params] is refused. *)
Lemma params_suffix_always_refused (filePath : string) :
  HasSuffix filePath ".params" = true -> exists e, validateFilePath filePath = Some e.
Proof.
  intros H. destruct (params_suffix_excludes_allowed _ H) as [Hconf Htxt].
  unfold validateFilePath. rewrite Hconf, Htxt.
  destruct (Contains filePath ".."); [eauto|].
  destruct (HasPrefix filePath "/etc/" || HasPrefix filePath "/var/"); eauto.
Qed.

(** C7, the code at the failing input.  [.params] is among the extensions
    [GetSupportedFileExtensions] announces, and the path
    [/app/config/fastcgi.params] contains no [..] and does not start in a
    reserved directory; yet [validateFilePath] refuses it, and with it
    [loadParamsFromFile], which never reaches the runtime. *)
Theorem C7_params_file_refused_by_path_gate :
  In ".params"%string GetSupportedFileExtensions /\
  Contains "/app/config/fastcgi.params" ".." = false /\
  HasPrefix "/app/config/fastcgi.params" "/etc/" = false /\
  HasPrefix "/app/config/fastcgi.params" "/var/" = false /\
  validateFilePath "/app/config/fastcgi.params"
    = Some "only .conf and .txt files allowed"%string /\
  loadParamsFromFile asciiTables Fixture.hash Fixture.join Fixture.fpm Fixture.containerID
    "/app/config/fastcgi.params" Fixture.world
    = (Err "only .conf and .txt files allowed", Fixture.world).
Proof.
  repeat split; try reflexivity. simpl. auto.
Qed.

(** ** Upstream names *)

(** The name [GenerateNginxConfig] gives an upstream carries the container
    name as it is. *)
Lemma upstreamNameFor_raw (host : string) (container : ContainerData.t) :
  upstreamNameFor host container =
  ("backend_" +:+ ReplaceAll host "." "_" +:+ "_"
   +:+ ContainerConfig.ContainerName (ContainerData.Config container))%string.
Proof. reflexivity. Qed.

(** The claim C3 as it is stated fails.  For the container [my-app] on host
    [app.local] it asks for the upstream [backend_app_local_my_app]; every
    run of [GenerateNginxConfig] names it [backend_app_local_my-app], with
    the container name not sanitized. *)
Lemma C3_upstream_name_not_sanitized :
  specUpstreamName "app.local" "my-app" = "backend_app_local_my_app"%string /\
  exists container,
    Fixture.container "my-app" "10.0.0.5" Fixture.webLabels = Some container /\
    forall result,
      GenerateNginxConfig asciiTables Fixture.hash Fixture.join [container]
        Fixture.sm Fixture.fpm 0 Fixture.world result ->
      exists config,
        fst result = Ok config /\
        map UpstreamConfig.Name (NginxConfig.Upstreams config)
          = ["backend_app_local_my-app"%string] /\
        map UpstreamConfig.Name (NginxConfig.Upstreams config)
          <> [specUpstreamName "app.local" "my-app"].
Proof.
  split; [reflexivity|].
  destruct (Fixture.container "my-app" "10.0.0.5" Fixture.webLabels) as [container|] eqn:Hc;
    [|discriminate Hc].
  exists container. split; [reflexivity|].
  vm_compute in Hc. injection Hc as <-.
  intros result [visit [Hperm <-]].
  cbv [GroupContainersByHost fold_left appendToGroup ContainerData.Config ContainerConfig.Host]
    in Hperm.
  apply Permutation_sym, Permutation_length_1_inv in Hperm. subst visit.
  eexists. split; [vm_compute; reflexivity|]. split; [vm_compute; reflexivity|].
  vm_compute. discriminate.
Qed.

(** ** Host names *)

(** [ValidateConfig] reads the host only to see whether it is empty. *)
Lemma ValidateConfig_accepts_any_nonempty_host (U : UnicodeTables)
  (containerID containerName networkIP host : string) :
  host <> EmptyString ->
  exists config,
    ExtractConfig U containerID containerName networkIP
      (<[LabelEnable := "true"%string]> (<[LabelHost := host]> ∅)) = Ok config /\
    ContainerConfig.Host config = host /\
    ValidateConfig config = None.
Proof.
  intros Hne. unfold ExtractConfig.
  rewrite lookup_insert_eq.
  replace (parseBool U "true") with true by reflexivity. simpl negb. cbv iota.
  rewrite lookup_insert_ne by discriminate. rewrite lookup_insert_eq.
  unfold extractPort, extractProtocol.
  rewrite !lookup_insert_ne, !lookup_empty by discriminate.
  eexists. split; [reflexivity|]. split; [reflexivity|].
  unfold ValidateConfig. simpl.
  rewrite (eqb_empty_false _ Hne).
  unfold extractFastCGIConfig.
  rewrite !lookup_insert_ne, !lookup_empty by discriminate. reflexivity.
Qed.

(** C8, the code at the failing input.  The host of 254 bytes is refused by
    [ValidateHostname], but [ValidateConfig], the validation the pipeline
    runs, accepts the enabled configuration, and [ListContainers] hands the
    container on to be rendered, without a warning. *)
Theorem C8_long_host_not_rejected :
  String.length Fixture.longHost = 254 /\
  ValidateHostname Fixture.longHost = Some "hostname too long (max 253 characters)"%string /\
  exists container,
    Fixture.container "longhost" "172.17.0.2" Fixture.longHostLabels = Some container /\
    ContainerConfig.Enabled (ContainerData.Config container) = true /\
    ContainerConfig.Host (ContainerData.Config container) = Fixture.longHost /\
    ValidateConfig (ContainerData.Config container) = None /\
    exists w,
      ListContainers asciiTables Fixture.longHostClient Fixture.world = (Ok [container], w) /\
      output w = [].
Proof.
  split; [reflexivity|]. split; [reflexivity|].
  destruct (Fixture.container "longhost" "172.17.0.2" Fixture.longHostLabels)
    as [container|] eqn:Hc; [|discriminate Hc].
  exists container. split; [reflexivity|].
  vm_compute in Hc. injection Hc as <-.
  repeat split; try reflexivity.
  eexists. split; vm_compute; reflexivity.
Qed.

(** ** Where the code does skip one container *)

Section Skipping.
Variable U : UnicodeTables.
Variable sha256_hex : string -> string.
Variable filepath_Join : string -> string -> string.

(** In [ListContainers] a container whose labels do not yield a
    configuration, or yield one that [ValidateConfig] refuses, costs a
    warning and nothing else: the loop goes on with the other containers. *)
Lemma listContainers_skips_invalid (cli : Client) (container : Summary.t)
  (rest : list Summary.t) (containerJSON : InspectResponse.t) (w : World) :
  hasNginxLabels (Summary.Labels container) = true ->
  ContainerInspect cli (Summary.ID container) = Ok containerJSON ->
  (exists e,
     ExtractConfig U (Summary.ID container) (getContainerName (Summary.Names container))
       (fst (extractNetworkInfo containerJSON)) (Summary.Labels container) = Err e) \/
  (exists config e,
     ExtractConfig U (Summary.ID container) (getContainerName (Summary.Names container))
       (fst (extractNetworkInfo containerJSON)) (Summary.Labels container) = Ok config /\
     ContainerConfig.Enabled config = true /\
     ValidateConfig config = Some e) ->
  exists warning,
    listContainers U cli (container :: rest) w
    = listContainers U cli rest
        (Printf warning (issue (CallContainerInspect (Summary.ID container)) w)).
Proof.
  intros Hlabels Hinspect Hbad.
  cbn [listContainers]. unfold listContainer.
  rewrite Hlabels, Hinspect. cbn [negb].
  destruct (extractNetworkInfo containerJSON) as [ip network]. cbn [fst] in Hbad.
  destruct Hbad as [[e He] | (config & e & Hc & Hen & Hv)].
  - rewrite He.
    exists ("Warning: failed to extract config for container " +:+ Summary.ID container
            +:+ ": " +:+ e)%string.
    destruct (listContainers U cli rest _) as [[datas|?|?] w2]; reflexivity.
  - rewrite Hc, Hen, Hv. cbn [negb].
    exists ("Warning: invalid config for container " +:+ Summary.ID container
            +:+ ": " +:+ e)%string.
    destruct (listContainers U cli rest _) as [[datas|?|?] w2]; reflexivity.
Qed.

(** In [GenerateNginxConfig] a configuration snippet that cannot be
    downloaded costs a warning too: the step never returns an error. *)
Lemma configSnippetFor_no_error (sm : SnippetManager) (container : ContainerData.t)
  (w w' : World) (e : string) :
  configSnippetFor U sha256_hex filepath_Join sm container w <> (Err e, w').
Proof.
  unfold configSnippetFor.
  destruct (negb _); [|discriminate].
  destruct (DownloadAllSnippets _ _ _ _ _ _) as [[snippets|?|?] w1]; discriminate.
Qed.

End Skipping.

(** ** FastCGI parameters *)

Section RequiredParams.
Variable U : UnicodeTables.
Variable sha256_hex : string -> string.
Variable filepath_Join : string -> string -> string.

Lemma addDefaultPHPParams_keeps_defaults (params : gmap string string) (key value : string) :
  defaultPHPParams !! key = Some value -> is_Some (addDefaultPHPParams params !! key).
Proof.
  intros Hdefault. unfold addDefaultPHPParams.
  apply lookup_union_is_Some. right. rewrite Hdefault. eauto.
Qed.

(** The parameters [LoadFastCGIParams] returns always hold the two required
    keys, so that of the two steps only the loading can fail. *)
Lemma loaded_params_pass_validation (fpm : FastCGIParameterManager)
  (config : ContainerConfig.t) (w w' w'' : World) (params : gmap string string) :
  LoadFastCGIParams U sha256_hex filepath_Join fpm config w = (Ok params, w') ->
  fst (ValidateFastCGIParams params w'') = None.
Proof.
  intros Hload.
  assert (Hshape : exists base, params = addDefaultPHPParams base).
  { unfold LoadFastCGIParams in Hload.
    destruct (String.eqb _ EmptyString).
    - injection Hload as <- _. eauto.
    - destruct (loadParamsFromFile _ _ _ _ _ _ _) as [[fileParams|?|?] w1];
        try discriminate Hload.
      injection Hload as <- _. eauto. }
  destruct Hshape as [base ->].
  destruct (addDefaultPHPParams_keeps_defaults base "SCRIPT_FILENAME"
              "$document_root$fastcgi_script_name" eq_refl) as [script Hscript].
  destruct (addDefaultPHPParams_keeps_defaults base "REQUEST_METHOD"
              "$request_method" eq_refl) as [method Hmethod].
  unfold ValidateFastCGIParams. rewrite Hscript, Hmethod.
  destruct (negb _ && negb _); reflexivity.
Qed.

End RequiredParams.

(** ** One container and the batch *)

Section Batch.
Variable U : UnicodeTables.
Variable sha256_hex : string -> string.
Variable filepath_Join : string -> string -> string.
Variable sm : SnippetManager.
Variable fastcgiManager : FastCGIParameterManager.

Local Abbreviation locationFor := (locationFor U sha256_hex filepath_Join sm fastcgiManager).
Local Abbreviation hostContainersLoop := (hostContainersLoop U sha256_hex filepath_Join sm fastcgiManager).
Local Abbreviation serverFor := (serverFor U sha256_hex filepath_Join sm fastcgiManager).
Local Abbreviation hostGroupsLoop := (hostGroupsLoop U sha256_hex filepath_Join sm fastcgiManager).

Lemma locationFor_refused (host : string) (container : ContainerData.t) (w : World) :
  refusedParamsFile container ->
  forall location w', locationFor host container w <> (Ok location, w').
Proof.
  intros (Hen & Hne & Hunsafe) location w'.
  destruct (validateFilePath_unsafe _ Hunsafe) as [e He].
  unfold docker.locationFor.
  destruct (configSnippetFor _ _ _ _ _ _) as [[snippet|?|?] w1]; try discriminate.
  destruct (slice_to _ 12) as [shortID|?|?]; try discriminate.
  rewrite Hen. unfold LoadFastCGIParams, loadParamsFromFile.
  rewrite (eqb_empty_false _ Hne), He. discriminate.
Qed.

Lemma hostContainersLoop_ok (host : string) (hostContainers : list ContainerData.t) :
  forall w r w',
    hostContainersLoop host hostContainers w = (Ok r, w') ->
    forall container, In container hostContainers ->
      exists w1 location w2, locationFor host container w1 = (Ok location, w2).
Proof.
  induction hostContainers as [|c rest IH]; intros w r w' Hrun container Hin; [destruct Hin|].
  simpl in Hrun.
  destruct (locationFor host c w) as [[location|?|?] w1] eqn:Hloc; try discriminate.
  destruct (hostContainersLoop host rest w1) as [[[ups locs]|?|?] w2] eqn:Hrest;
    try discriminate.
  destruct Hin as [<- | Hin]; [eauto|].
  eapply IH; eauto.
Qed.

Lemma hostGroupsLoop_ok (hostGroups : list (string * list ContainerData.t)) :
  forall w r w',
    hostGroupsLoop hostGroups w = (Ok r, w') ->
    forall host hostContainers, In (host, hostContainers) hostGroups ->
      exists w1 r1 w2, hostContainersLoop host hostContainers w1 = (Ok r1, w2).
Proof.
  induction hostGroups as [|[h cs] rest IH]; intros w r w' Hrun host hostContainers Hin;
    [destruct Hin|].
  simpl in Hrun.
  destruct (serverFor h cs w) as [[[ups server]|?|?] w1] eqn:Hserver; try discriminate.
  destruct (hostGroupsLoop rest w1) as [[[ups' servers]|?|?] w2] eqn:Hrest; try discriminate.
  destruct Hin as [Heq | Hin].
  - injection Heq as -> ->. unfold docker.serverFor in Hserver.
    destruct (serverSnippetFor _ _ _ _ _ _) as [[snippet|?|?] w3]; try discriminate.
    destruct (hostContainersLoop host hostContainers w3) as [[[ups0 locs0]|?|?] w4] eqn:Hloop;
      try discriminate.
    eauto.
  - eapply IH; eauto.
Qed.

End Batch.

Lemma appendToGroup_new (host : string) (container : ContainerData.t)
  (groups : list (string * list ContainerData.t)) :
  exists members, In (host, members) (appendToGroup host container groups) /\ In container members.
Proof.
  induction groups as [|[h cs] rest [members [Hin Hmem]]]; simpl.
  - exists [container]. simpl. auto.
  - destruct (String.eqb_spec h host) as [-> | Hne].
    + exists (cs ++ [container]). split; [left; reflexivity|].
      apply in_or_app. right. simpl. auto.
    + exists members. split; [right; exact Hin | exact Hmem].
Qed.

Lemma appendToGroup_old (host : string) (container x : ContainerData.t)
  (groups : list (string * list ContainerData.t)) (h : string) (members : list ContainerData.t) :
  In (h, members) groups -> In x members ->
  exists members', In (h, members') (appendToGroup host container groups) /\ In x members'.
Proof.
  induction groups as [|[h0 cs] rest IH]; intros Hin Hx; [destruct Hin|].
  simpl. destruct Hin as [Heq | Hin].
  - injection Heq as -> ->. destruct (String.eqb h host).
    + exists (members ++ [container]). split; [left; reflexivity|].
      apply in_or_app. left. exact Hx.
    + exists members. split; [left; reflexivity | exact Hx].
  - destruct (String.eqb h0 host).
    + exists members. split; [right; exact Hin | exact Hx].
    + destruct (IH Hin Hx) as [members' [Hin' Hx']].
      exists members'. split; [right; exact Hin' | exact Hx'].
Qed.

Lemma group_fold_covers (containers : list ContainerData.t) :
  forall (groups : list (string * list ContainerData.t)) (c : ContainerData.t),
    In c containers \/ (exists h members, In (h, members) groups /\ In c members) ->
    exists h members,
      In (h, members)
         (fold_left
            (fun groups container =>
               appendToGroup (ContainerConfig.Host (ContainerData.Config container))
                 container groups)
            containers groups) /\
      In c members.
Proof.
  induction containers as [|x rest IH]; intros groups c H; simpl.
  - destruct H as [[] | H]. exact H.
  - apply IH. destruct H as [[<- | Hin] | (h & members & Hin & Hc)].
    + right. destruct (appendToGroup_new (ContainerConfig.Host (ContainerData.Config x)) x groups)
        as [members Hm]. eauto.
    + left. exact Hin.
    + right. destruct (appendToGroup_old (ContainerConfig.Host (ContainerData.Config x)) x c
                         groups h members Hin Hc) as [members' Hm]. eauto.
Qed.

Lemma GroupContainersByHost_covers (containers : list ContainerData.t) (c : ContainerData.t) :
  In c containers ->
  exists h members, In (h, members) (GroupContainersByHost containers) /\ In c members.
Proof. intros H. apply group_fold_covers. left. exact H. Qed.

(** What the code does in general: one FastCGI container whose parameter
    file is refused, anywhere in the snapshot, and no run of
    [GenerateNginxConfig] returns a configuration. *)
Lemma refused_params_file_fails_the_batch (U : UnicodeTables)
  (sha256_hex : string -> string) (filepath_Join : string -> string -> string)
  (sm : SnippetManager) (fastcgiManager : FastCGIParameterManager)
  (containers : list ContainerData.t) (c : ContainerData.t) (now : Z) (w : World)
  (result : outcome NginxConfig.t * World) :
  In c containers -> refusedParamsFile c ->
  GenerateNginxConfig U sha256_hex filepath_Join containers sm fastcgiManager now w result ->
  forall config, fst result <> Ok config.
Proof.
  intros Hin Hbad (visit & Hperm & <-) config Hok.
  destruct (GroupContainersByHost_covers _ _ Hin) as (h & members & Hg & Hc).
  apply (Permutation_in _ (Permutation_sym Hperm)) in Hg.
  unfold GenerateNginxConfigIn in Hok.
  destruct (hostGroupsLoop U sha256_hex filepath_Join sm fastcgiManager visit w)
    as [[[ups servers]|?|?] w1] eqn:Hloop; try discriminate Hok.
  destruct (hostGroupsLoop_ok _ _ _ _ _ _ _ _ _ Hloop _ _ Hg) as (w2 & r & w3 & Hhost).
  destruct (hostContainersLoop_ok _ _ _ _ _ _ _ _ _ _ Hhost _ Hc) as (w4 & loc & w5 & Hloc).
  exact (locationFor_refused _ _ _ _ _ _ _ w4 Hbad loc w5 Hloc).
Qed.

(** C2, the code at the failing input.  The snapshot holds [web], a plain
    application, and [php], a FastCGI application whose parameter file is
    [/etc/php/fastcgi.conf]; both pass [ValidateConfig].  Alone, [web] is
    rendered.  With [php] in the snapshot every run of
    [GenerateNginxConfig] returns the error of [php] and no configuration:
    [web] is not rendered, and nothing is printed as a warning. *)
Theorem C2_fastcgi_failure_fails_whole_pass :
  exists web php,
    Fixture.container "web" "10.0.0.5" Fixture.webLabels = Some web /\
    Fixture.container "php" "10.0.0.6" Fixture.phpLabels = Some php /\
    ValidateConfig (ContainerData.Config web) = None /\
    ValidateConfig (ContainerData.Config php) = None /\
    (forall result,
       GenerateNginxConfig asciiTables Fixture.hash Fixture.join [web]
         Fixture.sm Fixture.fpm 0 Fixture.world result ->
       exists config, fst result = Ok config) /\
    (forall result,
       GenerateNginxConfig asciiTables Fixture.hash Fixture.join [web; php]
         Fixture.sm Fixture.fpm 0 Fixture.world result ->
       result =
       (Err ("failed to load FastCGI params for container php: "
             +:+ "failed to load FastCGI params from file /etc/php/fastcgi.conf: "
             +:+ "system directories not allowed"), Fixture.world)).
Proof.
  destruct (Fixture.container "web" "10.0.0.5" Fixture.webLabels) as [web|] eqn:Hweb;
    [|discriminate Hweb].
  destruct (Fixture.container "php" "10.0.0.6" Fixture.phpLabels) as [php|] eqn:Hphp;
    [|discriminate Hphp].
  exists web, php. split; [reflexivity|]. split; [reflexivity|].
  vm_compute in Hweb. injection Hweb as <-.
  vm_compute in Hphp. injection Hphp as <-.
  split; [reflexivity|]. split; [reflexivity|]. split.
  - intros result (visit & Hperm & <-).
    vm_compute in Hperm.
    apply Permutation_sym, Permutation_length_1_inv in Hperm. subst visit.
    eexists. vm_compute. reflexivity.
  - intros result (visit & Hperm & <-).
    vm_compute in Hperm.
    apply Permutation_sym, Permutation_length_2_inv in Hperm.
    destruct Hperm as [-> | ->]; vm_compute; reflexivity.
Qed.

(** ** FastCGI and the spelling of the backend protocol *)

Lemma extractPort_valid (containerName : string) (labels : gmap string string) :
  validPortLabel labels ->
  exists port, extractPort containerName labels = Ok port /\ (0 < port <= 65535)%Z.
Proof.
  unfold extractPort. intros [-> | (portStr & port & -> & -> & Hrange)].
  - exists 80%Z. split; [reflexivity | lia].
  - exists port. split; [|exact Hrange].
    destruct (Z.ltb_spec 0 port); [|lia].
    destruct (Z.leb_spec port 65535); [reflexivity | lia].
Qed.

Lemma extractProtocol_valid (containerName : string) (labels : gmap string string) :
  validProtocolLabel labels ->
  exists protocol,
    extractProtocol containerName labels = Ok protocol /\
    (protocol = "http"%string \/ protocol = "https"%string).
Proof.
  unfold extractProtocol. intros [-> | [-> | ->]]; eexists; (split; [reflexivity|]); auto.
Qed.

Lemma extractPath_valid (labels : gmap string string) :
  validPathLabel labels -> HasPrefix (default DefaultPath (labels !! LabelPath)) "/" = true.
Proof. intros [-> | (path & -> & H)]; [reflexivity | exact H]. Qed.

Section BackendProtocol.
Variable U : UnicodeTables.

(** What the code does in general.  For every label map with the enable
    label true, a non-empty host, port, protocol and path labels absent or
    well formed, and a backend-protocol label that equals [FCGI] when
    compared without regard to case: [ExtractConfig] succeeds and the
    configuration has FastCGI enabled; it passes [ValidateConfig] exactly
    when the label is spelled [FCGI], and with any other casing
    [ValidateConfig] refuses it. *)
Lemma fastcgi_enabled_valid_only_when_spelled_FCGI
  (containerID containerName networkIP : string) (labels : gmap string string)
  (enabled host backendProtocol : string) :
  labels !! LabelEnable = Some enabled -> parseBool U enabled = true ->
  labels !! LabelHost = Some host -> host <> EmptyString ->
  labels !! LabelBackendProtocol = Some backendProtocol ->
  ToUpper U backendProtocol = "FCGI"%string ->
  validPortLabel labels -> validProtocolLabel labels -> validPathLabel labels ->
  exists config,
    ExtractConfig U containerID containerName networkIP labels = Ok config /\
    FastCGIConfig.Enabled (ContainerConfig.FastCGI config) = true /\
    (ValidateConfig config = None <-> backendProtocol = "FCGI"%string) /\
    (backendProtocol <> "FCGI"%string ->
     ValidateConfig config
       = Some "backend-protocol must be 'FCGI' when FastCGI is enabled"%string).
Proof.
  intros Hen Hbool Hhost Hne Hbp Hupper Hport Hproto Hpath.
  destruct (extractPort_valid containerName labels Hport) as (port & Hp & Hrange).
  destruct (extractProtocol_valid containerName labels Hproto) as (protocol & Hpr & Hcases).
  apply extractPath_valid in Hpath.
  unfold ExtractConfig. rewrite Hen, Hbool, Hhost, Hp, Hpr. cbn [negb].
  eexists. split; [reflexivity|].
  assert (Henabled : FastCGIConfig.Enabled (extractFastCGIConfig U labels) = true).
  { unfold extractFastCGIConfig. cbn [FastCGIConfig.Enabled]. rewrite Hbp, Hupper. reflexivity. }
  assert (Hstored : FastCGIConfig.BackendProtocol (extractFastCGIConfig U labels)
                    = backendProtocol).
  { unfold extractFastCGIConfig, label. cbn [FastCGIConfig.BackendProtocol].
    rewrite Hbp. reflexivity. }
  split; [exact Henabled|].
  assert (Hvalidate :
    ValidateConfig
      {| ContainerConfig.ContainerID := containerID;
         ContainerConfig.ContainerName := containerName;
         ContainerConfig.NetworkIP := networkIP;
         ContainerConfig.Enabled := true;
         ContainerConfig.Host := host;
         ContainerConfig.Port := port;
         ContainerConfig.Path := default DefaultPath (labels !! LabelPath);
         ContainerConfig.Protocol := protocol;
         ContainerConfig.Priority := extractPriority labels;
         ContainerConfig.Rule := label labels LabelRule;
         ContainerConfig.TLS := parseBool U (label labels LabelTLS);
         ContainerConfig.CertName := label labels LabelCertName;
         ContainerConfig.LoadBalancer := extractLoadBalancerConfig labels;
         ContainerConfig.HealthCheck := extractHealthCheckConfig U labels;
         ContainerConfig.Middleware := extractMiddlewareConfig U labels;
         ContainerConfig.ConfigurationSnippet := label labels LabelConfigurationSnippet;
         ContainerConfig.ServerSnippet := label labels LabelServerSnippet;
         ContainerConfig.FastCGI := extractFastCGIConfig U labels |}
    = if String.eqb backendProtocol "FCGI" then None
      else Some "backend-protocol must be 'FCGI' when FastCGI is enabled"%string).
  { unfold ValidateConfig.
    cbn [ContainerConfig.Enabled ContainerConfig.Host ContainerConfig.Port
         ContainerConfig.Protocol ContainerConfig.FastCGI ContainerConfig.Path negb].
    rewrite (eqb_empty_false _ Hne), Henabled, Hstored, Hpath.
    destruct (Z.leb_spec port 0); [lia|].
    destruct (Z.ltb_spec 65535 port); [lia|].
    cbn [orb andb negb].
    assert (Hprotocol : negb (String.eqb protocol "http") && negb (String.eqb protocol "https")
                        = false) by (destruct Hcases as [-> | ->]; reflexivity).
    rewrite Hprotocol.
    destruct (String.eqb backendProtocol "FCGI"); reflexivity. }
  rewrite Hvalidate.
  destruct (String.eqb_spec backendProtocol "FCGI") as [Heq | Hneq].
  - split; [split; auto | intros H; contradiction].
  - split; [split; [discriminate | intros H; contradiction] | reflexivity].
Qed.

End BackendProtocol.

(** The lemma at the labels of the PHP application, spelled [FCGI]. *)
Lemma spelled_FCGI_passes_validation :
  exists config,
    ExtractConfig asciiTables Fixture.containerID "php" "10.0.0.6" Fixture.phpLabels
      = Ok config /\
    FastCGIConfig.Enabled (ContainerConfig.FastCGI config) = true /\
    (ValidateConfig config = None <-> "FCGI"%string = "FCGI"%string) /\
    ("FCGI"%string <> "FCGI"%string ->
     ValidateConfig config
       = Some "backend-protocol must be 'FCGI' when FastCGI is enabled"%string).
Proof.
  apply (fastcgi_enabled_valid_only_when_spelled_FCGI asciiTables Fixture.containerID
           "php" "10.0.0.6" Fixture.phpLabels "true" "php.local" "FCGI").
  - reflexivity.
  - reflexivity.
  - reflexivity.
  - discriminate.
  - reflexivity.
  - reflexivity.
  - right. exists "9000"%string, 9000%Z. repeat split; try reflexivity; lia.
  - left. reflexivity.
  - left. reflexivity.
Defined.

(** C4, the code at the failing input.  The labels enable the container,
    name the host [php.local] and give the backend protocol as [fcgi], which
    equals [FCGI] without regard to case.  [ExtractConfig] turns FastCGI on,
    as the comparison in upper case says it should; [ValidateConfig] then
    compares the label as written and refuses the configuration. *)
Theorem C4_lowercase_fcgi_fails_validation :
  Fixture.fcgiLowerLabels !! LabelEnable = Some "true"%string /\
  parseBool asciiTables "true" = true /\
  Fixture.fcgiLowerLabels !! LabelHost = Some "php.local"%string /\
  Fixture.fcgiLowerLabels !! LabelBackendProtocol = Some "fcgi"%string /\
  ToUpper asciiTables "fcgi" = "FCGI"%string /\
  exists config,
    ExtractConfig asciiTables Fixture.containerID "php" "10.0.0.6" Fixture.fcgiLowerLabels
      = Ok config /\
    FastCGIConfig.Enabled (ContainerConfig.FastCGI config) = true /\
    ValidateConfig config
      = Some "backend-protocol must be 'FCGI' when FastCGI is enabled"%string.
Proof.
  repeat (split; [reflexivity|]).
  eexists. split; [vm_compute; reflexivity|]. split; reflexivity.
Qed.

(** ** The circuit breaker *)

Section CircuitBreakerLaws.
Import errors.
Local Open Scope Z_scope.
Context {W : Type}.

Lemma wrap_int_succ (x : Z) : 0 <= x < GoStrconv.maxInt -> wrap_int (x + 1) = x + 1.
Proof.
  unfold wrap_int, GoStrconv.maxInt. intros H.
  rewrite Z.mod_small by lia. lia.
Qed.

Lemma checkReset_not_open (cb : CircuitBreaker) (now : Z) :
  isOpen (state cb) = false -> checkReset cb now = cb.
Proof. unfold checkReset. intros ->. reflexivity. Qed.

(** One failing call on a breaker that is not open. *)
Lemma Execute_failure (cb : CircuitBreaker) (now later : Z)
  (operation : W -> option string * W) (w : W) (err : string) (w' : W) :
  isOpen (state cb) = false -> operation w = (Some err, w') ->
  Execute cb now later operation w =
  (Some err,
   {| failureThreshold := failureThreshold cb; timeout := timeout cb;
      failureCount := wrap_int (failureCount cb + 1); lastFailureTime := later;
      state := if failureThreshold cb <=? wrap_int (failureCount cb + 1)
               then Open else state cb |},
   w').
Proof.
  intros Hstate Hop. unfold Execute.
  rewrite (checkReset_not_open _ _ Hstate), Hstate, Hop. reflexivity.
Qed.

(** One successful call on a breaker that is not open. *)
Lemma Execute_success (cb : CircuitBreaker) (now later : Z)
  (operation : W -> option string * W) (w w' : W) :
  isOpen (state cb) = false -> operation w = (None, w') ->
  Execute cb now later operation w =
  (None,
   {| failureThreshold := failureThreshold cb; timeout := timeout cb;
      failureCount := 0; lastFailureTime := lastFailureTime cb;
      state := match state cb with HalfOpen => Closed | s => s end |},
   w').
Proof.
  intros Hstate Hop. unfold Execute.
  rewrite (checkReset_not_open _ _ Hstate), Hstate, Hop. reflexivity.
Qed.

(** Failures in a row on a closed breaker: it opens with the one that brings
    the count to the threshold. *)
Lemma consecutive_failures_open (calls : list (Z * Z * (W -> option string * W))) :
  forall (cb : CircuitBreaker) (w : W),
    state cb = Closed ->
    0 <= failureCount cb ->
    failureThreshold cb <= GoStrconv.maxInt ->
    calls <> [] ->
    failureCount cb + Z.of_nat (length calls) = failureThreshold cb ->
    Forall (fun call => alwaysFails (snd call)) calls ->
    state (fst (ExecuteAll cb calls w)) = Open.
Proof.
  induction calls as [|[[now later] operation] rest IH];
    intros cb w Hclosed Hcount Hmax Hne Hlen Hfail; [contradiction|].
  inversion Hfail as [|? ? Hop Hrest]; subst.
  cbn [length] in Hlen. cbn [ExecuteAll].
  pose proof (Hop w) as Hw. cbn [snd] in Hw.
  destruct (operation w) as [[err|] w'] eqn:Hrun; [|contradiction].
  rewrite (Execute_failure cb now later operation w err w') by (rewrite ?Hclosed; auto).
  rewrite wrap_int_succ by lia.
  destruct rest as [|call rest'].
  - cbn [ExecuteAll fst state].
    destruct (Z.leb_spec (failureThreshold cb) (failureCount cb + 1)); [reflexivity|].
    cbn [length] in Hlen. lia.
  - apply IH.
    + cbn [state]. rewrite Hclosed.
      destruct (Z.leb_spec (failureThreshold cb) (failureCount cb + 1)); [|reflexivity].
      cbn [length] in Hlen. lia.
    + cbn [failureCount]. lia.
    + exact Hmax.
    + discriminate.
    + cbn [failureCount failureThreshold]. cbn [length] in Hlen |- *. lia.
    + exact Hrest.
Qed.

(** C5, as amended.  (1) On a closed breaker with no counted failure, as
    [NewCircuitBreaker] makes it and as a success leaves it,
    [failure_threshold] failing calls in a row leave the breaker open.
    (2) A call on an open breaker, while no more than the timeout has gone
    by since the last failure, returns the open-circuit error and runs
    nothing: breaker and operation state are as before.  (3) Once more than
    the timeout has gone by, the call behaves as on the breaker set to
    half-open with its count at zero, and the operation runs.  (4) A
    success on a half-open breaker closes it and zeroes the count.  (5) A
    failure on a half-open breaker adds one to the count and opens the
    breaker only if the count has reached [failure_threshold]; else the
    breaker stays half-open.  So the first failure after the breaker went
    half-open reopens it exactly when [failure_threshold] is at most 1. *)
Theorem C5_circuit_breaker_laws :
  (forall (cb : CircuitBreaker) (calls : list (Z * Z * (W -> option string * W))) (w : W),
      state cb = Closed ->
      failureCount cb = 0 ->
      1 <= failureThreshold cb <= GoStrconv.maxInt ->
      Z.of_nat (length calls) = failureThreshold cb ->
      Forall (fun call => alwaysFails (snd call)) calls ->
      state (fst (ExecuteAll cb calls w)) = Open) /\
  (forall (cb : CircuitBreaker) (now later : Z) (operation : W -> option string * W) (w : W),
      state cb = Open ->
      Sub now (lastFailureTime cb) <= timeout cb ->
      Execute cb now later operation w = (Some "circuit breaker is open"%string, cb, w)) /\
  (forall (cb : CircuitBreaker) (now later : Z) (operation : W -> option string * W) (w : W),
      state cb = Open ->
      timeout cb < Sub now (lastFailureTime cb) ->
      Execute cb now later operation w = Execute (halfOpen cb) now later operation w /\
      (fst (fst (Execute cb now later operation w)), snd (Execute cb now later operation w))
        = operation w) /\
  (forall (cb : CircuitBreaker) (now later : Z) (operation : W -> option string * W) (w : W),
      state cb = HalfOpen ->
      fst (operation w) = None ->
      let cb' := snd (fst (Execute cb now later operation w)) in
      state cb' = Closed /\ failureCount cb' = 0) /\
  (forall (cb : CircuitBreaker) (now later : Z) (operation : W -> option string * W) (w : W),
      state cb = HalfOpen ->
      fst (operation w) <> None ->
      let cb' := snd (fst (Execute cb now later operation w)) in
      failureCount cb' = wrap_int (failureCount cb + 1) /\
      (failureThreshold cb <= failureCount cb' -> state cb' = Open) /\
      (failureCount cb' < failureThreshold cb -> state cb' = HalfOpen)) /\
  (forall (cb : CircuitBreaker) (now later : Z) (operation : W -> option string * W) (w : W),
      fst (operation w) <> None ->
      let cb' := snd (fst (Execute (halfOpen cb) now later operation w)) in
      (failureThreshold cb <= 1 -> state cb' = Open) /\
      (1 < failureThreshold cb -> state cb' = HalfOpen)).
Proof.
  repeat apply conj.
  - intros cb calls w Hclosed Hzero Hrange Hlen Hfail.
    apply consecutive_failures_open.
    + exact Hclosed.
    + lia.
    + lia.
    + intros ->. cbn [length] in Hlen. lia.
    + lia.
    + exact Hfail.
  - intros cb now later operation w Hopen Hwait. unfold Execute, checkReset.
    rewrite Hopen. cbn [isOpen andb].
    destruct (Z.ltb_spec (timeout cb) (Sub now (lastFailureTime cb))); [lia|].
    rewrite Hopen. reflexivity.
  - intros cb now later operation w Hopen Hwait.
    assert (Hreset : checkReset cb now = halfOpen cb).
    { unfold checkReset. rewrite Hopen. cbn [isOpen andb].
      destruct (Z.ltb_spec (timeout cb) (Sub now (lastFailureTime cb))); [reflexivity | lia]. }
    assert (Hsame : Execute cb now later operation w
                    = Execute (halfOpen cb) now later operation w).
    { unfold Execute. rewrite Hreset.
      rewrite (checkReset_not_open (halfOpen cb)) by reflexivity. reflexivity. }
    split; [exact Hsame|].
    rewrite Hsame. unfold Execute.
    rewrite (checkReset_not_open (halfOpen cb)) by reflexivity.
    cbn [halfOpen state isOpen].
    destruct (operation w) as [[err|] w']; reflexivity.
  - intros cb now later operation w Hhalf Hop.
    destruct (operation w) as [[err|] w'] eqn:Hrun; [discriminate Hop|].
    rewrite (Execute_success cb now later operation w w') by (rewrite ?Hhalf; auto).
    cbn. rewrite Hhalf. auto.
  - intros cb now later operation w Hhalf Hop.
    destruct (operation w) as [[err|] w'] eqn:Hrun; [|contradiction].
    rewrite (Execute_failure cb now later operation w err w') by (rewrite ?Hhalf; auto).
    cbn [fst snd state failureCount]. rewrite Hhalf.
    split; [reflexivity|].
    destruct (Z.leb_spec (failureThreshold cb) (wrap_int (failureCount cb + 1)));
      split; intros; (reflexivity || lia).
  - intros cb now later operation w Hop.
    destruct (operation w) as [[err|] w'] eqn:Hrun; [|contradiction].
    rewrite (Execute_failure (halfOpen cb) now later operation w err w') by auto.
    cbn [fst snd state failureCount halfOpen errors.failureThreshold].
    change (wrap_int (0 + 1)) with 1.
    destruct (Z.leb_spec (failureThreshold cb) 1); split; intros; (reflexivity || lia).
Qed.

End CircuitBreakerLaws.

(** The first law at threshold 3: three failures open the new breaker. *)
Lemma C5_three_failures_open_witness :
  errors.state
    (fst (errors.ExecuteAll (errors.NewCircuitBreaker 3 (30 * Fixture.second))
            Fixture.threeFailures tt)) = errors.Open.
Proof.
  apply (proj1 (C5_circuit_breaker_laws (W := unit))).
  - reflexivity.
  - reflexivity.
  - unfold GoStrconv.maxInt. simpl. lia.
  - reflexivity.
  - repeat constructor; intros w; discriminate.
Defined.

(** With threshold 3 the breaker is open after three failures; ten seconds
    after the timeout a call runs and fails, and the breaker is half-open,
    not open, with one failure counted. *)
Lemma C5_failure_in_half_open_stays_half_open :
  errors.state Fixture.tripped = errors.Open /\
  errors.failureThreshold Fixture.tripped = 3%Z /\
  (errors.timeout Fixture.tripped
   < errors.Sub (40 * Fixture.second) (errors.lastFailureTime Fixture.tripped))%Z /\
  errors.Execute Fixture.tripped (40 * Fixture.second) (41 * Fixture.second) Fixture.failing tt
  = (Some "connection refused"%string,
     {| errors.failureThreshold := 3; errors.timeout := 30 * Fixture.second;
        errors.failureCount := 1; errors.lastFailureTime := 41 * Fixture.second;
        errors.state := errors.HalfOpen |}, tt) /\
  errors.state
    (snd (fst (errors.Execute (errors.halfOpen Fixture.tripped)
                 (40 * Fixture.second) (41 * Fixture.second) Fixture.failing tt)))
  <> errors.Open.
Proof.
  repeat split; try reflexivity. discriminate.
Qed.

(** ** Committing the configuration file *)

Lemma length_append (s t : string) :
  String.length (s +:+ t) = String.length s + String.length t.
Proof. induction s as [|a s IH]; simpl; [reflexivity | rewrite IH; reflexivity]. Qed.

Lemma tmp_name_differs (path : string) : path +:+ ".tmp" <> path.
Proof.
  intros H. apply (f_equal String.length) in H.
  rewrite length_append in H. simpl in H. lia.
Qed.

Section Commit.
Variable RenderNginxConfig : NginxConfig.t -> string -> World -> outcome string.
Variable filepath_Dir : string -> string.
Variable p : Provider.
Variable config : NginxConfig.t.
Variable w : World.
Variable content : string.
Hypothesis rendered : RenderNginxConfig config (templatePath p) w = Ok content.
Hypothesis directory_made : faults w (SysMkdirAll (filepath_Dir (nginxConfigPath p))) = None.

Local Abbreviation tempFile := (nginxConfigPath p +:+ ".tmp").
Local Abbreviation commit := (writeConfigFile RenderNginxConfig filepath_Dir p config w).

(** The commit that works: the text is at the configuration path and the
    temporary file is gone. *)
Lemma writeConfigFile_commits :
  faults w (SysWriteFile tempFile) = None ->
  faults w (SysRename tempFile (nginxConfigPath p)) = None ->
  fst commit = Ok tt /\
  files (snd commit) !! nginxConfigPath p = Some content /\
  files (snd commit) !! tempFile = None.
Proof using rendered directory_made.
  intros Hwrite Hrename. unfold writeConfigFile, os_MkdirAll, os_WriteFile, os_Rename.
  rewrite rendered, directory_made, Hwrite. cbn [faults set_files files].
  rewrite Hrename, lookup_insert_eq. cbn [fst snd files Printf set_files].
  split; [reflexivity|]. split.
  - apply lookup_insert_eq.
  - rewrite lookup_insert_ne by (intros H; exact (tmp_name_differs _ (eq_sym H))).
    apply lookup_delete_eq.
Qed.

(** The rename that fails: the temporary file is removed and the file at
    the configuration path is the one from before. *)
Lemma writeConfigFile_rename_fails (f : fault) :
  faults w (SysWriteFile tempFile) = None ->
  faults w (SysRename tempFile (nginxConfigPath p)) = Some f ->
  (exists e, fst commit = Err e) /\
  files (snd commit) !! tempFile = None /\
  files (snd commit) !! nginxConfigPath p = files w !! nginxConfigPath p.
Proof using rendered directory_made.
  intros Hwrite Hrename. unfold writeConfigFile, os_MkdirAll, os_WriteFile, os_Rename.
  rewrite rendered, directory_made, Hwrite. cbn [faults set_files files].
  rewrite Hrename. cbn [fst snd files os_Remove set_files].
  split; [eauto|]. split.
  - apply lookup_delete_eq.
  - rewrite lookup_delete_ne by apply tmp_name_differs.
    apply lookup_insert_ne, tmp_name_differs.
Qed.

(** The write that fails midway: the function returns at once, and the
    temporary file stays behind with the bytes that went in. *)
Lemma writeConfigFile_write_fails (written : nat) :
  faults w (SysWriteFile tempFile) = Some (FailAfter written) ->
  (exists e, fst commit = Err e) /\
  files (snd commit) !! tempFile = Some (substring 0 written content).
Proof using rendered directory_made.
  intros Hwrite. unfold writeConfigFile, os_MkdirAll, os_WriteFile.
  rewrite rendered, directory_made, Hwrite. cbn [fst snd files set_files].
  split; [eauto | apply lookup_insert_eq].
Qed.

End Commit.

(** C6, the code at the failing input.  The disk fills up while
    [<config_path>.tmp] is written, after six bytes.  [writeConfigFile]
    returns the error of the write, and the temporary file is still there,
    holding those six bytes: nothing deletes it. *)
Theorem C6_failed_temp_write_leaves_temp_file :
  Fixture.renderStub Fixture.emptyConfig (templatePath Fixture.provider) Fixture.fullDisk
    = Ok "server { listen 80; }"%string /\
  files Fixture.fullDisk !! "/etc/nginx/conf.d/docker-ingress.conf.tmp"%string = None /\
  exists w',
    writeConfigFile Fixture.renderStub Fixture.dirStub Fixture.provider Fixture.emptyConfig
      Fixture.fullDisk
    = (Err ("failed to write temp config file: "
            +:+ "write /etc/nginx/conf.d/docker-ingress.conf.tmp: failed"), w') /\
    files w' !! "/etc/nginx/conf.d/docker-ingress.conf.tmp"%string = Some "server"%string /\
    files w' !! "/etc/nginx/conf.d/docker-ingress.conf"%string = None.
Proof.
  split; [reflexivity|]. split; [reflexivity|].
  eexists. split; [reflexivity|]. split; reflexivity.
Qed.

(** ** The order of the locations *)

Section InsertionSort.
Context {A : Type}.
Variable less : A -> A -> bool.
Hypothesis less_asym : forall a b, less a b = true -> less b a = false.
Hypothesis less_negtrans :
  forall a b c, less a b = false -> less b c = false -> less a c = false.

(** In the sorted prefix kept last element first, no element is less than
    one that comes after it in the list, that is, before it in the slice. *)
Local Abbreviation notLessThanEarlier := (fun later earlier : A => less later earlier = false).

Lemma insertLess_Permutation (x : A) (sorted_rev : list A) :
  Permutation (insertLess less x sorted_rev) (x :: sorted_rev).
Proof.
  induction sorted_rev as [|y rest IH]; simpl; [reflexivity|].
  destruct (less x y); [|reflexivity].
  rewrite IH. apply perm_swap.
Qed.

Lemma insertLess_sorted (x : A) (sorted_rev : list A) :
  StronglySorted notLessThanEarlier sorted_rev ->
  StronglySorted notLessThanEarlier (insertLess less x sorted_rev).
Proof using less_asym less_negtrans.
  induction sorted_rev as [|y rest IH]; intros Hsorted; simpl.
  - repeat constructor.
  - apply StronglySorted_inv in Hsorted. destruct Hsorted as [Hrest Hy].
    destruct (less x y) eqn:Hxy.
    + constructor; [apply IH; exact Hrest|].
      apply List.Forall_forall. intros z Hz.
      apply (Permutation_in _ (insertLess_Permutation x rest)) in Hz.
      destruct Hz as [<- | Hz]; [apply less_asym; exact Hxy|].
      exact (proj1 (List.Forall_forall _ _) Hy z Hz).
    + constructor; [constructor; assumption|].
      constructor; [exact Hxy|].
      apply List.Forall_forall. intros z Hz.
      apply (less_negtrans x y z Hxy).
      exact (proj1 (List.Forall_forall _ _) Hy z Hz).
Qed.

Lemma insertion_fold_Permutation (data sorted_rev : list A) :
  Permutation (fold_left (fun acc x => insertLess less x acc) data sorted_rev)
              (data ++ sorted_rev).
Proof.
  revert sorted_rev. induction data as [|x data IH]; intros sorted_rev; simpl; [reflexivity|].
  rewrite IH, insertLess_Permutation. symmetry. apply Permutation_middle.
Qed.

Lemma insertion_fold_sorted (data sorted_rev : list A) :
  StronglySorted notLessThanEarlier sorted_rev ->
  StronglySorted notLessThanEarlier
    (fold_left (fun acc x => insertLess less x acc) data sorted_rev).
Proof using less_asym less_negtrans.
  revert sorted_rev. induction data as [|x data IH]; intros sorted_rev Hsorted; simpl;
    [exact Hsorted|].
  apply IH, insertLess_sorted, Hsorted.
Qed.

Lemma StronglySorted_rev_flip (R : A -> A -> Prop) (l : list A) :
  StronglySorted R l -> StronglySorted (fun a b => R b a) (rev l).
Proof.
  induction 1 as [|x l Hl IH Hx]; simpl; [constructor|].
  apply StronglySorted_app_2.
  - intros x1 x2 Hx1 Hx2. apply list_elem_of_In in Hx1, Hx2.
    destruct Hx2 as [<- | []]. apply in_rev in Hx1.
    exact (proj1 (List.Forall_forall _ _) Hx x1 Hx1).
  - exact IH.
  - repeat constructor.
Qed.

Lemma insertionSort_Permutation (data : list A) :
  Permutation (insertionSortLessFunc less data) data.
Proof.
  unfold insertionSortLessFunc. rewrite <- Permutation_rev, insertion_fold_Permutation.
  rewrite app_nil_r. reflexivity.
Qed.

(** After the insertion sort no element is less than one placed before
    it. *)
Lemma insertionSort_sorted (data : list A) :
  StronglySorted (fun a b => less b a = false) (insertionSortLessFunc less data).
Proof using less_asym less_negtrans.
  unfold insertionSortLessFunc.
  apply (StronglySorted_rev_flip notLessThanEarlier), insertion_fold_sorted. constructor.
Qed.

End InsertionSort.

(** The insertion sort does what the library documents of its sort. *)
Lemma insertionSort_as_documented {A : Type} : sortsAsDocumented (@insertionSortLessFunc A).
Proof.
  intros less Hasym Hnegtrans data. split.
  - apply insertionSort_Permutation.
  - apply insertionSort_sorted; assumption.
Qed.

(** [sort.Slice] on a comparison that is a strict weak order: by the
    insertion sort on a slice of up to twelve elements, by what the library
    documents on a longer one. *)
Lemma sort_Slice_sorted_permutation {A : Type}
  (pdqsort : (A -> A -> bool) -> list A -> list A) (less : A -> A -> bool) (data : list A) :
  (forall a b, less a b = true -> less b a = false) ->
  (forall a b c, less a b = false -> less b c = false -> less a c = false) ->
  length data <= 12 \/ sortsAsDocumented pdqsort ->
  Permutation (sort_Slice pdqsort less data) data /\
  StronglySorted (fun a b => less b a = false) (sort_Slice pdqsort less data).
Proof.
  intros Hasym Hnegtrans Hcase. unfold sort_Slice.
  destruct (Nat.leb_spec (length data) 12) as [Hshort | Hlong].
  - apply insertionSort_as_documented; assumption.
  - destruct Hcase as [Hshort | Hlibrary]; [lia|]. apply Hlibrary; assumption.
Qed.

Lemma locationLess_asym (a b : LocationConfig.t) :
  locationLess a b = true -> locationLess b a = false.
Proof.
  unfold locationLess.
  destruct (Z.eqb_spec (LocationConfig.Priority a) (LocationConfig.Priority b)) as [Heq | Hne];
    destruct (Z.eqb_spec (LocationConfig.Priority b) (LocationConfig.Priority a)); try lia;
    cbn [negb].
  - intros H. apply Nat.ltb_lt in H. apply Nat.ltb_ge. lia.
  - intros H. apply Z.ltb_lt in H. apply Z.ltb_ge. lia.
Qed.

Lemma locationLess_false (a b : LocationConfig.t) :
  locationLess a b = false <-> emittedBefore b a.
Proof.
  unfold locationLess, emittedBefore.
  destruct (Z.eqb_spec (LocationConfig.Priority a) (LocationConfig.Priority b)) as [Heq | Hne];
    cbn [negb].
  - rewrite Nat.ltb_ge. split; [intros H; right; split; [symmetry; exact Heq | exact H]|].
    intros [H | [_ H]]; [lia | exact H].
  - rewrite Z.ltb_ge. split; [intros H; left; lia|].
    intros [H | [H _]]; [lia | congruence].
Qed.

Lemma locationLess_negtrans (a b c : LocationConfig.t) :
  locationLess a b = false -> locationLess b c = false -> locationLess a c = false.
Proof.
  rewrite !locationLess_false. unfold emittedBefore.
  intros [H1 | [H1 H1']] [H2 | [H2 H2']]; [left | left | left | right]; lia.
Qed.

Lemma StronglySorted_weaken {A : Type} (R S : A -> A -> Prop) (l : list A) :
  (forall a b, R a b -> S a b) -> StronglySorted R l -> StronglySorted S l.
Proof.
  intros HRS. induction 1 as [|x l Hl IH Hx]; constructor; [exact IH|].
  apply List.Forall_forall. intros y Hy. apply HRS.
  exact (proj1 (List.Forall_forall _ _) Hx y Hy).
Qed.

(** The order of emission is total: of two locations one may be emitted
    before the other. *)
Lemma emittedBefore_total (a b : LocationConfig.t) : emittedBefore a b \/ emittedBefore b a.
Proof. unfold emittedBefore. lia. Qed.

(** C9.  [sortLocationsByPriority] returns a permutation of its input in
    which every location comes before all those of lower priority and, among
    those of its own priority, before all those with a shorter path: whatever
    two positions one takes, the earlier location has the higher priority,
    or the same priority and a path at least as long.  This holds of the code
    itself for up to twelve locations, which [sort.Slice] sorts by insertion,
    and for more of them by what the library documents of its sort.  Hence the
    locations of a server block, which the template emits in that order, are
    emitted in an order consistent with priority, then path length. *)
Theorem C9_sortLocationsByPriority_sorted_permutation
  (pdqsort : (LocationConfig.t -> LocationConfig.t -> bool)
             -> list LocationConfig.t -> list LocationConfig.t)
  (locations : list LocationConfig.t) (server : ServerConfig.t) :
  (length locations <= 12 \/ sortsAsDocumented pdqsort) ->
  (length (ServerConfig.Locations server) <= 12 \/ sortsAsDocumented pdqsort) ->
  (Permutation (sortLocationsByPriority pdqsort locations) locations /\
   StronglySorted emittedBefore (sortLocationsByPriority pdqsort locations)) /\
  (Permutation (emittedLocations pdqsort server) (ServerConfig.Locations server) /\
   StronglySorted emittedBefore (emittedLocations pdqsort server)) /\
  (forall a b, emittedBefore a b \/ emittedBefore b a).
Proof.
  assert (Hsort : forall l,
            length l <= 12 \/ sortsAsDocumented pdqsort ->
            Permutation (sortLocationsByPriority pdqsort l) l /\
            StronglySorted emittedBefore (sortLocationsByPriority pdqsort l)).
  { intros l Hcase. unfold sortLocationsByPriority.
    destruct (sort_Slice_sorted_permutation pdqsort locationLess l
                locationLess_asym locationLess_negtrans Hcase) as [Hperm Hsorted].
    split; [exact Hperm|].
    apply (StronglySorted_weaken (fun a b => locationLess b a = false)); [|exact Hsorted].
    intros a b H. apply locationLess_false. exact H. }
  intros Hlocations Hserver. split; [apply Hsort; exact Hlocations|].
  split; [apply Hsort; exact Hserver | exact emittedBefore_total].
Qed.

(** C9 on a server block with thirteen locations, with the insertion sort
    standing for the sort of the library. *)
Lemma C9_sortLocationsByPriority_sorted_permutation_witness :
  sortsAsDocumented (@insertionSortLessFunc LocationConfig.t) /\
  length (ServerConfig.Locations Running.thirteen) = 13 /\
  StronglySorted emittedBefore (emittedLocations insertionSortLessFunc Running.thirteen) /\
  map LocationConfig.Priority (emittedLocations insertionSortLessFunc Running.thirteen)
  = [13; 12; 11; 10; 9; 8; 7; 6; 5; 4; 3; 2; 1]%Z.
Proof.
  split; [exact insertionSort_as_documented|]. split; [reflexivity|].
  split; [|reflexivity].
  apply (C9_sortLocationsByPriority_sorted_permutation insertionSortLessFunc
           (ServerConfig.Locations Running.thirteen) Running.thirteen);
    right; exact insertionSort_as_documented.
Defined.

(** ** Health *)

Section Health.
Import health.

(** The overall status does not depend on the order in which the components
    are visited. *)
Lemma overallOf_Permutation (visit visit' : list ComponentHealth) :
  Permutation visit visit' ->
  forall overallStatus, overallOf visit overallStatus = overallOf visit' overallStatus.
Proof.
  induction 1 as [|x l l' _ IH|x y l|l l' l'' _ IH1 _ IH2]; intros overallStatus.
  - reflexivity.
  - simpl. destruct (Status x); auto.
  - simpl. destruct (Status x), (Status y); reflexivity.
  - rewrite IH1. apply IH2.
Qed.

(** C10.  A monitor on which no component was registered reports
    [Healthy], and [healthHandler] answers with status 200 and the body
    that gives the status as healthy. *)
Theorem C10_no_component_is_healthy :
  GetOverallHealth NewHealthMonitor = Healthy /\
  healthHandler NewHealthMonitor
  = (200%Z,
     "{" +:+ dquote +:+ "status" +:+ dquote +:+ ":" +:+ dquote +:+ "healthy" +:+ dquote +:+ "}").
Proof. split; reflexivity. Qed.

End Health.

(** * Further properties of the code *)

(** ** Container names ([SanitizeContainerName]) *)

Lemma occurs_cons (c a : ascii) (s : string) :
  occurs c (String a s) <-> a = c \/ occurs c s.
Proof. reflexivity. Qed.

Lemma occurs_append (c : ascii) (s t : string) :
  occurs c (s +:+ t) <-> occurs c s \/ occurs c t.
Proof.
  unfold occurs. induction s as [|a s IH]; simpl; tauto.
Qed.

Lemma ReplaceAll_removes (s : string) (old : ascii) (new : string) :
  ~ occurs old new -> ~ occurs old (ReplaceAll s old new).
Proof.
  intros Hnew. induction s as [|a s IH]; cbn [ReplaceAll]; [intros []|].
  destruct (Ascii.eqb_spec a old) as [-> | Hne].
  - rewrite occurs_append. tauto.
  - rewrite occurs_cons. tauto.
Qed.

Lemma ReplaceAll_keeps_out (s : string) (old c : ascii) (new : string) :
  ~ occurs c new -> ~ occurs c s -> ~ occurs c (ReplaceAll s old new).
Proof.
  intros Hnew. induction s as [|a s IH]; cbn [ReplaceAll]; [auto|].
  rewrite occurs_cons. intros Hs.
  destruct (Ascii.eqb a old).
  - rewrite occurs_append. tauto.
  - rewrite occurs_cons. tauto.
Qed.

Lemma ReplaceAll_absent (s : string) (old : ascii) (new : string) :
  ~ occurs old s -> ReplaceAll s old new = s.
Proof.
  induction s as [|a s IH]; cbn [ReplaceAll]; [reflexivity|].
  rewrite occurs_cons. intros Hs.
  destruct (Ascii.eqb_spec a old) as [-> | Hne]; [tauto|].
  rewrite IH by tauto. reflexivity.
Qed.

Lemma trimLeftByte_occurs (s : string) (c x : ascii) :
  occurs x (trimLeftByte s c) -> occurs x s.
Proof.
  induction s as [|a s IH]; cbn [trimLeftByte]; [auto|].
  destruct (Ascii.eqb a c); [|auto].
  intros H. apply occurs_cons. right. auto.
Qed.

Lemma trimRightByte_occurs (s : string) (c x : ascii) :
  occurs x (trimRightByte s c) -> occurs x s.
Proof.
  induction s as [|a s IH]; cbn [trimRightByte]; [auto|].
  destruct (trimRightByte s c) as [|b r] eqn:Hr.
  - destruct (Ascii.eqb a c); [intros []|].
    rewrite !occurs_cons. intros [H | []]. auto.
  - rewrite !occurs_cons. intros [H | H]; [auto|]. right. apply IH. exact H.
Qed.

Lemma HasPrefix_empty (s : string) : HasPrefix s EmptyString = true.
Proof. destruct s; reflexivity. Qed.

Lemma HasPrefix_single (a c : ascii) (s : string) :
  HasPrefix (String a s) (String c EmptyString) = Ascii.eqb a c.
Proof. simpl. rewrite HasPrefix_empty. apply andb_true_r. Qed.

Lemma trimLeftByte_no_prefix (s : string) (c : ascii) :
  HasPrefix (trimLeftByte s c) (String c EmptyString) = false.
Proof.
  induction s as [|a s IH]; cbn [trimLeftByte]; [reflexivity|].
  destruct (Ascii.eqb a c) eqn:Hac; [exact IH|].
  rewrite HasPrefix_single. exact Hac.
Qed.

Lemma eqb_single_false (a b c : ascii) (r : string) :
  String.eqb (String a (String b r)) (String c EmptyString) = false.
Proof. apply String.eqb_neq. discriminate. Qed.

Lemma trimRightByte_no_suffix (s : string) (c : ascii) :
  HasSuffix (trimRightByte s c) (String c EmptyString) = false.
Proof.
  induction s as [|a s IH]; simpl; [reflexivity|].
  destruct (trimRightByte s c) as [|b r] eqn:Hr.
  - destruct (Ascii.eqb a c) eqn:Hac; [reflexivity|].
    rewrite HasSuffix_cons. simpl. rewrite Hac. reflexivity.
  - rewrite HasSuffix_cons, eqb_single_false, IH. reflexivity.
Qed.

Lemma trimLeftByte_keeps_no_suffix (s : string) (c : ascii) (suffix : string) :
  HasSuffix s suffix = false -> HasSuffix (trimLeftByte s c) suffix = false.
Proof.
  induction s as [|a s IH]; simpl; [auto|].
  destruct (Ascii.eqb a c); [|auto].
  intros H. apply IH.
  change (String.eqb (String a s) suffix || HasSuffix s suffix = false) in H.
  apply orb_false_iff in H. tauto.
Qed.

Lemma trimLeftByte_fixed (s : string) (c : ascii) :
  HasPrefix s (String c EmptyString) = false -> trimLeftByte s c = s.
Proof.
  destruct s as [|a s]; [reflexivity|].
  rewrite HasPrefix_single. cbn [trimLeftByte]. intros ->. reflexivity.
Qed.

Lemma trimRightByte_fixed (s : string) (c : ascii) :
  HasSuffix s (String c EmptyString) = false -> trimRightByte s c = s.
Proof.
  induction s as [|a s IH]; [reflexivity|].
  rewrite HasSuffix_cons. intros H. apply orb_false_iff in H. destruct H as [Heq Hs].
  simpl. rewrite (IH Hs). destruct s as [|b r]; [|reflexivity].
  simpl in Heq. destruct (Ascii.eqb a c); simpl in Heq; [discriminate Heq | reflexivity].
Qed.

(** What the three replacements and the trimming leave. *)
Lemma sanitized_core (name : string) :
  let core :=
    Trim (ReplaceAll (ReplaceAll (ReplaceAll name "-" "_") "." "_") "/" "_") "_" in
  ~ occurs "-" core /\ ~ occurs "." core /\ ~ occurs "/" core /\
  HasPrefix core "_" = false /\ HasSuffix core "_" = false.
Proof.
  intros core. unfold core, Trim.
  assert (Hunderscore : forall c : ascii, c <> "_"%char -> ~ occurs c "_").
  { intros c Hc [H | []]. congruence. }
  repeat split.
  - intros H. apply trimLeftByte_occurs, trimRightByte_occurs in H. revert H.
    do 2 (apply ReplaceAll_keeps_out; [apply Hunderscore; discriminate|]).
    apply ReplaceAll_removes, Hunderscore. discriminate.
  - intros H. apply trimLeftByte_occurs, trimRightByte_occurs in H. revert H.
    apply ReplaceAll_keeps_out; [apply Hunderscore; discriminate|].
    apply ReplaceAll_removes, Hunderscore. discriminate.
  - intros H. apply trimLeftByte_occurs, trimRightByte_occurs in H. revert H.
    apply ReplaceAll_removes, Hunderscore. discriminate.
  - apply trimLeftByte_no_prefix.
  - apply trimLeftByte_keeps_no_suffix, trimRightByte_no_suffix.
Qed.

(** X1.  Whatever the container name, [SanitizeContainerName] returns a
    name that is not empty, holds none of the bytes [-], [.] and [/], and
    neither starts nor ends with [_]. *)
Theorem X1_SanitizeContainerName_shape (name : string) :
  SanitizeContainerName name <> EmptyString /\
  ~ occurs "-" (SanitizeContainerName name) /\
  ~ occurs "." (SanitizeContainerName name) /\
  ~ occurs "/" (SanitizeContainerName name) /\
  HasPrefix (SanitizeContainerName name) "_" = false /\
  HasSuffix (SanitizeContainerName name) "_" = false.
Proof.
  pose proof (sanitized_core name) as Hcore. cbv zeta in Hcore.
  unfold SanitizeContainerName.
  destruct (String.eqb_spec
              (Trim (ReplaceAll (ReplaceAll (ReplaceAll name "-" "_") "." "_") "/" "_") "_")
              EmptyString) as [Hempty | Hfull].
  - repeat split; try reflexivity; try discriminate;
      intros H; unfold occurs in H; simpl in H;
      repeat (destruct H as [H | H]; [discriminate H|]); exact H.
  - split; [exact Hfull | exact Hcore].
Qed.

(** X2.  [SanitizeContainerName] is idempotent: a sanitized name is left as
    it is. *)
Theorem X2_SanitizeContainerName_idempotent (name : string) :
  SanitizeContainerName (SanitizeContainerName name) = SanitizeContainerName name.
Proof.
  pose proof (sanitized_core name) as Hcore. cbv zeta in Hcore.
  unfold SanitizeContainerName at 2 3.
  destruct (String.eqb_spec
              (Trim (ReplaceAll (ReplaceAll (ReplaceAll name "-" "_") "." "_") "/" "_") "_")
              EmptyString) as [Hempty | Hfull]; [reflexivity|].
  destruct Hcore as (Hdash & Hdot & Hslash & Hp & Hs).
  generalize dependent
    (Trim (ReplaceAll (ReplaceAll (ReplaceAll name "-" "_") "." "_") "/" "_") "_").
  intros s Hdash Hdot Hslash Hp Hs Hne.
  unfold SanitizeContainerName, Trim.
  rewrite (ReplaceAll_absent s "-") by exact Hdash.
  rewrite (ReplaceAll_absent s ".") by exact Hdot.
  rewrite (ReplaceAll_absent s "/") by exact Hslash.
  rewrite (trimRightByte_fixed s "_") by exact Hs.
  rewrite (trimLeftByte_fixed s "_") by exact Hp.
  rewrite (eqb_empty_false s Hne). reflexivity.
Qed.

(** ** Host names ([ValidateHostname]) *)

Lemma Split_not_nil (s : string) (sep : ascii) : Split s sep <> [].
Proof.
  induction s as [|a s IH]; cbn [Split]; [discriminate|].
  destruct (Ascii.eqb a sep); [discriminate|].
  destruct (Split s sep); [contradiction | discriminate].
Qed.

Lemma Split_leading_separator (s : string) (sep : ascii) :
  HasPrefix s (String sep EmptyString) = true -> In EmptyString (Split s sep).
Proof.
  destruct s as [|a s]; [discriminate|].
  rewrite HasPrefix_single. intros H. cbn [Split]. rewrite H. left. reflexivity.
Qed.

Lemma Split_trailing_separator (s : string) (sep : ascii) :
  HasSuffix s (String sep EmptyString) = true ->
  exists front, Split s sep = front ++ [EmptyString].
Proof.
  induction s as [|a s IH]; [discriminate|].
  rewrite HasSuffix_cons. intros H. apply orb_true_iff in H.
  cbn [Split]. destruct H as [H | H].
  - apply String.eqb_eq in H. injection H as -> ->.
    rewrite Ascii.eqb_refl. exists [EmptyString]. reflexivity.
  - destruct (IH H) as [front Hfront]. rewrite Hfront.
    destruct (Ascii.eqb a sep); [exists (EmptyString :: front); reflexivity|].
    destruct front as [|p front'].
    + destruct s as [|b s']; [discriminate H|].
      exfalso. cbn [Split] in Hfront. destruct (Ascii.eqb b sep).
      * injection Hfront as Hnil. exact (Split_not_nil _ _ Hnil).
      * destruct (Split s' sep); discriminate Hfront.
    + exists (String a p :: front'). reflexivity.
Qed.

Lemma validateHostnameParts_None (parts : list string) :
  validateHostnameParts parts = None <->
  Forall (fun part => 1 <= String.length part <= 63) parts.
Proof.
  induction parts as [|part rest IH]; cbn [validateHostnameParts].
  - split; [constructor | reflexivity].
  - destruct (Nat.eqb_spec (String.length part) 0) as [Hzero | Hpos].
    + split; [discriminate|]. intros H. inversion H; subst. lia.
    + destruct (Nat.ltb_spec 63 (String.length part)) as [Hlong | Hshort].
      * split; [discriminate|]. intros H. inversion H; subst. lia.
      * rewrite IH. split.
        -- intros H. constructor; [lia | exact H].
        -- intros H. inversion H; subst. assumption.
Qed.

(** X3.  [ValidateHostname] accepts exactly the names that are not empty,
    have at most 253 bytes, and whose parts between dots have 1 to 63 bytes
    each; a leading or trailing dot is a case of an empty part. *)
Theorem X3_ValidateHostname_accepts_iff (hostname : string) :
  ValidateHostname hostname = None <->
  hostname <> EmptyString /\
  String.length hostname <= 253 /\
  Forall (fun part => 1 <= String.length part <= 63) (Split hostname ".").
Proof.
  unfold ValidateHostname.
  destruct (String.eqb_spec hostname EmptyString) as [Hempty | Hfull].
  { split; [discriminate | tauto]. }
  destruct (Nat.ltb_spec 253 (String.length hostname)) as [Hlong | Hshort].
  { split; [discriminate | lia]. }
  destruct (HasPrefix hostname "." || HasSuffix hostname ".") eqn:Hdots.
  - split; [discriminate|]. intros (_ & _ & Hparts). exfalso.
    assert (Hin : In EmptyString (Split hostname ".")).
    { apply orb_true_iff in Hdots. destruct Hdots as [H | H].
      - apply Split_leading_separator. exact H.
      - destruct (Split_trailing_separator _ _ H) as [front ->].
        apply in_or_app. right. left. reflexivity. }
    pose proof (proj1 (List.Forall_forall _ _) Hparts _ Hin) as Hlen.
    simpl in Hlen. lia.
  - rewrite validateHostnameParts_None. tauto.
Qed.

(** ** Labels ([ExtractConfig], [ValidateConfig]) *)

Lemma extractPort_cases (containerName : string) (labels : gmap string string) :
  (exists port, extractPort containerName labels = Ok port /\ (0 < port <= 65535)%Z /\
                validPortLabel labels) \/
  (exists e, extractPort containerName labels = Err e /\ ~ validPortLabel labels).
Proof.
  unfold extractPort, validPortLabel.
  destruct (labels !! LabelPort) as [portStr|] eqn:Hlabel.
  - destruct (Atoi portStr) as [port|] eqn:Hatoi.
    + destruct (Z.ltb_spec 0 port) as [Hpos | Hneg];
        [destruct (Z.leb_spec port 65535) as [Hle | Hgt]|]; cbn [andb].
      * left. exists port. repeat split; try lia. right. eauto 6.
      * right. eexists. split; [reflexivity|].
        intros [H | (s & p & Hs & Hp & Hr)]; [discriminate|].
        injection Hs as <-. rewrite Hatoi in Hp. injection Hp as <-. lia.
      * right. eexists. split; [reflexivity|].
        intros [H | (s & p & Hs & Hp & Hr)]; [discriminate|].
        injection Hs as <-. rewrite Hatoi in Hp. injection Hp as <-. lia.
    + right. eexists. split; [reflexivity|].
      intros [H | (s & p & Hs & Hp & Hr)]; [discriminate|].
      injection Hs as <-. rewrite Hatoi in Hp. discriminate.
  - left. exists 80%Z. repeat split; try lia. left. reflexivity.
Qed.

Lemma extractProtocol_cases (containerName : string) (labels : gmap string string) :
  (exists protocol, extractProtocol containerName labels = Ok protocol /\
                    (protocol = "http"%string \/ protocol = "https"%string) /\
                    validProtocolLabel labels) \/
  (exists e, extractProtocol containerName labels = Err e /\ ~ validProtocolLabel labels).
Proof.
  unfold extractProtocol, validProtocolLabel.
  destruct (labels !! LabelProtocol) as [protocol|] eqn:Hlabel.
  - destruct (String.eqb_spec protocol "http") as [-> | Hhttp]; cbn [orb].
    + left. eexists. repeat split; auto.
    + destruct (String.eqb_spec protocol "https") as [-> | Hhttps].
      * left. eexists. repeat split; auto.
      * right. eexists. split; [reflexivity|].
        intros [H | [H | H]]; congruence.
  - left. eexists. repeat split; auto.
Qed.

Lemma extractLoadBalancerConfig_method (labels : gmap string string) :
  In (LoadBalancerConfig.Method (extractLoadBalancerConfig labels))
     ["round_robin"; "least_conn"; "ip_hash"]%string.
Proof.
  unfold extractLoadBalancerConfig.
  destruct (labels !! LabelMethod) as [method|]; [|simpl; auto].
  destruct (String.eqb_spec method "round_robin") as [-> | ?]; [simpl; auto|].
  destruct (String.eqb_spec method "least_conn") as [-> | ?]; [simpl; auto|].
  destruct (String.eqb_spec method "ip_hash") as [-> | ?]; simpl; auto.
Qed.

Section ExtractConfigFacts.
Variable U : UnicodeTables.

(** X4.  [ExtractConfig] never panics, and it returns an error exactly when
    the enable label reads as true and the host label is missing, or the
    port label does not parse to a number from 1 to 65535, or the protocol
    label is neither [http] nor [https]. *)
Theorem X4_ExtractConfig_fails_iff (containerID containerName networkIP : string)
  (labels : gmap string string) :
  ((exists e, ExtractConfig U containerID containerName networkIP labels = Err e) <->
   enabledLabel U labels /\
   (labels !! LabelHost = None \/ ~ validPortLabel labels \/ ~ validProtocolLabel labels)) /\
  (forall msg, ExtractConfig U containerID containerName networkIP labels <> Panic msg).
Proof.
  unfold ExtractConfig, enabledLabel.
  destruct (labels !! LabelEnable) as [enabled|] eqn:Hen.
  2:{ split; [|discriminate]. split; [intros [e He]; discriminate He|].
      intros [(value & Hv & _) _]. discriminate Hv. }
  destruct (parseBool U enabled) eqn:Hbool; cbn [negb].
  2:{ split; [|discriminate]. split; [intros [e He]; discriminate He|].
      intros [(value & Hv & Htrue) _]. injection Hv as <-. congruence. }
  destruct (labels !! LabelHost) as [host|] eqn:Hhost.
  2:{ split; [|discriminate]. split; [eauto 6 | eauto]. }
  destruct (extractPort_cases containerName labels)
    as [(port & -> & Hrange & Hvalid) | (e & -> & Hinvalid)].
  2:{ split; [|discriminate]. split; [eauto 7 | eauto]. }
  destruct (extractProtocol_cases containerName labels)
    as [(protocol & -> & Hcases & Hvalid') | (e & -> & Hinvalid)].
  2:{ split; [|discriminate]. split; [eauto 7 | eauto]. }
  split; [|discriminate]. split; [intros [e He]; discriminate He|].
  intros [_ [H | [H | H]]]; [discriminate H | contradiction | contradiction].
Qed.

(** X5.  A configuration that [ExtractConfig] returns is enabled exactly
    when the enable label reads as true.  When it is not, it is the default
    configuration, whatever the other labels say, and [ValidateConfig]
    accepts it.  When it is, its host is the host label, its port lies in
    1..65535, its protocol is [http] or [https] and its load-balancing
    method is one of the three known ones; the port and protocol checks of
    [ValidateConfig] can then not fail, and [ValidateConfig] accepts the
    configuration exactly when the host is not empty, the path starts with
    [/], and the backend protocol is spelled [FCGI] if FastCGI is on. *)
Theorem X5_ExtractConfig_result (containerID containerName networkIP : string)
  (labels : gmap string string) (config : ContainerConfig.t) :
  ExtractConfig U containerID containerName networkIP labels = Ok config ->
  (ContainerConfig.Enabled config = true <-> enabledLabel U labels) /\
  (ContainerConfig.Enabled config = false ->
   config = initialConfig containerID containerName networkIP /\
   ValidateConfig config = None) /\
  (ContainerConfig.Enabled config = true ->
   labels !! LabelHost = Some (ContainerConfig.Host config) /\
   (1 <= ContainerConfig.Port config <= 65535)%Z /\
   In (ContainerConfig.Protocol config) ["http"; "https"]%string /\
   In (LoadBalancerConfig.Method (ContainerConfig.LoadBalancer config))
      ["round_robin"; "least_conn"; "ip_hash"]%string /\
   (ValidateConfig config = None <->
    ContainerConfig.Host config <> EmptyString /\
    HasPrefix (ContainerConfig.Path config) "/" = true /\
    (FastCGIConfig.Enabled (ContainerConfig.FastCGI config) = true ->
     FastCGIConfig.BackendProtocol (ContainerConfig.FastCGI config) = "FCGI"%string))).
Proof.
  unfold ExtractConfig, enabledLabel.
  destruct (labels !! LabelEnable) as [enabled|] eqn:Hen.
  2:{ intros [= <-]. cbn [initialConfig ContainerConfig.Enabled].
      split; [split; [discriminate | intros (v & Hv & _); discriminate Hv]|].
      split; [auto | discriminate]. }
  destruct (parseBool U enabled) eqn:Hbool; cbn [negb].
  2:{ intros [= <-]. cbn [initialConfig ContainerConfig.Enabled].
      split; [split; [discriminate | intros (v & Hv & Ht); injection Hv as <-; congruence]|].
      split; [auto | discriminate]. }
  destruct (labels !! LabelHost) as [host|] eqn:Hhost; [|discriminate].
  destruct (extractPort_cases containerName labels)
    as [(port & -> & Hrange & _) | (e & -> & _)]; [|discriminate].
  destruct (extractProtocol_cases containerName labels)
    as [(protocol & -> & Hcases & _) | (e & -> & _)]; [|discriminate].
  intros [= <-].
  cbn [ContainerConfig.Enabled ContainerConfig.Host ContainerConfig.Port
       ContainerConfig.Protocol ContainerConfig.LoadBalancer ContainerConfig.Path
       ContainerConfig.FastCGI].
  split; [split; eauto|]. split; [discriminate|]. intros _.
  split; [reflexivity|]. split; [lia|].
  split; [destruct Hcases as [-> | ->]; simpl; auto|].
  split; [apply extractLoadBalancerConfig_method|].
  unfold ValidateConfig.
  cbn [ContainerConfig.Enabled ContainerConfig.Host ContainerConfig.Port
       ContainerConfig.Protocol ContainerConfig.LoadBalancer ContainerConfig.Path
       ContainerConfig.FastCGI negb].
  destruct (Z.leb_spec port 0); [lia|].
  destruct (Z.ltb_spec 65535 port); [lia|]. cbn [orb].
  assert (Hprotocol : negb (String.eqb protocol "http") && negb (String.eqb protocol "https")
                      = false) by (destruct Hcases as [-> | ->]; reflexivity).
  rewrite Hprotocol.
  destruct (String.eqb_spec host EmptyString) as [-> | Hhostne].
  { split; [discriminate | tauto]. }
  destruct (FastCGIConfig.Enabled (extractFastCGIConfig U labels)); cbn [andb].
  - destruct (String.eqb_spec
                (FastCGIConfig.BackendProtocol (extractFastCGIConfig U labels)) "FCGI")
      as [Heq | Hneq]; cbn [negb].
    + destruct (HasPrefix (default DefaultPath (labels !! LabelPath)) "/"); cbn [negb].
      * split; auto.
      * split; [discriminate|]. intros (_ & Hbad & _). discriminate Hbad.
    + split; [discriminate|]. intros (_ & _ & Hbad). tauto.
  - destruct (HasPrefix (default DefaultPath (labels !! LabelPath)) "/"); cbn [negb].
    + split; [|reflexivity]. intros _. repeat split; auto. discriminate.
    + split; [discriminate|]. intros (_ & Hbad & _). discriminate Hbad.
Qed.

End ExtractConfigFacts.

(** X5 at the labels of the plain web application. *)
Lemma X5_ExtractConfig_result_witness :
  exists config,
    ExtractConfig asciiTables Fixture.containerID "web" "10.0.0.5" Fixture.webLabels
      = Ok config /\
    ContainerConfig.Enabled config = true /\
    (1 <= ContainerConfig.Port config <= 65535)%Z /\
    ValidateConfig config = None.
Proof.
  destruct (ExtractConfig asciiTables Fixture.containerID "web" "10.0.0.5" Fixture.webLabels)
    as [config| |] eqn:Hextract; [|discriminate Hextract ..].
  exists config. split; [reflexivity|].
  destruct (X5_ExtractConfig_result asciiTables _ _ _ _ _ Hextract)
    as (Henabled & _ & Hwhen).
  assert (Hon : ContainerConfig.Enabled config = true).
  { apply Henabled. exists "true"%string. split; reflexivity. }
  destruct (Hwhen Hon) as (_ & Hport & _ & _ & Hvalidate).
  split; [exact Hon|]. split; [exact Hport|].
  apply Hvalidate. vm_compute in Hextract. injection Hextract as <-.
  repeat split; try discriminate.
Defined.

(** ** The snippet cache ([DownloadSnippet]) *)

Section SnippetCache.
Variable U : UnicodeTables.
Variable sha256_hex : string -> string.
Variable filepath_Join : string -> string -> string.
Variable sm : SnippetManager.

Local Abbreviation download := (DownloadSnippet U sha256_hex filepath_Join sm).

(** The cache file of a container's file. *)
Local Abbreviation cacheFileOf := (fun containerID filePath : string =>
  filepath_Join (sm_cacheDir sm)
    ((substring 0 12 containerID +:+ "_" +:+ hashPath sha256_hex filePath) +:+ ".conf")).

Lemma loadFromCache_hit (cacheFile content : string) (w : World) :
  faults w (SysReadFile cacheFile) = None ->
  files w !! cacheFile = Some content ->
  loadFromCache sha256_hex cacheFile w
  = Ok {| SnippetContent.Content := content; SnippetContent.FilePath := EmptyString;
          SnippetContent.Hash := hashContent sha256_hex content |}.
Proof.
  intros Hfault Hfile. unfold loadFromCache, os_ReadFile. rewrite Hfile, Hfault. reflexivity.
Qed.

Lemma loadFromCache_Ok (cacheFile : string) (w : World) (cached : SnippetContent.t) :
  loadFromCache sha256_hex cacheFile w = Ok cached ->
  files w !! cacheFile = Some (SnippetContent.Content cached) /\
  cached = {| SnippetContent.Content := SnippetContent.Content cached;
              SnippetContent.FilePath := EmptyString;
              SnippetContent.Hash := hashContent sha256_hex (SnippetContent.Content cached) |}.
Proof.
  unfold loadFromCache, os_ReadFile.
  destruct (files w !! cacheFile) as [content|]; [|discriminate].
  destruct (faults w (SysReadFile cacheFile)); [discriminate|].
  intros [= <-]. split; reflexivity.
Qed.

(** X6.  On a machine where no file operation fails, a snippet that
    [DownloadSnippet] has returned once is served from the cache the next
    time: the second call returns the same content and hash, with an empty
    [FilePath], and leaves the world as it is, so that it makes no call to
    the container runtime. *)
Theorem X6_DownloadSnippet_then_cached (containerID filePath : string) (w w1 : World)
  (snippet : SnippetContent.t) :
  (forall call, faults w call = None) ->
  download containerID filePath w = (Ok (Some snippet), w1) ->
  download containerID filePath w1
  = (Ok (Some {| SnippetContent.Content := SnippetContent.Content snippet;
                 SnippetContent.FilePath := EmptyString;
                 SnippetContent.Hash := SnippetContent.Hash snippet |}), w1).
Proof.
  intros Hfaults. unfold DownloadSnippet.
  destruct (String.eqb filePath EmptyString); [discriminate|].
  destruct (validateFilePath filePath); [discriminate|].
  destruct (slice_to containerID 12) as [shortID| |]; [|discriminate ..].
  set (cacheFile := filepath_Join (sm_cacheDir sm) _).
  destruct (loadFromCache sha256_hex cacheFile w) as [cached| |] eqn:Hload.
  - intros [= <- <-]. rewrite Hload.
    destruct (loadFromCache_Ok _ _ _ Hload) as [_ ->]. reflexivity.
  - unfold downloadFromContainer.
    destruct (CopyFromContainer (sm_client sm) containerID filePath) as [?|?|bytes];
      [discriminate ..|].
    unfold saveToCache, os_MkdirAll, os_WriteFile. cbn [faults issue SnippetContent.Content].
    rewrite !Hfaults. cbn [faults issue]. rewrite !Hfaults. cbv beta iota zeta.
    intros [= <- <-].
    rewrite (loadFromCache_hit cacheFile (downloadViaExec U bytes)).
    + reflexivity.
    + apply Hfaults.
    + apply lookup_insert_eq.
  - unfold downloadFromContainer.
    destruct (CopyFromContainer (sm_client sm) containerID filePath) as [?|?|bytes];
      [discriminate ..|].
    unfold saveToCache, os_MkdirAll, os_WriteFile. cbn [faults issue SnippetContent.Content].
    rewrite !Hfaults. cbn [faults issue]. rewrite !Hfaults. cbv beta iota zeta.
    intros [= <- <-].
    rewrite (loadFromCache_hit cacheFile (downloadViaExec U bytes)).
    + reflexivity.
    + apply Hfaults.
    + apply lookup_insert_eq.
Qed.

(** X7.  Whatever its arguments and whatever fails, one call of
    [DownloadSnippet] makes at most one call to the container runtime, the
    copy of the file asked for; it leaves every file but the cache file of
    that container and path as it was. *)
Theorem X7_DownloadSnippet_footprint (containerID filePath : string) (w : World) :
  let after := snd (download containerID filePath w) in
  faults after = faults w /\
  (runtime_calls after = runtime_calls w \/
   runtime_calls after = CallCopyFromContainer containerID filePath :: runtime_calls w) /\
  (forall name, name <> cacheFileOf containerID filePath ->
                files after !! name = files w !! name).
Proof.
  cbv zeta. unfold DownloadSnippet.
  destruct (String.eqb filePath EmptyString); [cbn; auto|].
  destruct (validateFilePath filePath); [cbn; auto|].
  unfold slice_to.
  destruct (12 <=? String.length containerID)%nat; [|cbn; auto].
  set (cacheFile := filepath_Join (sm_cacheDir sm) _).
  assert (Hother : forall (content : string) (name : string),
            name <> cacheFile -> <[cacheFile := content]> (files w) !! name = files w !! name).
  { intros content name Hname. apply lookup_insert_ne. congruence. }
  destruct (loadFromCache sha256_hex cacheFile w) as [cached| |]; [cbn; auto| |];
    unfold downloadFromContainer;
    (destruct (CopyFromContainer (sm_client sm) containerID filePath) as [?|?|bytes];
     [cbn; auto ..|]);
    unfold saveToCache, os_MkdirAll, os_WriteFile; cbn [faults issue];
    (destruct (faults w (SysMkdirAll (sm_cacheDir sm))); [cbn; auto|]);
    cbn [faults issue files];
    (destruct (faults w (SysWriteFile _)) as [[|written]|]; cbn; auto).
Qed.

End SnippetCache.

(** X6 on the runtime whose containers hold a one-line file. *)
Lemma X6_DownloadSnippet_then_cached_witness :
  exists snippet w1,
    DownloadSnippet asciiTables Fixture.hash Fixture.join
      (NewSnippetManager Fixture.snippetClient Fixture.cacheDir)
      Fixture.containerID "/app/config/location.conf" Fixture.world
    = (Ok (Some snippet), w1) /\
    DownloadSnippet asciiTables Fixture.hash Fixture.join
      (NewSnippetManager Fixture.snippetClient Fixture.cacheDir)
      Fixture.containerID "/app/config/location.conf" w1
    = (Ok (Some {| SnippetContent.Content := SnippetContent.Content snippet;
                   SnippetContent.FilePath := EmptyString;
                   SnippetContent.Hash := SnippetContent.Hash snippet |}), w1).
Proof.
  destruct (DownloadSnippet asciiTables Fixture.hash Fixture.join
              (NewSnippetManager Fixture.snippetClient Fixture.cacheDir)
              Fixture.containerID "/app/config/location.conf" Fixture.world)
    as [[[snippet|]| |] w1] eqn:Hfirst; try discriminate Hfirst.
  exists snippet, w1. split; [reflexivity|].
  apply (X6_DownloadSnippet_then_cached asciiTables Fixture.hash Fixture.join _ _ _
           Fixture.world w1 snippet); [reflexivity | exact Hfirst].
Defined.

(** ** FastCGI parameters ([parseFastCGIParamsFile], [LoadFastCGIParams]) *)

Lemma HasSuffix_refl (s : string) : HasSuffix s s = true.
Proof.
  destruct s as [|a s]; [reflexivity|].
  rewrite HasSuffix_cons, String.eqb_refl. reflexivity.
Qed.

Lemma append_cons (a : ascii) (s t : string) : String a s +:+ t = String a (s +:+ t).
Proof. reflexivity. Qed.

Lemma append_empty_l (t : string) : EmptyString +:+ t = t.
Proof. reflexivity. Qed.

Lemma HasSuffix_append (s t : string) : HasSuffix (s +:+ t) t = true.
Proof.
  induction s as [|a s IH]; [rewrite append_empty_l; apply HasSuffix_refl|].
  rewrite append_cons, HasSuffix_cons, IH. apply orb_true_r.
Qed.

Lemma substring_all_of_prefix (s t : string) :
  substring 0 (String.length s) (s +:+ t) = s.
Proof.
  induction s as [|a s IH].
  - rewrite append_empty_l. destruct t; reflexivity.
  - rewrite append_cons. cbn [String.length substring]. rewrite IH. reflexivity.
Qed.

Lemma stripQuotes_quoted (quote : ascii) (s : string) :
  quote = "034"%char \/ quote = "039"%char ->
  stripQuotes (String quote (s +:+ String quote EmptyString)) = Ok s.
Proof.
  intros Hquote. unfold stripQuotes.
  assert (Hcond :
    (HasPrefix (String quote (s +:+ String quote EmptyString)) dquote
     && HasSuffix (String quote (s +:+ String quote EmptyString)) dquote)
    || (HasPrefix (String quote (s +:+ String quote EmptyString)) squote
        && HasSuffix (String quote (s +:+ String quote EmptyString)) squote) = true).
  { unfold dquote, squote. rewrite !HasPrefix_single. rewrite <- !append_cons.
    destruct Hquote as [-> | ->]; rewrite HasSuffix_append; reflexivity. }
  rewrite Hcond. cbn [String.length]. rewrite length_append. cbn [String.length].
  replace (S (String.length s + 1) - 1)%nat with (S (String.length s)) by lia.
  replace (S (String.length s + 1) - 2)%nat with (String.length s) by lia.
  cbn [Nat.leb substring]. rewrite substring_all_of_prefix. reflexivity.
Qed.

(** X8.  Stripping the quotes of a parameter value: a value between two
    double quotes or between two single quotes loses them; a value that
    starts with neither quote is kept as it is; and the only values on which
    the slice expression panics are the two one-byte values that are a
    lone quote. *)
Theorem X8_stripQuotes_behaviour :
  (forall s, stripQuotes (dquote +:+ s +:+ dquote) = Ok s) /\
  (forall s, stripQuotes (squote +:+ s +:+ squote) = Ok s) /\
  (forall value,
     HasPrefix value dquote = false -> HasPrefix value squote = false ->
     stripQuotes value = Ok value) /\
  (forall value,
     (exists msg, stripQuotes value = Panic msg) <-> value = dquote \/ value = squote) /\
  (forall value e, stripQuotes value <> Err e).
Proof.
  split; [|split; [|split; [|split]]].
  - intros s. apply (stripQuotes_quoted "034" s). auto.
  - intros s. apply (stripQuotes_quoted "039" s). auto.
  - intros value Hd Hs. unfold stripQuotes. rewrite Hd, Hs. reflexivity.
  - intros value. split.
    + intros [msg Hpanic]. unfold stripQuotes in Hpanic.
      destruct value as [|a [|b rest]].
      * discriminate Hpanic.
      * unfold dquote, squote in Hpanic. rewrite !HasPrefix_single in Hpanic.
        destruct (Ascii.eqb_spec a "034") as [-> | Hd]; [left; reflexivity|].
        destruct (Ascii.eqb_spec a "039") as [-> | Hs]; [right; reflexivity|].
        discriminate Hpanic.
      * cbn [String.length Nat.sub Nat.leb] in Hpanic.
        destruct (_ || _); discriminate Hpanic.
    + intros [-> | ->]; eexists; reflexivity.
  - intros value e. unfold stripQuotes.
    destruct (_ || _); [|discriminate].
    destruct (1 <=? String.length value - 1)%nat; discriminate.
Qed.

Section ParameterPrecedence.
Variable U : UnicodeTables.
Variable sha256_hex : string -> string.
Variable filepath_Join : string -> string -> string.
Variable fpm : FastCGIParameterManager.

Lemma lookup_union_first (m1 m2 : gmap string string) (key : string) :
  (m1 ∪ m2) !! key = match m1 !! key with Some v => Some v | None => m2 !! key end.
Proof.
  rewrite lookup_union. destruct (m1 !! key), (m2 !! key); reflexivity.
Qed.

(** X9.  The order in which FastCGI parameters win.  Without a parameter
    file, [LoadFastCGIParams] leaves the world alone and gives each key the
    value of the label if there is one and the default otherwise.  With a
    parameter file that loads, each key has the value of the file, else that
    of the label, else the default. *)
Theorem X9_LoadFastCGIParams_precedence (config : ContainerConfig.t) (w : World) :
  let fastcgi := ContainerConfig.FastCGI config in
  (FastCGIConfig.ParamsFile fastcgi = EmptyString ->
   exists merged,
     LoadFastCGIParams U sha256_hex filepath_Join fpm config w = (Ok merged, w) /\
     forall key,
       merged !! key =
       match FastCGIConfig.Params fastcgi !! key with
       | Some value => Some value
       | None => defaultPHPParams !! key
       end) /\
  (forall fileParams w1,
     FastCGIConfig.ParamsFile fastcgi <> EmptyString ->
     loadParamsFromFile U sha256_hex filepath_Join fpm (ContainerConfig.ContainerID config)
       (FastCGIConfig.ParamsFile fastcgi) w = (Ok fileParams, w1) ->
     exists merged,
       LoadFastCGIParams U sha256_hex filepath_Join fpm config w = (Ok merged, w1) /\
       forall key,
         merged !! key =
         match fileParams !! key with
         | Some value => Some value
         | None =>
             match FastCGIConfig.Params fastcgi !! key with
             | Some value => Some value
             | None => defaultPHPParams !! key
             end
         end).
Proof.
  cbv zeta. unfold LoadFastCGIParams. split.
  - intros ->. cbn [String.eqb]. eexists. split; [reflexivity|].
    intros key. unfold addDefaultPHPParams. apply lookup_union_first.
  - intros fileParams w1 Hfile Hload.
    rewrite (eqb_empty_false _ Hfile), Hload. eexists. split; [reflexivity|].
    intros key. unfold addDefaultPHPParams. rewrite !lookup_union_first.
    destruct (fileParams !! key); reflexivity.
Qed.

(** X10.  The parameters [LoadFastCGIParams] returns hold every key of the
    default set, so they always hold [SCRIPT_FILENAME] and
    [REQUEST_METHOD]: [ValidateFastCGIParams] cannot refuse them. *)
Theorem X10_loaded_params_are_complete (config : ContainerConfig.t) (w w' w'' : World)
  (params : gmap string string) :
  LoadFastCGIParams U sha256_hex filepath_Join fpm config w = (Ok params, w') ->
  (forall key, is_Some (defaultPHPParams !! key) -> is_Some (params !! key)) /\
  fst (ValidateFastCGIParams params w'') = None.
Proof.
  intros Hload.
  assert (Hshape : exists base, params = addDefaultPHPParams base).
  { unfold LoadFastCGIParams in Hload.
    destruct (String.eqb _ EmptyString).
    - injection Hload as <- _. eauto.
    - destruct (loadParamsFromFile _ _ _ _ _ _ _) as [[fileParams|?|?] w1];
        try discriminate Hload.
      injection Hload as <- _. eauto. }
  destruct Hshape as [base ->].
  assert (Hall : forall key, is_Some (defaultPHPParams !! key) ->
                             is_Some (addDefaultPHPParams base !! key)).
  { intros key [value Hvalue]. exact (addDefaultPHPParams_keeps_defaults base key value Hvalue). }
  split; [exact Hall|].
  destruct (Hall "SCRIPT_FILENAME"%string) as [script Hscript]; [eexists; reflexivity|].
  destruct (Hall "REQUEST_METHOD"%string) as [method Hmethod]; [eexists; reflexivity|].
  unfold ValidateFastCGIParams. rewrite Hscript, Hmethod.
  destruct (negb _ && negb _); reflexivity.
Qed.

End ParameterPrecedence.

(** X10 at a configuration without labels and without parameter file. *)
Lemma X10_loaded_params_are_complete_witness :
  LoadFastCGIParams asciiTables Fixture.hash Fixture.join Fixture.fpm
    (initialConfig Fixture.containerID "php" "10.0.0.6") Fixture.world
  = (Ok (addDefaultPHPParams ∅), Fixture.world) /\
  fst (ValidateFastCGIParams (addDefaultPHPParams ∅) Fixture.world) = None.
Proof.
  assert (Hload :
    LoadFastCGIParams asciiTables Fixture.hash Fixture.join Fixture.fpm
      (initialConfig Fixture.containerID "php" "10.0.0.6") Fixture.world
    = (Ok (addDefaultPHPParams ∅), Fixture.world)) by reflexivity.
  split; [exact Hload|].
  exact (proj2 (X10_loaded_params_are_complete asciiTables Fixture.hash Fixture.join
                  Fixture.fpm _ Fixture.world Fixture.world Fixture.world _ Hload)).
Defined.

(** ** Listing and grouping the containers ([data.go]) *)

Lemma ExtractConfig_ContainerID (U : UnicodeTables) (containerID containerName networkIP : string)
  (labels : gmap string string) (config : ContainerConfig.t) :
  ExtractConfig U containerID containerName networkIP labels = Ok config ->
  ContainerConfig.ContainerID config = containerID /\
  ContainerConfig.ContainerName config = containerName.
Proof.
  unfold ExtractConfig.
  destruct (labels !! LabelEnable) as [enabled|]; [|intros [= <-]; split; reflexivity].
  destruct (negb (parseBool U enabled)); [intros [= <-]; split; reflexivity|].
  destruct (labels !! LabelHost); [|discriminate].
  destruct (extractPort containerName labels); [|discriminate ..].
  destruct (extractProtocol containerName labels); [|discriminate ..].
  intros [= <-]. split; reflexivity.
Qed.

Section Listing.
Variable U : UnicodeTables.
Variable cli : Client.

(** What [ListContainers] guarantees of a record it returns, for the
    containers [listed] by the runtime. *)
Local Abbreviation listedRecord := (fun (listed : list Summary.t) (data : ContainerData.t) =>
  ContainerConfig.Enabled (ContainerData.Config data) = true /\
  ValidateConfig (ContainerData.Config data) = None /\
  exists container,
    In container listed /\
    hasNginxLabels (Summary.Labels container) = true /\
    ContainerConfig.ContainerID (ContainerData.Config data) = Summary.ID container /\
    ContainerConfig.ContainerName (ContainerData.Config data)
      = getContainerName (Summary.Names container) /\
    ContainerData.Status data = Summary.Status container).

Lemma listContainer_record (container : Summary.t) (w w' : World) (data : ContainerData.t) :
  listContainer U cli container w = (Ok (Some data), w') ->
  listedRecord [container] data.
Proof.
  unfold listContainer.
  destruct (hasNginxLabels (Summary.Labels container)) eqn:Hlabels; cbn [negb];
    [|discriminate].
  destruct (ContainerInspect cli (Summary.ID container)) as [containerJSON| |];
    [|discriminate ..].
  destruct (extractNetworkInfo containerJSON) as [ip network].
  destruct (ExtractConfig U _ _ ip _) as [config| |] eqn:Hextract; [|discriminate ..].
  destruct (ContainerConfig.Enabled config) eqn:Henabled; cbn [negb]; [|discriminate].
  destruct (ValidateConfig config) eqn:Hvalid; [discriminate|].
  intros [= <- _]. cbn [ContainerData.Config ContainerData.Status].
  destruct (ExtractConfig_ContainerID _ _ _ _ _ _ Hextract) as [Hid Hname].
  repeat split; try assumption.
  exists container. repeat split; try assumption. left. reflexivity.
Qed.

Lemma listContainers_records (listed : list Summary.t) :
  forall (w w' : World) (datas : list ContainerData.t),
    listContainers U cli listed w = (Ok datas, w') ->
    Forall (listedRecord listed) datas /\ length datas <= length listed.
Proof.
  induction listed as [|container rest IH]; intros w w' datas; cbn [listContainers].
  - intros [= <- _]. split; [constructor | reflexivity].
  - destruct (listContainer U cli container w) as [[data| |] w1] eqn:Hone; [|discriminate ..].
    destruct (listContainers U cli rest w1) as [[datas'| |] w2] eqn:Hrest; [|discriminate ..].
    intros [= <- _]. destruct (IH _ _ _ Hrest) as [Hall Hlen].
    assert (Hweaken : Forall (listedRecord (container :: rest)) datas').
    { eapply Forall_impl; [exact Hall|].
      intros d (He & Hv & c & Hin & Hrec). repeat split; try assumption.
      exists c. split; [right; exact Hin | exact Hrec]. }
    destruct data as [d|]; [|split; [exact Hweaken | cbn [length]; lia]].
    split; [|cbn [length]; lia].
    constructor; [|exact Hweaken].
    destruct (listContainer_record _ _ _ _ Hone) as (He & Hv & c & [<- | []] & Hrec).
    repeat split; try assumption.
    exists container. split; [left; reflexivity | exact Hrec].
Qed.

(** X11.  Every record [ListContainers] returns is of a container the
    runtime listed that carries an ingress label; it bears that container's
    id, name and status; its configuration is enabled and passes
    [ValidateConfig].  [FilterEnabledContainers] therefore drops none of
    them. *)
Theorem X11_ListContainers_records (w w' : World) (datas : list ContainerData.t) :
  ListContainers U cli w = (Ok datas, w') ->
  exists listed,
    ContainerList cli = Ok listed /\
    Forall (listedRecord listed) datas /\
    length datas <= length listed /\
    FilterEnabledContainers datas = datas.
Proof.
  unfold ListContainers.
  destruct (ContainerList cli) as [listed| |]; [|discriminate ..].
  intros Hrun. exists listed. split; [reflexivity|].
  destruct (listContainers_records _ _ _ _ Hrun) as [Hall Hlen].
  split; [exact Hall|]. split; [exact Hlen|].
  unfold FilterEnabledContainers. clear Hrun Hlen.
  induction Hall as [|d ds (He & _) _ IH]; [reflexivity|].
  rewrite filter_cons_True by exact He. rewrite IH. reflexivity.
Qed.

End Listing.

(** X11 on the runtime with the web application and its API. *)
Lemma X11_ListContainers_records_witness :
  exists datas w',
    ListContainers asciiTables Running.client Fixture.world = (Ok datas, w') /\
    length datas = 2 /\
    FilterEnabledContainers datas = datas.
Proof.
  set (run := ListContainers asciiTables Running.client Fixture.world).
  assert (Hrun : run = (Ok (match fst run with Ok datas => datas | _ => [] end), snd run))
    by (vm_compute; reflexivity).
  eexists _, _. split; [exact Hrun|].
  split; [vm_compute; reflexivity|].
  destruct (X11_ListContainers_records asciiTables Running.client _ _ _ Hrun)
    as (listed & _ & _ & _ & Hfilter).
  exact Hfilter.
Defined.

Lemma appendToGroup_hosts (host : string) (container : ContainerData.t)
  (groups : list (string * list ContainerData.t)) (h : string) :
  In h (map fst (appendToGroup host container groups)) <-> h = host \/ In h (map fst groups).
Proof.
  induction groups as [|[h0 members] rest IH]; cbn [appendToGroup map fst In].
  - intuition congruence.
  - destruct (String.eqb_spec h0 host) as [-> | Hne]; cbn [map fst In].
    + intuition congruence.
    + rewrite IH. intuition congruence.
Qed.

Lemma appendToGroup_NoDup (host : string) (container : ContainerData.t)
  (groups : list (string * list ContainerData.t)) :
  NoDup (map fst groups) -> NoDup (map fst (appendToGroup host container groups)).
Proof.
  induction groups as [|[h0 members] rest IH]; cbn [appendToGroup map fst]; intros Hnodup.
  - repeat constructor. intros Hin. apply list_elem_of_In in Hin. destruct Hin.
  - apply NoDup_cons in Hnodup. destruct Hnodup as [Hfresh Hrest].
    destruct (String.eqb_spec h0 host) as [-> | Hne]; cbn [map fst].
    + apply NoDup_cons. split; assumption.
    + apply NoDup_cons. split; [|apply IH; exact Hrest].
      intros Hin. apply list_elem_of_In, appendToGroup_hosts in Hin.
      destruct Hin as [-> | Hin]; [congruence|].
      apply Hfresh, list_elem_of_In. exact Hin.
Qed.

Lemma appendToGroup_groups (container : ContainerData.t)
  (groups : list (string * list ContainerData.t)) :
  Forall groupOfHost groups ->
  Forall groupOfHost
    (appendToGroup (ContainerConfig.Host (ContainerData.Config container)) container groups).
Proof.
  induction groups as [|[h0 members] rest IH]; cbn [appendToGroup]; intros Hall.
  - constructor; [|constructor]. split; [discriminate | repeat constructor].
  - inversion Hall as [|? ? [Hne Hmembers] Hrest]; subst. cbn [fst snd] in *.
    destruct (String.eqb_spec h0 (ContainerConfig.Host (ContainerData.Config container)))
      as [-> | Hdiff].
    + constructor; [|exact Hrest]. split; cbn [fst snd].
      * destruct members; discriminate.
      * apply Forall_app. split; [exact Hmembers | repeat constructor].
    + constructor; [split; assumption | apply IH; exact Hrest].
Qed.

Lemma appendToGroup_members (host : string) (container : ContainerData.t)
  (groups : list (string * list ContainerData.t)) :
  Permutation (concat (map snd (appendToGroup host container groups)))
              (container :: concat (map snd groups)).
Proof.
  induction groups as [|[h0 members] rest IH]; cbn [appendToGroup map snd concat].
  - reflexivity.
  - destruct (String.eqb h0 host); cbn [map snd concat].
    + rewrite <- app_assoc. cbn [app].
      symmetry. apply Permutation_middle.
    + rewrite IH. symmetry. apply Permutation_middle.
Qed.

Lemma group_fold_partition (containers : list ContainerData.t) :
  forall groups,
    NoDup (map fst groups) -> Forall groupOfHost groups ->
    let result :=
      fold_left
        (fun groups container =>
           appendToGroup (ContainerConfig.Host (ContainerData.Config container))
             container groups)
        containers groups in
    NoDup (map fst result) /\ Forall groupOfHost result /\
    Permutation (concat (map snd result)) (containers ++ concat (map snd groups)).
Proof.
  induction containers as [|c rest IH]; intros groups Hnodup Hall; cbn [fold_left app].
  - repeat split; [assumption | assumption | reflexivity].
  - destruct (IH _ (appendToGroup_NoDup _ c _ Hnodup) (appendToGroup_groups c _ Hall))
      as (H1 & H2 & H3).
    repeat split; [exact H1 | exact H2|].
    rewrite H3, appendToGroup_members. symmetry. apply Permutation_middle.
Qed.

(** X12.  [GroupContainersByHost] partitions the containers by host: no
    host has two groups, no group is empty, each member of a group has the
    group's host, and the groups together hold exactly the containers given,
    each as often as it was given. *)
Theorem X12_GroupContainersByHost_partition (containers : list ContainerData.t) :
  NoDup (map fst (GroupContainersByHost containers)) /\
  Forall groupOfHost (GroupContainersByHost containers) /\
  Permutation (concat (map snd (GroupContainersByHost containers))) containers.
Proof.
  unfold GroupContainersByHost.
  destruct (group_fold_partition containers [] (NoDup_nil_2 (A:=string)) (List.Forall_nil _))
    as (H1 & H2 & H3).
  repeat split; [exact H1 | exact H2|].
  cbn [map concat] in H3. rewrite app_nil_r in H3. exact H3.
Qed.

(** X13.  [extractNetworkInfo] returns no address only when it returns no
    network either.  When it names a network other than [bridge], that
    network is one of the container's and the address is its address.  It
    names [bridge] only when no other network of the container has an
    address, and the address is then the one of the bridge network or the
    container's own. *)
Theorem X13_extractNetworkInfo_choice (containerJSON : InspectResponse.t) :
  let ip := fst (extractNetworkInfo containerJSON) in
  let name := snd (extractNetworkInfo containerJSON) in
  (ip = EmptyString /\ name = EmptyString) \/
  (ip <> EmptyString /\ name <> "bridge"%string /\
   In (name, ip) (InspectResponse.Networks containerJSON)) \/
  (ip <> EmptyString /\ name = "bridge"%string /\
   Forall (fun network => fst network = "bridge"%string \/ snd network = EmptyString)
          (InspectResponse.Networks containerJSON) /\
   (In ("bridge"%string, ip) (InspectResponse.Networks containerJSON) \/
    ip = InspectResponse.IPAddress containerJSON)).
Proof.
  cbv zeta. unfold extractNetworkInfo.
  assert (Hcustom : forall networks,
            match firstCustomNetwork networks with
            | Some (ip, name) =>
                ip <> EmptyString /\ name <> "bridge"%string /\ In (name, ip) networks
            | None =>
                Forall (fun network => fst network = "bridge"%string \/
                                       snd network = EmptyString) networks
            end).
  { induction networks as [|[name ip] rest IH]; cbn [firstCustomNetwork]; [constructor|].
    destruct (String.eqb_spec name "bridge") as [-> | Hname]; cbn [negb andb].
    - destruct (firstCustomNetwork rest) as [[ip' name']|].
      + destruct IH as (H1 & H2 & H3). repeat split; try assumption. right. exact H3.
      + constructor; [left; reflexivity | exact IH].
    - destruct (String.eqb_spec ip EmptyString) as [-> | Hip]; cbn [negb].
      + destruct (firstCustomNetwork rest) as [[ip' name']|].
        * destruct IH as (H1 & H2 & H3). repeat split; try assumption. right. exact H3.
        * constructor; [right; reflexivity | exact IH].
      + repeat split; try assumption. left. reflexivity. }
  assert (Hbridge : forall networks name ip, networkIP networks name = Some ip ->
                                             In (name, ip) networks).
  { induction networks as [|[n a] rest IH]; cbn [networkIP]; intros name ip; [discriminate|].
    destruct (String.eqb_spec n name) as [-> | Hn].
    - intros [= ->]. left. reflexivity.
    - intros H. right. apply IH. exact H. }
  specialize (Hcustom (InspectResponse.Networks containerJSON)).
  destruct (firstCustomNetwork (InspectResponse.Networks containerJSON)) as [[ip name]|].
  { right. left. exact Hcustom. }
  destruct (networkIP (InspectResponse.Networks containerJSON) "bridge") as [ip|] eqn:Hnet.
  - destruct (String.eqb_spec ip EmptyString) as [-> | Hip]; cbn [negb fst snd].
    + destruct (String.eqb_spec (InspectResponse.IPAddress containerJSON) EmptyString)
        as [Hnone | Hown]; cbn [negb fst snd]; [left; auto|].
      right. right. repeat split; auto.
    + right. right. repeat split; auto.
  - destruct (String.eqb_spec (InspectResponse.IPAddress containerJSON) EmptyString)
      as [Hnone | Hown]; cbn [negb fst snd]; [left; auto|].
    right. right. repeat split; auto.
Qed.

(** ** The generated configuration ([nginx.go]) *)

Section Generated.
Variable U : UnicodeTables.
Variable sha256_hex : string -> string.
Variable filepath_Join : string -> string -> string.
Variable sm : SnippetManager.
Variable fastcgiManager : FastCGIParameterManager.

Local Abbreviation locationFor' := (locationFor U sha256_hex filepath_Join sm fastcgiManager).
Local Abbreviation hostContainersLoop' :=
  (hostContainersLoop U sha256_hex filepath_Join sm fastcgiManager).
Local Abbreviation serverFor' := (serverFor U sha256_hex filepath_Join sm fastcgiManager).
Local Abbreviation hostGroupsLoop' :=
  (hostGroupsLoop U sha256_hex filepath_Join sm fastcgiManager).
Local Abbreviation generate :=
  (GenerateNginxConfig U sha256_hex filepath_Join).

Lemma locationFor_shape (host : string) (container : ContainerData.t) (w w' : World)
  (location : LocationConfig.t) :
  locationFor' host container w = (Ok location, w') -> locationOf host container location.
Proof.
  unfold docker.locationFor, locationOf.
  destruct (configSnippetFor _ _ _ _ _ _) as [[snippet| |] w1]; [|discriminate ..].
  destruct (slice_to _ 12) as [shortID| |]; [|discriminate ..].
  destruct (FastCGIConfig.Enabled (ContainerConfig.FastCGI (ContainerData.Config container))).
  - destruct (LoadFastCGIParams _ _ _ _ _ _) as [[params| |] w2]; [|discriminate ..].
    destruct (ValidateFastCGIParams params w2) as [[e|] w3]; [discriminate|].
    intros [= <- _]. cbn. repeat split.
  - intros [= <- _]. cbn. repeat split.
Qed.

Lemma hostContainersLoop_shape (host : string) (hostContainers : list ContainerData.t) :
  forall w w' upstreams locations,
    hostContainersLoop' host hostContainers w = (Ok (upstreams, locations), w') ->
    upstreams = map (upstreamFor host) hostContainers /\
    Forall2 (locationOf host) hostContainers locations.
Proof.
  induction hostContainers as [|c rest IH]; intros w w' upstreams locations;
    cbn [docker.hostContainersLoop].
  - intros [= <- <- _]. split; [reflexivity | constructor].
  - destruct (locationFor' host c w) as [[location| |] w1] eqn:Hloc; [|discriminate ..].
    destruct (hostContainersLoop' host rest w1) as [[[ups locs]| |] w2] eqn:Hrest;
      [|discriminate ..].
    intros [= <- <- _]. destruct (IH _ _ _ _ Hrest) as [-> Hlocs].
    split; [reflexivity|].
    constructor; [exact (locationFor_shape _ _ _ _ _ Hloc) | exact Hlocs].
Qed.

Lemma serverFor_shape (host : string) (hostContainers : list ContainerData.t) (w w' : World)
  (upstreams : list UpstreamConfig.t) (server : ServerConfig.t) :
  serverFor' host hostContainers w = (Ok (upstreams, server), w') ->
  upstreams = map (upstreamFor host) hostContainers /\ serverOf (host, hostContainers) server.
Proof.
  unfold docker.serverFor.
  destruct (serverSnippetFor _ _ _ _ _ _) as [[snippet| |] w1]; [|discriminate ..].
  destruct (hostContainersLoop' host hostContainers w1) as [[[ups locs]| |] w2] eqn:Hloop;
    [|discriminate ..].
  intros [= <- <- _]. destruct (hostContainersLoop_shape _ _ _ _ _ _ Hloop) as [-> Hlocs].
  split; [reflexivity|].
  unfold serverOf. cbn [fst snd ServerConfig.ServerName ServerConfig.Listen ServerConfig.SSL
                        ServerConfig.Locations].
  repeat split; [|exact Hlocs].
  destruct (needsSSL hostContainers); reflexivity.
Qed.

Lemma hostGroupsLoop_shape (visit : list (string * list ContainerData.t)) :
  forall w w' upstreams servers,
    hostGroupsLoop' visit w = (Ok (upstreams, servers), w') ->
    upstreams = flat_map (fun group => map (upstreamFor (fst group)) (snd group)) visit /\
    Forall2 serverOf visit servers.
Proof.
  induction visit as [|[host hostContainers] rest IH]; intros w w' upstreams servers;
    cbn [docker.hostGroupsLoop flat_map fst snd].
  - intros [= <- <- _]. split; [reflexivity | constructor].
  - destruct (serverFor' host hostContainers w) as [[[ups server]| |] w1] eqn:Hserver;
      [|discriminate ..].
    destruct (hostGroupsLoop' rest w1) as [[[ups' servers']| |] w2] eqn:Hrest;
      [|discriminate ..].
    intros [= <- <- _].
    destruct (serverFor_shape _ _ _ _ _ _ Hserver) as [-> Hof].
    destruct (IH _ _ _ _ Hrest) as [-> Hall].
    split; [reflexivity | constructor; assumption].
Qed.

(** The members of well formed groups get the upstream built from their own
    host. *)
Lemma group_upstreams (groups : list (string * list ContainerData.t)) :
  Forall groupOfHost groups ->
  flat_map (fun group => map (upstreamFor (fst group)) (snd group)) groups
  = map (fun container =>
           upstreamFor (ContainerConfig.Host (ContainerData.Config container)) container)
        (flat_map snd groups).
Proof.
  induction 1 as [|[host members] rest [_ Hhost] _ IH]; [reflexivity|].
  cbn [flat_map fst snd] in *. rewrite map_app, IH. f_equal.
  apply map_ext_in. intros c Hin.
  rewrite (proj1 (List.Forall_forall _ _) Hhost c Hin). reflexivity.
Qed.

(** A run that succeeds visited the groups of the containers in some order
    and built the configuration from them group by group. *)
Lemma generated_shape (containers : list ContainerData.t) (now : Z) (w w' : World)
  (config : NginxConfig.t) :
  generate containers sm fastcgiManager now w (Ok config, w') ->
  exists visit,
    Permutation visit (GroupContainersByHost containers) /\
    NoDup (map fst visit) /\
    Forall groupOfHost visit /\
    Permutation (flat_map snd visit) containers /\
    NginxConfig.Upstreams config
    = map (fun container =>
             upstreamFor (ContainerConfig.Host (ContainerData.Config container)) container)
          (flat_map snd visit) /\
    Forall2 serverOf visit (NginxConfig.Servers config) /\
    NginxConfig.Generated config = now.
Proof.
  intros (visit & Hperm & Hrun). exists visit.
  destruct (group_fold_partition containers [] (NoDup_nil_2 (A:=string)) (List.Forall_nil _))
    as (Hnodup & Hgroups & Hall).
  cbn [map concat] in Hall. rewrite app_nil_r in Hall.
  fold (GroupContainersByHost containers) in Hnodup, Hgroups, Hall.
  assert (Hvisit : Forall groupOfHost visit).
  { apply List.Forall_forall. intros g Hin.
    apply (proj1 (List.Forall_forall _ _) Hgroups), (Permutation_in _ Hperm), Hin. }
  unfold docker.GenerateNginxConfigIn in Hrun.
  destruct (hostGroupsLoop' visit w) as [[[upstreams servers]| |] w1] eqn:Hloop;
    [|discriminate ..].
  injection Hrun as <- _.
  destruct (hostGroupsLoop_shape _ _ _ _ _ Hloop) as [-> Hservers].
  cbn [NginxConfig.Upstreams NginxConfig.Servers NginxConfig.Generated].
  repeat split; try assumption.
  - apply NoDup_ListNoDup. rewrite Hperm. apply NoDup_ListNoDup. exact Hnodup.
  - rewrite Hperm, flat_map_concat_map. exact Hall.
  - apply group_upstreams. exact Hvisit.
Qed.

End Generated.

(** ** The upstream names of a generated configuration *)

Lemma append_inj_l (prefix a b : string) : prefix +:+ a = prefix +:+ b -> a = b.
Proof.
  induction prefix as [|c prefix IH]; [rewrite !append_empty_l; exact id|].
  rewrite !append_cons. intros [= H]. exact (IH H).
Qed.

(** C3, as amended.  In a configuration that [GenerateNginxConfig] returns
    the upstreams are named, one for each container, [backend_], the host
    with every dot replaced by [_], [_], and the container name as it is:
    the name is not sanitized.  This is the name the specification asks for
    exactly when sanitizing leaves the container name as it is. *)
Theorem C3_upstream_name_keeps_container_name (U : UnicodeTables)
  (sha256_hex : string -> string) (filepath_Join : string -> string -> string)
  (sm : SnippetManager) (fastcgiManager : FastCGIParameterManager)
  (containers : list ContainerData.t) (now : Z) (w w' : World) (config : NginxConfig.t) :
  GenerateNginxConfig U sha256_hex filepath_Join containers sm fastcgiManager now w
    (Ok config, w') ->
  Permutation
    (map UpstreamConfig.Name (NginxConfig.Upstreams config))
    (map (fun container =>
            "backend_"
            +:+ ReplaceAll (ContainerConfig.Host (ContainerData.Config container)) "." "_"
            +:+ "_" +:+ ContainerConfig.ContainerName (ContainerData.Config container))
         containers) /\
  (forall container,
     In container containers ->
     upstreamNameOf container
     = specUpstreamName (ContainerConfig.Host (ContainerData.Config container))
         (ContainerConfig.ContainerName (ContainerData.Config container)) <->
     SanitizeContainerName (ContainerConfig.ContainerName (ContainerData.Config container))
     = ContainerConfig.ContainerName (ContainerData.Config container)).
Proof.
  intros Hrun.
  destruct (generated_shape _ _ _ _ _ _ _ _ _ _ Hrun)
    as (visit & _ & _ & _ & Hall & Hups & _).
  split.
  - rewrite Hups, map_map. apply Permutation_map. exact Hall.
  - intros container _. unfold upstreamNameOf, specUpstreamName, upstreamNameFor. split.
    + intros Hsame. symmetry.
      exact (append_inj_l _ _ _ (append_inj_l _ _ _ (append_inj_l _ _ _ Hsame))).
    + intros ->. reflexivity.
Qed.

(** C3 as amended, on the web application and its API. *)
Lemma C3_upstream_name_keeps_container_name_witness :
  match fst (Running.generated Running.containers) with
  | Ok config =>
      Permutation (map UpstreamConfig.Name (NginxConfig.Upstreams config))
        ["backend_app_local_web"; "backend_app_local_api"]%string
  | _ => False
  end.
Proof.
  destruct (Running.generated Running.containers) as [[config| |] w'] eqn:Hrun;
    try (vm_compute in Hrun; discriminate Hrun).
  cbn [fst].
  assert (Hgenerated : GenerateNginxConfig asciiTables Fixture.hash Fixture.join
                         Running.containers Fixture.sm Fixture.fpm 0 Fixture.world
                         (Ok config, w')).
  { exists (GroupContainersByHost Running.containers). split; [reflexivity | exact Hrun]. }
  destruct (C3_upstream_name_keeps_container_name _ _ _ _ _ _ _ _ _ _ Hgenerated)
    as [Hnames _].
  exact Hnames.
Defined.

Lemma serverOf_names (visit : list (string * list ContainerData.t))
  (servers : list ServerConfig.t) :
  Forall2 serverOf visit servers ->
  map ServerConfig.ServerName servers = map fst visit /\
  Forall (fun server => exists group, In group visit /\ serverOf group server) servers /\
  length (flat_map ServerConfig.Locations servers) = length (flat_map snd visit).
Proof.
  induction 1 as [|group server visit servers Hof _ (IHnames & IHall & IHlen)].
  - repeat split. constructor.
  - cbn [map flat_map]. repeat split.
    + destruct Hof as [-> _]. rewrite IHnames. reflexivity.
    + constructor; [exists group; split; [left; reflexivity | exact Hof]|].
      eapply Forall_impl; [exact IHall|].
      intros s (g & Hin & Hg). exists g. split; [right; exact Hin | exact Hg].
    + destruct Hof as (_ & _ & _ & Hlocs).
      rewrite !length_app, IHlen, (Forall2_length _ _ _ Hlocs). reflexivity.
Qed.

(** Two groups of a list without repeated hosts that have the same host are
    the same group. *)
Lemma group_of_host_unique (visit : list (string * list ContainerData.t))
  (g g' : string * list ContainerData.t) :
  NoDup (map fst visit) -> In g visit -> In g' visit -> fst g = fst g' -> g = g'.
Proof.
  induction visit as [|x rest IH]; intros Hnodup Hg Hg' Hhost; [destruct Hg|].
  cbn [map] in Hnodup. apply NoDup_cons in Hnodup. destruct Hnodup as [Hfresh Hrest].
  assert (Hin : forall y, In y rest -> fst y <> fst x).
  { intros y Hy Heq. apply Hfresh, list_elem_of_In. rewrite <- Heq.
    apply in_map. exact Hy. }
  destruct Hg as [<- | Hg], Hg' as [<- | Hg']; [reflexivity | | | auto].
  - exfalso. apply (Hin _ Hg'). symmetry. exact Hhost.
  - exfalso. apply (Hin _ Hg). exact Hhost.
Qed.

(** The members of the groups of [visit], when these hold [containers]. *)
Lemma member_of_group (visit : list (string * list ContainerData.t))
  (containers : list ContainerData.t) (group : string * list ContainerData.t)
  (container : ContainerData.t) :
  NoDup (map fst visit) -> Forall groupOfHost visit ->
  Permutation (flat_map snd visit) containers -> In group visit ->
  In container (snd group) <->
  In container containers /\
  ContainerConfig.Host (ContainerData.Config container) = fst group.
Proof.
  intros Hnodup Hgroups Hall Hgroup.
  pose proof (proj1 (List.Forall_forall _ _) Hgroups) as Hhost.
  split.
  - intros Hin. split.
    + apply (Permutation_in _ Hall), in_flat_map. exists group. split; assumption.
    + destruct (Hhost _ Hgroup) as [_ Hmembers].
      exact (proj1 (List.Forall_forall _ _) Hmembers _ Hin).
  - intros [Hin Hof].
    apply (Permutation_in _ (Permutation_sym Hall)), in_flat_map in Hin.
    destruct Hin as (group' & Hgroup' & Hin').
    destruct (Hhost _ Hgroup') as [_ Hmembers].
    pose proof (proj1 (List.Forall_forall _ _) Hmembers _ Hin') as Hof'.
    rewrite (group_of_host_unique visit group group' Hnodup Hgroup Hgroup'); [exact Hin'|].
    congruence.
Qed.

Section GeneratedConfig.
Variable U : UnicodeTables.
Variable sha256_hex : string -> string.
Variable filepath_Join : string -> string -> string.
Variable sm : SnippetManager.
Variable fastcgiManager : FastCGIParameterManager.

Local Abbreviation generate' :=
  (GenerateNginxConfig U sha256_hex filepath_Join).

(** X14.  A configuration [GenerateNginxConfig] returns has one server
    block for each host of the containers and no other: no two blocks have
    the same name.  Every block listens on port 80; it listens on 443 with
    TLS exactly when a container of its host asks for TLS. *)
Theorem X14_GenerateNginxConfig_servers (containers : list ContainerData.t) (now : Z)
  (w w' : World) (config : NginxConfig.t) :
  generate' containers sm fastcgiManager now w (Ok config, w') ->
  NoDup (map ServerConfig.ServerName (NginxConfig.Servers config)) /\
  (forall host,
     In host (map ServerConfig.ServerName (NginxConfig.Servers config)) <->
     exists container,
       In container containers /\
       ContainerConfig.Host (ContainerData.Config container) = host) /\
  Forall (fun server =>
            let tls := exists container,
                         In container containers /\
                         ContainerConfig.Host (ContainerData.Config container)
                           = ServerConfig.ServerName server /\
                         ContainerConfig.TLS (ContainerData.Config container) = true in
            In "80"%string (ServerConfig.Listen server) /\
            (In "443 ssl"%string (ServerConfig.Listen server) <-> tls) /\
            (SSLConfig.Enabled (ServerConfig.SSL server) = true <-> tls))
         (NginxConfig.Servers config) /\
  NginxConfig.Generated config = now.
Proof.
  intros Hrun.
  destruct (generated_shape _ _ _ _ _ _ _ _ _ _ Hrun)
    as (visit & _ & Hnodup & Hgroups & Hall & _ & Hservers & Hnow).
  destruct (serverOf_names _ _ Hservers) as (Hnames & Hof & _).
  rewrite Hnames. repeat split; try assumption.
  - intros Hin. apply in_map_iff in Hin. destruct Hin as (group & <- & Hgroup).
    destruct (proj1 (List.Forall_forall _ _) Hgroups _ Hgroup) as [Hne _].
    destruct (snd group) as [|container rest] eqn:Hmembers; [congruence|].
    exists container.
    apply (member_of_group visit containers group container Hnodup Hgroups Hall Hgroup).
    rewrite Hmembers. left. reflexivity.
  - intros (container & Hin & <-).
    apply (Permutation_in _ (Permutation_sym Hall)), in_flat_map in Hin.
    destruct Hin as (group & Hgroup & Hin).
    destruct (proj1 (List.Forall_forall _ _) Hgroups _ Hgroup) as [_ Hmembers].
    rewrite (proj1 (List.Forall_forall _ _) Hmembers _ Hin).
    apply in_map. exact Hgroup.
  - eapply Forall_impl; [exact Hof|].
    intros server (group & Hgroup & Hname & Hlisten & Hssl & _). cbv zeta.
    assert (Htls : needsSSL (snd group) = true <->
                   exists container,
                     In container containers /\
                     ContainerConfig.Host (ContainerData.Config container)
                       = ServerConfig.ServerName server /\
                     ContainerConfig.TLS (ContainerData.Config container) = true).
    { unfold needsSSL. rewrite existsb_exists, Hname. split.
      - intros (container & Hin & Htls). exists container.
        apply (member_of_group visit containers group container Hnodup Hgroups Hall Hgroup)
          in Hin.
        destruct Hin. repeat split; assumption.
      - intros (container & Hin & Hhost & Htls). exists container. split; [|exact Htls].
        apply (member_of_group visit containers group container Hnodup Hgroups Hall Hgroup).
        split; assumption. }
    rewrite Hlisten, Hssl, <- Htls.
    destruct (needsSSL (snd group)); cbn [In]; repeat split; auto;
      intros H; try discriminate H; repeat destruct H as [H | H]; try discriminate H;
      try destruct H.
Qed.

(** X15.  A configuration [GenerateNginxConfig] returns has exactly one
    upstream for each container given, built from the container's own host.
    Every location of a server block routes one container of that host, with
    the container's path and priority, to that container's upstream, which is
    one of the configuration's upstreams; there are as many locations as
    containers. *)
Theorem X15_GenerateNginxConfig_routes (containers : list ContainerData.t) (now : Z)
  (w w' : World) (config : NginxConfig.t) :
  generate' containers sm fastcgiManager now w (Ok config, w') ->
  Permutation (NginxConfig.Upstreams config)
    (map (fun container =>
            upstreamFor (ContainerConfig.Host (ContainerData.Config container)) container)
         containers) /\
  Forall (fun server =>
            Forall (fun location =>
                      exists container,
                        In container containers /\
                        ContainerConfig.Host (ContainerData.Config container)
                          = ServerConfig.ServerName server /\
                        locationOf (ServerConfig.ServerName server) container location /\
                        In (LocationConfig.Upstream location)
                           (map UpstreamConfig.Name (NginxConfig.Upstreams config)))
                   (ServerConfig.Locations server))
         (NginxConfig.Servers config) /\
  length (flat_map ServerConfig.Locations (NginxConfig.Servers config)) = length containers.
Proof.
  intros Hrun.
  destruct (generated_shape _ _ _ _ _ _ _ _ _ _ Hrun)
    as (visit & _ & Hnodup & Hgroups & Hall & Hups & Hservers & _).
  destruct (serverOf_names _ _ Hservers) as (_ & Hof & Hlen).
  rewrite Hups. split; [apply Permutation_map; exact Hall|].
  split; [|rewrite Hlen; apply Permutation_length; exact Hall].
  eapply Forall_impl; [exact Hof|].
  intros server (group & Hgroup & Hname & _ & _ & Hlocs). rewrite Hname.
  assert (Hmember : forall container, In container (snd group) ->
            In container containers /\
            ContainerConfig.Host (ContainerData.Config container) = fst group).
  { intros container.
    apply (member_of_group visit containers group container Hnodup Hgroups Hall Hgroup). }
  clear Hname. induction Hlocs as [|container location members locations Hloc _ IH];
    constructor.
  - destruct (Hmember container (or_introl eq_refl)) as [Hin Hhost].
    exists container. split; [exact Hin|]. split; [exact Hhost|]. split; [exact Hloc|].
    destruct Hloc as [-> _]. rewrite <- Hhost, map_map. apply in_map_iff.
    exists container. split; [reflexivity|].
    apply (Permutation_in _ (Permutation_sym Hall)). exact Hin.
  - apply IH. intros c Hc. apply Hmember. right. exact Hc.
Qed.

End GeneratedConfig.

(** X14 on the web application and its API, both of host [app.local]. *)
Lemma X14_GenerateNginxConfig_servers_witness :
  match fst (Running.generated Running.containers) with
  | Ok config => map ServerConfig.ServerName (NginxConfig.Servers config) = ["app.local"%string]
                 /\ NoDup (map ServerConfig.ServerName (NginxConfig.Servers config))
  | _ => False
  end.
Proof.
  destruct (Running.generated Running.containers) as [[config| |] w'] eqn:Hrun;
    try (vm_compute in Hrun; discriminate Hrun).
  cbn [fst]. split; [vm_compute in Hrun; injection Hrun as <- _; reflexivity|].
  apply (X14_GenerateNginxConfig_servers asciiTables Fixture.hash Fixture.join Fixture.sm
           Fixture.fpm Running.containers 0 Fixture.world w' config).
  exists (GroupContainersByHost Running.containers). split; [reflexivity | exact Hrun].
Defined.

(** X15 on the same containers: two upstreams, two locations. *)
Lemma X15_GenerateNginxConfig_routes_witness :
  match fst (Running.generated Running.containers) with
  | Ok config =>
      length (NginxConfig.Upstreams config) = 2 /\
      length (flat_map ServerConfig.Locations (NginxConfig.Servers config))
      = length Running.containers
  | _ => False
  end.
Proof.
  destruct (Running.generated Running.containers) as [[config| |] w'] eqn:Hrun;
    try (vm_compute in Hrun; discriminate Hrun).
  cbn [fst]. split; [vm_compute in Hrun; injection Hrun as <- _; reflexivity|].
  apply (X15_GenerateNginxConfig_routes asciiTables Fixture.hash Fixture.join Fixture.sm
           Fixture.fpm Running.containers 0 Fixture.world w' config).
  exists (GroupContainersByHost Running.containers). split; [reflexivity | exact Hrun].
Defined.

(** ** Validating a configuration ([ValidateNginxConfig]) *)

(** A name reads as unseen after [name] was recorded when it is another name
    that was unseen before. *)
Lemma seen_insert (seen : gmap string bool) (name key : string) :
  default false (<[name := true]> seen !! key) = false <->
  key <> name /\ default false (seen !! key) = false.
Proof.
  destruct (decide (key = name)) as [-> | Hne].
  - rewrite lookup_insert_eq. cbn. split; [discriminate | intros [H _]; congruence].
  - rewrite lookup_insert_ne by congruence. tauto.
Qed.

Lemma length_eqb_0 {A : Type} (l : list A) : (length l =? 0)%nat = false <-> l <> [].
Proof. destruct l; cbn; split; congruence. Qed.

(** The step both loops of [ValidateNginxConfig] share: the names of the
    rest are unseen once [name] is recorded, the rest has no name twice. *)
Lemma unseen_step {A : Type} (nameOf : A -> string) (full : A -> Prop)
  (seen : gmap string bool) (item : A) (rest : list A) :
  default false (seen !! nameOf item) = false -> full item ->
  (NoDup (map nameOf rest) /\
   Forall (fun x => default false (<[nameOf item := true]> seen !! nameOf x) = false /\
                    full x) rest) <->
  (NoDup (map nameOf (item :: rest)) /\
   Forall (fun x => default false (seen !! nameOf x) = false /\ full x) (item :: rest)).
Proof.
  intros Hunseen Hfull. cbn [map]. rewrite NoDup_cons, Forall_cons.
  rewrite !List.Forall_forall. setoid_rewrite seen_insert. split.
  - intros [Hnodup Hrest]. repeat split; try assumption.
    + intros Hin. apply list_elem_of_In, in_map_iff in Hin.
      destruct Hin as (x & Heq & Hx). destruct (Hrest x Hx) as [[Hne _] _]. congruence.
    + apply (Hrest x H).
    + apply (Hrest x H).
  - intros [[Hfresh Hnodup] [_ Hrest]]. split; [exact Hnodup|].
    intros x Hx. destruct (Hrest x Hx) as [Hseen Hx']. repeat split; try assumption.
    intros Heq. apply Hfresh, list_elem_of_In. rewrite <- Heq. apply in_map. exact Hx.
Qed.

Lemma validateUpstreams_None_iff (upstreams : list UpstreamConfig.t) :
  forall upstreamNames,
    validateUpstreams upstreams upstreamNames = None <->
    NoDup (map UpstreamConfig.Name upstreams) /\
    Forall (fun upstream =>
              default false (upstreamNames !! UpstreamConfig.Name upstream) = false /\
              UpstreamConfig.Servers upstream <> [])
           upstreams.
Proof.
  induction upstreams as [|upstream rest IH]; intros upstreamNames.
  - cbn. split; [intros _; split; constructor | reflexivity].
  - cbn [validateUpstreams].
    destruct (default false (upstreamNames !! UpstreamConfig.Name upstream)) eqn:Hseen.
    + split; [discriminate|]. intros [_ Hall]. apply Forall_cons in Hall.
      destruct Hall as [[Hunseen _] _]. congruence.
    + cbv zeta.
      destruct (length (UpstreamConfig.Servers upstream) =? 0)%nat eqn:Hlen.
      * split; [discriminate|]. intros [_ Hall]. apply Forall_cons in Hall.
        destruct Hall as [[_ Hfull] _]. apply length_eqb_0 in Hfull. congruence.
      * rewrite IH. apply length_eqb_0 in Hlen.
        apply (unseen_step UpstreamConfig.Name
                 (fun upstream => UpstreamConfig.Servers upstream <> [])); assumption.
Qed.

Lemma validateServers_None_iff (servers : list ServerConfig.t) :
  forall serverNames,
    validateServers servers serverNames = None <->
    NoDup (map ServerConfig.ServerName servers) /\
    Forall (fun server =>
              default false (serverNames !! ServerConfig.ServerName server) = false /\
              ServerConfig.Listen server <> [])
           servers.
Proof.
  induction servers as [|server rest IH]; intros serverNames.
  - cbn. split; [intros _; split; constructor | reflexivity].
  - cbn [validateServers].
    destruct (default false (serverNames !! ServerConfig.ServerName server)) eqn:Hseen.
    + split; [discriminate|]. intros [_ Hall]. apply Forall_cons in Hall.
      destruct Hall as [[Hunseen _] _]. congruence.
    + cbv zeta.
      destruct (length (ServerConfig.Listen server) =? 0)%nat eqn:Hlen.
      * split; [discriminate|]. intros [_ Hall]. apply Forall_cons in Hall.
        destruct Hall as [[_ Hfull] _]. apply length_eqb_0 in Hfull. congruence.
      * rewrite IH. apply length_eqb_0 in Hlen.
        apply (unseen_step ServerConfig.ServerName
                 (fun server => ServerConfig.Listen server <> [])); assumption.
Qed.

(** With no name seen yet, every name is unseen. *)
Lemma unseen_at_start {A : Type} (nameOf : A -> string) (full : A -> Prop) (items : list A) :
  Forall (fun x => default false ((∅ : gmap string bool) !! nameOf x) = false /\ full x) items
  <-> Forall full items.
Proof.
  rewrite !List.Forall_forall. split.
  - intros H x Hx. apply (H x Hx).
  - intros H x Hx. split; [rewrite lookup_empty; reflexivity | exact (H x Hx)].
Qed.

(** What [validateUpstreams] reports is the name of an upstream that comes
    twice, or an upstream without servers. *)
Lemma validateUpstreams_Some (upstreams : list UpstreamConfig.t) :
  forall upstreamNames e,
    validateUpstreams upstreams upstreamNames = Some e ->
    exists upstream,
      In upstream upstreams /\
      (e = "duplicate upstream name: " +:+ UpstreamConfig.Name upstream \/
       (UpstreamConfig.Servers upstream = [] /\
        e = "upstream " +:+ UpstreamConfig.Name upstream +:+ " has no servers")).
Proof.
  induction upstreams as [|upstream rest IH]; intros upstreamNames e; [discriminate|].
  cbn [validateUpstreams].
  destruct (default false (upstreamNames !! UpstreamConfig.Name upstream)).
  - intros [= <-]. exists upstream. split; [left; reflexivity | left; reflexivity].
  - cbv zeta. destruct (UpstreamConfig.Servers upstream) as [|s servers] eqn:Hservers; cbn.
    + intros [= <-]. exists upstream. split; [left; reflexivity | right]. split; [exact Hservers | reflexivity].
    + intros Hrest. destruct (IH _ _ Hrest) as (u & Hin & Hu).
      exists u. split; [right; exact Hin | exact Hu].
Qed.

(** X16.  [ValidateNginxConfig] accepts a configuration exactly when no two
    upstreams have the same name, every upstream has a server, no two server
    blocks have the same name and every server block has a listen
    directive. *)
Theorem X16_ValidateNginxConfig_accepts_iff (config : NginxConfig.t) :
  ValidateNginxConfig config = None <->
  NoDup (map UpstreamConfig.Name (NginxConfig.Upstreams config)) /\
  Forall (fun upstream => UpstreamConfig.Servers upstream <> [])
         (NginxConfig.Upstreams config) /\
  NoDup (map ServerConfig.ServerName (NginxConfig.Servers config)) /\
  Forall (fun server => ServerConfig.Listen server <> []) (NginxConfig.Servers config).
Proof.
  unfold ValidateNginxConfig.
  pose proof (validateUpstreams_None_iff (NginxConfig.Upstreams config) ∅) as Hups.
  pose proof (validateServers_None_iff (NginxConfig.Servers config) ∅) as Hservers.
  rewrite unseen_at_start in Hups. rewrite unseen_at_start in Hservers.
  destruct (validateUpstreams (NginxConfig.Upstreams config) ∅) as [e|].
  - split; [discriminate|]. intros (H1 & H2 & _).
    assert (Hnone : Some e = None) by (apply Hups; split; assumption). discriminate Hnone.
  - rewrite Hservers. pose proof (proj1 Hups eq_refl) as [H1 H2]. tauto.
Qed.

Section GeneratedValid.
Variable U : UnicodeTables.
Variable sha256_hex : string -> string.
Variable filepath_Join : string -> string -> string.
Variable sm : SnippetManager.
Variable fastcgiManager : FastCGIParameterManager.

(** X17.  A configuration [GenerateNginxConfig] returns passes
    [ValidateNginxConfig] exactly when no two of the containers get the same
    upstream name; when it does not pass, the error is the duplicate
    upstream name of one of the containers. *)
Theorem X17_generated_config_valid_iff (containers : list ContainerData.t) (now : Z)
  (w w' : World) (config : NginxConfig.t) :
  GenerateNginxConfig U sha256_hex filepath_Join containers sm fastcgiManager now w
    (Ok config, w') ->
  (ValidateNginxConfig config = None <-> NoDup (map upstreamNameOf containers)) /\
  (forall e, ValidateNginxConfig config = Some e ->
             exists container,
               In container containers /\
               e = "duplicate upstream name: " +:+ upstreamNameOf container).
Proof.
  intros Hrun.
  destruct (generated_shape _ _ _ _ _ _ _ _ _ _ Hrun)
    as (visit & _ & Hnodup & _ & Hall & Hups & Hservers & _).
  destruct (serverOf_names _ _ Hservers) as (Hnames & Hof & _).
  assert (Hupstreams :
            validateUpstreams (NginxConfig.Upstreams config) ∅ = None <->
            NoDup (map upstreamNameOf containers)).
  { rewrite validateUpstreams_None_iff, unseen_at_start, Hups, map_map.
    change (fun x => UpstreamConfig.Name
                       (upstreamFor (ContainerConfig.Host (ContainerData.Config x)) x))
      with upstreamNameOf.
    rewrite !NoDup_ListNoDup, Hall. split; [tauto|]. intros Hdistinct.
    split; [exact Hdistinct|]. apply List.Forall_forall. intros u Hu.
    apply in_map_iff in Hu. destruct Hu as (c & <- & _). discriminate. }
  assert (Hblocks : validateServers (NginxConfig.Servers config) ∅ = None).
  { apply validateServers_None_iff. rewrite Hnames. split; [exact Hnodup|].
    apply unseen_at_start. eapply Forall_impl; [exact Hof|].
    intros server (group & _ & _ & -> & _). destruct (needsSSL (snd group)); discriminate. }
  unfold ValidateNginxConfig. rewrite Hblocks.
  destruct (validateUpstreams (NginxConfig.Upstreams config) ∅) as [e|] eqn:Hval.
  - split; [split; [discriminate | intros H; apply Hupstreams in H; discriminate H]|].
    intros e' [= <-]. destruct (validateUpstreams_Some _ _ _ Hval) as (u & Hu & He).
    rewrite Hups in Hu. apply in_map_iff in Hu. destruct Hu as (c & <- & Hc).
    exists c. split; [apply (Permutation_in _ Hall), Hc|].
    destruct He as [-> | [Hnone _]]; [reflexivity | discriminate Hnone].
  - split; [split; [intros _; apply Hupstreams; reflexivity | reflexivity]|].
    discriminate.
Qed.

End GeneratedValid.

(** X17 on the web application and its API: the configuration passes. *)
Lemma X17_generated_config_valid_iff_witness :
  match fst (Running.generated Running.containers) with
  | Ok config => ValidateNginxConfig config = None
  | _ => False
  end.
Proof.
  destruct (Running.generated Running.containers) as [[config| |] w'] eqn:Hrun;
    try (vm_compute in Hrun; discriminate Hrun).
  cbn [fst].
  apply (X17_generated_config_valid_iff asciiTables Fixture.hash Fixture.join Fixture.sm
           Fixture.fpm Running.containers 0 Fixture.world w' config).
  - exists (GroupContainersByHost Running.containers). split; [reflexivity | exact Hrun].
  - apply NoDup_ListNoDup.
    repeat (constructor; [cbn [In]; intros H; repeat destruct H as [H | H];
                          try discriminate H; try destruct H|]).
    constructor.
Defined.

(** ** Committing the configuration file ([writeConfigFile]) *)

Section AtomicCommit.
Variable RenderNginxConfig : NginxConfig.t -> string -> World -> outcome string.
Variable filepath_Dir : string -> string.
Variable p : Provider.
Variable config : NginxConfig.t.
Variable w : World.

(** X18.  [writeConfigFile] replaces the configuration file in one step or
    not at all: when it returns nil the file holds the rendered text and the
    temporary file is gone; when it returns an error, whichever step failed,
    the file at the configuration path is the one from before.  No file other
    than these two is touched. *)
Theorem X18_writeConfigFile_atomic :
  let result := writeConfigFile RenderNginxConfig filepath_Dir p config w in
  let path := nginxConfigPath p in
  ((fst result = Ok tt /\
    exists content,
      RenderNginxConfig config (templatePath p) w = Ok content /\
      files (snd result) !! path = Some content /\
      files (snd result) !! (path +:+ ".tmp") = None) \/
   (fst result <> Ok tt /\ files (snd result) !! path = files w !! path)) /\
  (forall name, name <> path -> name <> path +:+ ".tmp" ->
                files (snd result) !! name = files w !! name).
Proof.
  cbv zeta. unfold writeConfigFile, os_MkdirAll, os_WriteFile, os_Rename.
  pose proof (tmp_name_differs (nginxConfigPath p)) as Htmp.
  destruct (RenderNginxConfig config (templatePath p) w) as [content| |];
    [|split; [right; split; [discriminate | reflexivity] | reflexivity] ..].
  destruct (faults w (SysMkdirAll _));
    [split; [right; split; [discriminate | reflexivity] | reflexivity]|].
  destruct (faults w (SysWriteFile _)) as [[|written]|]; cbn [fst snd files set_files faults].
  - split; [right; split; [discriminate | reflexivity] | reflexivity].
  - split; [right; split; [discriminate|] |].
    + apply lookup_insert_ne. exact Htmp.
    + intros name _ Hname. apply lookup_insert_ne. congruence.
  - rewrite lookup_insert_eq.
    destruct (faults w (SysRename _ _)); cbn [fst snd files set_files os_Remove Printf].
    + split; [right; split; [discriminate|] |].
      * rewrite lookup_delete_ne by exact Htmp. apply lookup_insert_ne. exact Htmp.
      * intros name _ Hname. rewrite lookup_delete_ne by congruence.
        apply lookup_insert_ne. congruence.
    + split; [left; split; [reflexivity|] |].
      * exists content. split; [reflexivity|]. split; [apply lookup_insert_eq|].
        rewrite lookup_insert_ne by congruence. apply lookup_delete_eq.
      * intros name Hpath Hname. rewrite lookup_insert_ne by congruence.
        rewrite lookup_delete_ne by congruence. apply lookup_insert_ne. congruence.
Qed.

End AtomicCommit.

(** ** The circuit breaker between calls ([CircuitBreaker.Execute]) *)

Section BreakerInvariant.
Import errors.
Local Open Scope Z_scope.
Context {W : Type}.

Lemma checkReset_invariant (cb : CircuitBreaker) (now : Z) :
  breakerInvariant cb ->
  breakerInvariant (checkReset cb now) /\
  failureThreshold (checkReset cb now) = failureThreshold cb.
Proof.
  intros Hinv. unfold checkReset.
  destruct (isOpen (state cb) && (timeout cb <? Sub now (lastFailureTime cb)))%bool;
    [|split; [exact Hinv | reflexivity]].
  destruct Hinv as (Hrange & Hcount & Hopen & Hclosed).
  split; [|reflexivity]. unfold breakerInvariant. cbn.
  repeat split; try lia; try discriminate.
Qed.

Lemma Execute_invariant (cb : CircuitBreaker) (now later : Z)
  (operation : W -> option string * W) (w : W) :
  breakerInvariant cb ->
  let cb' := snd (fst (Execute cb now later operation w)) in
  breakerInvariant cb' /\ failureThreshold cb' = failureThreshold cb.
Proof.
  intros Hinv. cbv zeta. unfold Execute.
  destruct (checkReset_invariant cb now Hinv) as [Hinv' Hsame].
  destruct (checkReset cb now) as [threshold tm count last st].
  cbn [failureThreshold] in Hsame. subst threshold.
  destruct Hinv' as (Hrange & Hcount & Hopen & Hclosed).
  cbn [failureThreshold failureCount state timeout lastFailureTime] in *.
  destruct st; cbn [isOpen fst snd].
  - destruct (operation w) as [[err|] w']; cbn [fst snd failureThreshold].
    + assert (Hlt : count < failureThreshold cb) by (apply Hclosed; discriminate).
      rewrite wrap_int_succ by lia. split; [|reflexivity].
      unfold breakerInvariant. cbn.
      destruct (Z.leb_spec (failureThreshold cb) (count + 1));
        repeat split; try lia; try discriminate; try congruence.
    + split; [|reflexivity]. unfold breakerInvariant. cbn.
      repeat split; try lia; discriminate.
  - split; [|reflexivity]. unfold breakerInvariant. cbn. tauto.
  - destruct (operation w) as [[err|] w']; cbn [fst snd failureThreshold].
    + assert (Hlt : count < failureThreshold cb) by (apply Hclosed; discriminate).
      rewrite wrap_int_succ by lia. split; [|reflexivity].
      unfold breakerInvariant. cbn.
      destruct (Z.leb_spec (failureThreshold cb) (count + 1));
        repeat split; try lia; try discriminate; try congruence.
    + split; [|reflexivity]. unfold breakerInvariant. cbn.
      repeat split; try lia; discriminate.
Qed.

Lemma ExecuteAll_invariant (calls : list (Z * Z * (W -> option string * W))) :
  forall (cb : CircuitBreaker) (w : W),
    breakerInvariant cb ->
    breakerInvariant (fst (ExecuteAll cb calls w)) /\
    failureThreshold (fst (ExecuteAll cb calls w)) = failureThreshold cb.
Proof.
  induction calls as [|[[now later] operation] rest IH]; intros cb w Hinv;
    cbn [ExecuteAll]; [split; [exact Hinv | reflexivity]|].
  pose proof (Execute_invariant cb now later operation w Hinv) as Hstep. cbv zeta in Hstep.
  destruct (Execute cb now later operation w) as [[result cb'] w'].
  cbn [fst snd] in Hstep. destruct Hstep as [Hinv' Hsame].
  destruct (IH cb' w' Hinv') as [Hfinal Hthreshold].
  split; [exact Hfinal | congruence].
Qed.

(** X19.  Whatever calls a breaker made by [NewCircuitBreaker] with a
    threshold of at least 1 has served, and whether or not it was [Reset] in
    between, its failure count lies between 0 and the threshold, so that it
    never overflows, and the breaker is open exactly when the count has
    reached the threshold. *)
Theorem X19_breaker_count_bounded (threshold timeout : Z)
  (before after : list (Z * Z * (W -> option string * W))) (reset : bool) (w : W) :
  1 <= threshold <= GoStrconv.maxInt ->
  let served := ExecuteAll (NewCircuitBreaker threshold timeout) before w in
  let cb := fst (ExecuteAll (if reset then Reset (fst served) else fst served)
                   after (snd served)) in
  failureThreshold cb = threshold /\
  0 <= failureCount cb <= threshold /\
  (state cb = Open <-> failureCount cb = threshold).
Proof.
  intros Hrange. cbv zeta.
  assert (Hnew : breakerInvariant (NewCircuitBreaker threshold timeout)).
  { unfold breakerInvariant. cbn. repeat split; try lia; discriminate. }
  destruct (ExecuteAll_invariant before _ w Hnew) as [Hserved Hsame].
  cbn [NewCircuitBreaker failureThreshold] in Hsame.
  set (served := ExecuteAll (NewCircuitBreaker threshold timeout) before w) in *.
  assert (Hmid : breakerInvariant (if reset then Reset (fst served) else fst served) /\
                 failureThreshold (if reset then Reset (fst served) else fst served)
                 = threshold).
  { destruct reset; [|split; assumption]. split; [|exact Hsame].
    destruct Hserved as (H1 & H2 & H3 & H4). unfold breakerInvariant. cbn.
    repeat split; try lia; discriminate. }
  destruct Hmid as [Hmid Hthreshold].
  destruct (ExecuteAll_invariant after _ (snd served) Hmid) as [Hfinal Hsame'].
  rewrite Hthreshold in Hsame'.
  set (cb := fst (ExecuteAll (if reset then Reset (fst served) else fst served)
                    after (snd served))) in *.
  clearbody cb. destruct Hfinal as (H1 & H2 & H3 & H4). rewrite Hsame' in *.
  split; [reflexivity|].
  destruct (state cb) eqn:Hstate.
  - assert (Hlt : failureCount cb < threshold) by (apply H4; discriminate).
    repeat split; try lia; try discriminate.
  - rewrite (H3 eq_refl). repeat split; lia.
  - assert (Hlt : failureCount cb < threshold) by (apply H4; discriminate).
    repeat split; try lia; try discriminate.
Qed.

End BreakerInvariant.

(** X19 on the breaker with threshold 3 after three failures, a reset and
    three more failures. *)
Lemma X19_breaker_count_bounded_witness :
  let served := errors.ExecuteAll (errors.NewCircuitBreaker 3 (30 * Fixture.second))
                  Fixture.threeFailures tt in
  let cb := fst (errors.ExecuteAll (errors.Reset (fst served)) Fixture.threeFailures
                   (snd served)) in
  (1 <= 3 <= GoStrconv.maxInt)%Z /\
  errors.failureThreshold cb = 3%Z /\
  (0 <= errors.failureCount cb <= 3)%Z /\
  (errors.state cb = errors.Open <-> errors.failureCount cb = 3%Z).
Proof.
  cbv zeta. split; [unfold GoStrconv.maxInt; lia|].
  apply (X19_breaker_count_bounded 3 (30 * Fixture.second) Fixture.threeFailures
           Fixture.threeFailures true tt).
  unfold GoStrconv.maxInt. lia.
Defined.

(** ** The health of the components ([health.go]) *)

Section OverallHealth.
Import health.

Lemma overallOf_Unhealthy (visit : list ComponentHealth) :
  forall overallStatus,
    (exists component, In component visit /\ Status component = Unhealthy) ->
    overallOf visit overallStatus = Unhealthy.
Proof.
  induction visit as [|c rest IH]; intros overallStatus (component & Hin & Hbad);
    [destruct Hin|].
  cbn [overallOf]. destruct Hin as [<- | Hin]; [rewrite Hbad; reflexivity|].
  destruct (Status c); [apply IH | apply IH | reflexivity]; eauto.
Qed.

Lemma overallOf_no_Unhealthy (visit : list ComponentHealth) :
  forall overallStatus,
    Forall (fun component => Status component <> Unhealthy) visit ->
    overallOf visit overallStatus
    = if existsb (fun component => match Status component with Degraded => true | _ => false end)
                 visit
      then Degraded else overallStatus.
Proof.
  induction visit as [|c rest IH]; intros overallStatus Hall; [reflexivity|].
  apply Forall_cons in Hall. destruct Hall as [Hc Hrest].
  cbn [overallOf existsb]. destruct (Status c); cbn [orb]; [apply IH; exact Hrest | | congruence].
  rewrite (IH _ Hrest). destruct (existsb _ rest); reflexivity.
Qed.

(** The components of a monitor, as any visit of the map meets them. *)
Lemma visited_components (hm : HealthMonitor) (component : ComponentHealth) :
  In component (snd <$> map_to_list (components hm)) <->
  exists name, components hm !! name = Some component.
Proof.
  rewrite <- list_elem_of_In, list_elem_of_fmap. split.
  - intros ([name c] & -> & Hin). exists name. apply elem_of_map_to_list. exact Hin.
  - intros (name & Hin). exists (name, component). split; [reflexivity|].
    apply elem_of_map_to_list. exact Hin.
Qed.

(** X20.  [GetOverallHealth] reports the worst status among the
    components: unhealthy exactly when some component is unhealthy, healthy
    exactly when every component is healthy, and degraded otherwise.  The
    order in which the components are visited does not matter, and
    [healthHandler] answers 503 exactly when some component is unhealthy. *)
Theorem X20_GetOverallHealth_worst_status (hm : HealthMonitor) :
  let has status :=
    exists name component,
      components hm !! name = Some component /\ Status component = status in
  (GetOverallHealth hm = Unhealthy <-> has Unhealthy) /\
  (GetOverallHealth hm = Degraded <-> ~ has Unhealthy /\ has Degraded) /\
  (GetOverallHealth hm = Healthy <-> ~ has Unhealthy /\ ~ has Degraded) /\
  (fst (healthHandler hm) = StatusServiceUnavailable <-> has Unhealthy) /\
  (forall visit, Permutation visit (snd <$> map_to_list (components hm)) ->
                 overallOf visit Healthy = GetOverallHealth hm).
Proof.
  cbv zeta.
  set (visit := snd <$> map_to_list (components hm)).
  assert (Hhas : forall status,
            (exists name component,
                components hm !! name = Some component /\ Status component = status) <->
            exists component, In component visit /\ Status component = status).
  { intros status. split.
    - intros (name & component & Hin & Hs). exists component. split; [|exact Hs].
      apply visited_components. exists name. exact Hin.
    - intros (component & Hin & Hs). apply visited_components in Hin.
      destruct Hin as (name & Hin). exists name, component. split; assumption. }
  assert (Hcases :
            (exists component, In component visit /\ Status component = Unhealthy) /\
            GetOverallHealth hm = Unhealthy \/
            ~ (exists component, In component visit /\ Status component = Unhealthy) /\
            ((exists component, In component visit /\ Status component = Degraded) /\
             GetOverallHealth hm = Degraded \/
             ~ (exists component, In component visit /\ Status component = Degraded) /\
             GetOverallHealth hm = Healthy)).
  { unfold GetOverallHealth. fold visit. clearbody visit.
    destruct (existsb (fun c => match Status c with Unhealthy => true | _ => false end) visit)
      eqn:Hbad.
    - left. apply existsb_exists in Hbad. destruct Hbad as (c & Hin & Hc).
      assert (Hex : exists component, In component visit /\ Status component = Unhealthy).
      { exists c. split; [exact Hin|]. destruct (Status c); congruence. }
      split; [exact Hex | apply overallOf_Unhealthy; exact Hex].
    - right.
      assert (Hnone : Forall (fun component => Status component <> Unhealthy) visit).
      { apply List.Forall_forall. intros c Hin Hc.
        assert (Htrue : existsb (fun c => match Status c with Unhealthy => true | _ => false end)
                          visit = true)
          by (apply existsb_exists; exists c; rewrite Hc; split; [exact Hin | reflexivity]).
        congruence. }
      split.
      + intros (c & Hin & Hc). exact (proj1 (List.Forall_forall _ _) Hnone c Hin Hc).
      + rewrite (overallOf_no_Unhealthy _ _ Hnone). clear Hbad.
        destruct (existsb (fun c => match Status c with Degraded => true | _ => false end)
                    visit) eqn:Hdeg.
        * left. split; [|reflexivity]. apply existsb_exists in Hdeg.
          destruct Hdeg as (c & Hin & Hc). exists c. split; [exact Hin|].
          destruct (Status c); congruence.
        * right. split; [|reflexivity]. intros (c & Hin & Hc).
          assert (Htrue : existsb (fun c => match Status c with Degraded => true | _ => false end)
                            visit = true)
            by (apply existsb_exists; exists c; rewrite Hc; split; [exact Hin | reflexivity]).
          congruence. }
  rewrite !Hhas. unfold healthHandler.
  split; [|split; [|split; [|split]]].
  - destruct Hcases as [[Hbad ->] | [Hgood [[Hdeg ->] | [Hnodeg ->]]]];
      split; intros H; try discriminate H; try reflexivity; try assumption; contradiction.
  - destruct Hcases as [[Hbad ->] | [Hgood [[Hdeg ->] | [Hnodeg ->]]]];
      split; intros H; try discriminate H; try reflexivity; try tauto.
  - destruct Hcases as [[Hbad ->] | [Hgood [[Hdeg ->] | [Hnodeg ->]]]];
      split; intros H; try discriminate H; try reflexivity; try tauto.
  - destruct Hcases as [[Hbad ->] | [Hgood [[Hdeg ->] | [Hnodeg ->]]]]; cbn [fst];
      split; intros H; try discriminate H; try reflexivity; try assumption; contradiction.
  - intros visit' Hperm. unfold GetOverallHealth. fold visit.
    apply overallOf_Permutation. exact Hperm.
Qed.

End OverallHealth.

Section ComponentChecks.
Import health.
Local Open Scope Z_scope.

Lemma leadingFailures_bound (results : list (option string)) :
  (leadingFailures results <= length results)%nat.
Proof.
  induction results as [|[e|] rest IH]; cbn [leadingFailures length]; lia.
Qed.

(** X21.  After any checks since its registration, the error count of a
    component is the number of failed checks since the last one that passed,
    and its status follows from that number alone: healthy below 2,
    degraded from 2 to 4, unhealthy from 5 on.  One check that passes makes
    it healthy again. *)
Theorem X21_checkComponent_status (name : string) (results : list (option string)) :
  Z.of_nat (length results) <= GoStrconv.maxInt ->
  let component := checkedFromRegistration name results in
  Name component = name /\
  ErrorCount component = Z.of_nat (failuresSinceSuccess results) /\
  Status component
  = (if 5 <=? ErrorCount component then Unhealthy
     else if 2 <=? ErrorCount component then Degraded
     else Healthy) /\
  Status (checkComponent component None) = Healthy.
Proof.
  cbv zeta. unfold checkedFromRegistration, failuresSinceSuccess.
  induction results as [|result results IH] using rev_ind; intros Hlen.
  - cbn. repeat split.
  - rewrite length_app in Hlen. cbn [length] in Hlen.
    destruct IH as (Hname & Hcount & Hstatus & _); [lia|].
    rewrite fold_left_app, rev_app_distr. cbn [fold_left rev app].
    pose proof (leadingFailures_bound (rev results)) as Hbound.
    rewrite length_rev in Hbound.
    destruct result as [e|]; cbn [checkComponent leadingFailures Name ErrorCount Status].
    + rewrite Hcount, wrap_int_succ by (unfold GoStrconv.maxInt in *; lia).
      rewrite Hstatus, Hcount. repeat split; [exact Hname | lia |].
      destruct (Z.leb_spec 5 (Z.of_nat (leadingFailures (rev results)) + 1)); [reflexivity|].
      destruct (Z.leb_spec 2 (Z.of_nat (leadingFailures (rev results)) + 1)); [reflexivity|].
      destruct (Z.leb_spec 5 (Z.of_nat (leadingFailures (rev results)))); [lia|].
      destruct (Z.leb_spec 2 (Z.of_nat (leadingFailures (rev results)))); [lia|].
      reflexivity.
    + repeat split. exact Hname.
Qed.

End ComponentChecks.

(** X21 on a component whose check failed twice, passed, and failed five
    times. *)
Lemma X21_checkComponent_status_witness :
  let results := [Some "timeout"; Some "timeout"; None; Some "refused"; Some "refused";
                  Some "refused"; Some "refused"; Some "refused"]%string in
  (Z.of_nat (length results) <= GoStrconv.maxInt)%Z /\
  health.ErrorCount (checkedFromRegistration "nginx" results) = 5%Z /\
  health.Status (checkedFromRegistration "nginx" results) = health.Unhealthy.
Proof.
  cbv zeta. split; [unfold GoStrconv.maxInt; cbn; lia|].
  match goal with
  | |- health.ErrorCount (checkedFromRegistration ?n ?r) = _ /\ _ =>
      destruct (X21_checkComponent_status n r) as (_ & Hcount & Hstatus & _);
      [unfold GoStrconv.maxInt; cbn; lia|]
  end.
  split; [rewrite Hcount; reflexivity|].
  rewrite Hstatus, Hcount. reflexivity.
Defined.

(** ** Retrying through the error handler ([HandleWithRetry]) *)

Section Retry.
Import errors errorhandler.
Local Open Scope Z_scope.
Context {W : Type}.
Variable eh : ErrorHandler.
Variable operation : W -> option string * W.






End Retry.


Lemma Execute_refuses {W : Type} (cb : errors.CircuitBreaker) (now later : Z)
  (operation : W -> option string * W) (w : W) :
  errors.state cb = errors.Open ->
  (errors.Sub now (errors.lastFailureTime cb) <= errors.timeout cb)%Z ->
  errors.Execute cb now later operation w
  = (Some "circuit breaker is open"%string, cb, w).
Proof.
  intros Hopen Hwait. unfold errors.Execute, errors.checkReset. rewrite Hopen.
  cbn [errors.isOpen andb].
  replace (errors.timeout cb <? errors.Sub now (errors.lastFailureTime cb))%Z with false
    by (symmetry; apply Z.ltb_ge; exact Hwait).
  rewrite Hopen. reflexivity.
Qed.

Section HandlerCounts.
Import errors errorhandler.
Local Open Scope Z_scope.
Context {W : Type}.

Lemma setErrorCount_same (eh : ErrorHandler) : setErrorCount eh (errorCount eh) = eh.
Proof. destruct eh; reflexivity. Qed.

Lemma touchLocked_Some (eh eh' : ErrorHandler) (touch : Touch) :
  touchLocked eh touch = Some eh' ->
  eh' = setErrorCount eh (countOne (errorCount eh)).
Proof.
  destruct touch as [severity since|]; [|discriminate].
  unfold touchLocked. cbv zeta.
  destruct (5 * Minute <? Sub since (lastResetTime (setErrorCount eh _))); [discriminate|].
  destruct severity; try (intros [= <-]; reflexivity).
  destruct (exitOnCritical (setErrorCount eh _)); [discriminate|].
  intros [= <-]. reflexivity.
Qed.

Lemma touchAllLocked_Some (touches : list Touch) :
  forall eh eh',
    touchAllLocked eh touches = Some eh' ->
    eh' = setErrorCount eh (Nat.iter (length touches) countOne (errorCount eh)).
Proof.
  induction touches as [|touch rest IH]; intros eh eh'; cbn [touchAllLocked length].
  - intros [= <-]. symmetry. apply setErrorCount_same.
  - destruct (touchLocked eh touch) as [eh1|] eqn:Hone; [|discriminate].
    intros Hrest. apply touchLocked_Some in Hone. apply IH in Hrest. subst eh1 eh'.
    rewrite Nat.iter_succ_r. reflexivity.
Qed.

Lemma touchAllLocked_returning (touches : list Touch) :
  forall eh,
    Forall (returningTouch eh) touches -> exists eh', touchAllLocked eh touches = Some eh'.
Proof.
  induction touches as [|touch rest IH]; intros eh Hall; cbn [touchAllLocked]; [eauto|].
  apply Forall_cons in Hall. destruct Hall as [Hone Hrest].
  destruct touch as [severity since|]; [|destruct Hone].
  destruct Hone as [Hcritical Hrecent]. unfold touchLocked. cbv zeta.
  cbn [setErrorCount lastResetTime exitOnCritical].
  replace (5 * Minute <? Sub since (lastResetTime eh)) with false
    by (symmetry; apply Z.ltb_ge; exact Hrecent).
  assert (Hnext : exists eh', touchAllLocked (setErrorCount eh (wrap_int (errorCount eh + 1)))
                                rest = Some eh') by (apply IH; exact Hrest).
  destruct severity; try exact Hnext.
  rewrite (Hcritical eq_refl). exact Hnext.
Qed.

(** [Execute] refuses and leaves the state of the operation, or it returns
    what the operation returns. *)
Lemma Execute_cases {S : Type} (cb : CircuitBreaker) (now later : Z)
  (operation : S -> option string * S) (s : S) :
  let r := Execute cb now later operation s in
  (fst (fst r) = Some "circuit breaker is open"%string /\ snd r = s) \/
  (fst (fst r), snd r) = operation s.
Proof.
  cbv zeta. unfold Execute.
  destruct (isOpen (state (checkReset cb now))); [left; split; reflexivity|].
  right. destruct (operation s) as [[err|] s']; reflexivity.
Qed.

Section Reporting.
Variable operation : W -> option string * W * list Touch.

(** What a loop that returns has done to the handler: one more error
    counted for each touch of the operation. *)
Lemma retrying_Returns (fuel : nat) :
  forall eh attempt lastErr w slept sent result eh' w' slept' sent',
    retrying fuel eh operation attempt lastErr w slept sent
    = Returns (result, eh', w', slept', sent') ->
    exists new,
      sent' = new ++ sent /\
      eh' = setErrorCount eh (Nat.iter (length new) countOne (errorCount eh)) /\
      ((forall w0, snd (operation w0) = []) -> new = []).
Proof.
  induction fuel as [|fuel IH];
    intros eh attempt lastErr w slept sent result eh' w' slept' sent'; [discriminate|].
  cbn [retrying]. destruct (attempt <=? retryAttempts eh).
  2:{ intros [= <- <- <- <- <-]. exists []. repeat split.
      symmetry. apply setErrorCount_same. }
  destruct (operation w) as [[err w1] touches] eqn:Hop.
  destruct (touchAllLocked eh touches) as [eh1|] eqn:Htouches; [|discriminate].
  apply touchAllLocked_Some in Htouches.
  assert (Hsilent : (forall w0, snd (operation w0) = []) -> touches = []).
  { intros Hnone. specialize (Hnone w). rewrite Hop in Hnone. exact Hnone. }
  destruct err as [e|].
  - intros Hrest. apply IH in Hrest. destruct Hrest as (new & -> & -> & Hnew).
    exists (new ++ rev touches). rewrite <- app_assoc. split; [reflexivity|]. split.
    + subst eh1. rewrite length_app, length_rev, Nat.iter_add. reflexivity.
    + intros Hnone. rewrite (Hnew Hnone), (Hsilent Hnone). reflexivity.
  - intros [= <- <- <- <- <-]. exists (rev touches). split; [reflexivity|]. split.
    + rewrite length_rev. exact Htouches.
    + intros Hnone. rewrite (Hsilent Hnone). reflexivity.
Qed.

(** With fuel for one iteration more than the loop can make, the loop
    returns when the touches of the operation do. *)
Lemma retrying_enough (fuel : nat) :
  forall eh attempt lastErr w slept sent,
    retryAttempts eh < GoStrconv.maxInt ->
    0 <= attempt ->
    (Z.to_nat (retryAttempts eh + 1 - attempt) < fuel)%nat ->
    (forall w0, Forall (returningTouch eh) (snd (operation w0))) ->
    exists outcome,
      retrying fuel eh operation attempt lastErr w slept sent = Returns outcome.
Proof.
  induction fuel as [|fuel IH]; intros eh attempt lastErr w slept sent Hmax Hattempt Hfuel Hall;
    [lia|].
  cbn [retrying]. destruct (Z.leb_spec attempt (retryAttempts eh)) as [Hle | Hgt]; [|eauto].
  pose proof (Hall w) as Htouches.
  destruct (operation w) as [[err w1] touches]. cbn [snd] in Htouches.
  destruct (touchAllLocked_returning touches eh Htouches) as [eh1 Hsome].
  rewrite Hsome. apply touchAllLocked_Some in Hsome.
  destruct err as [e|]; [|eauto].
  apply IH; subst eh1; cbn [setErrorCount retryAttempts]; try assumption.
  - rewrite wrap_int_succ by lia. lia.
  - rewrite wrap_int_succ by lia. lia.
Qed.

(** X23.  [HandleWithRetry] with an operation that may report to the
    handler.  A call that returns leaves the retry settings and the
    threshold as they were.  When it returns nil the error count is zero,
    whatever the operation reported.  When it returns an error the count has
    grown by two, one added here and one by [Handle], and by one more for
    each report of the operation, unless [Handle] found the count due for
    its periodic reset and zeroed it; an operation that reports nothing makes
    it grow by two.  While the breaker is open and its timeout has not gone
    by, the operation is not run, nothing is slept, and the error returned is
    the breaker's, wrapped.  For [retryAttempts] below the largest [int] and
    fuel for one iteration more than the loop can make, the call returns
    when the touches of the operation do: it neither ends the process nor
    waits. *)
Theorem X23_HandleWithRetry_outcome (fuel : nat) (eh : ErrorHandler) (description : string)
  (start later since now : Z) (w : W) :
  let run := HandleWithRetry fuel eh operation description start later since now w in
  (forall result eh' w' slept sent,
     run = Returns (result, eh', w', slept, sent) ->
     retryAttempts eh' = retryAttempts eh /\
     retryDelay eh' = retryDelay eh /\
     errorThreshold eh' = errorThreshold eh /\
     ((forall w0, snd (operation w0) = []) -> sent = []) /\
     (result = None -> errorCount eh' = 0) /\
     (result <> None ->
      errorCount eh'
      = if 5 * Minute <? Sub since (lastResetTime eh) then 0
        else Nat.iter (length sent + 2) countOne (errorCount eh))) /\
  (state (circuitBreaker eh) = Open ->
   Sub start (lastFailureTime (circuitBreaker eh)) <= timeout (circuitBreaker eh) ->
   exists eh',
     run = Returns (Some ("Failed " +:+ description +:+ " after "
                          +:+ GoStrconv.Itoa (wrap_int (retryAttempts eh + 1))
                          +:+ " attempts: circuit breaker is open"),
                    eh', w, [], [])) /\
  (retryAttempts eh < GoStrconv.maxInt ->
   (Z.to_nat (retryAttempts eh + 1) < fuel)%nat ->
   (forall w0, Forall (returningTouch eh) (snd (operation w0))) ->
   exists outcome, run = Returns outcome).
Proof.
  cbv zeta. unfold HandleWithRetry.
  pose proof (Execute_cases (circuitBreaker eh) start later (retryClosure fuel operation)
                (Returns (eh, w, [], []))) as Hcases.
  pose proof (Execute_refuses (circuitBreaker eh) start later (retryClosure fuel operation)
                (Returns (eh, w, [], []))) as Hrefuse.
  cbv zeta in Hcases.
  destruct (Execute (circuitBreaker eh) start later (retryClosure fuel operation)
              (Returns (eh, w, [], []))) as [[returnErr cb] st].
  cbn [fst snd] in Hcases.
  assert (Hafter : forall eh2,
            Handle (setErrorCount eh2 (wrap_int (errorCount eh2 + 1)))
              SeverityError since now
            = Some (if 5 * Minute <? Sub since (lastResetTime eh2)
                    then {| exitOnCritical := exitOnCritical eh2;
                            retryAttempts := retryAttempts eh2;
                            retryDelay := retryDelay eh2;
                            circuitBreaker := Reset (circuitBreaker eh2);
                            errorThreshold := errorThreshold eh2; errorCount := 0;
                            lastResetTime := now |}
                    else setErrorCount eh2 (countOne (countOne (errorCount eh2))))).
  { intros eh2. unfold Handle. cbv zeta.
    cbn [setErrorCount lastResetTime errorCount].
    destruct (5 * Minute <? Sub since (lastResetTime eh2)); reflexivity. }
  assert (Hloop : forall err eh1 w1 slept1 sent1,
            (returnErr, st) = (err, Returns (eh1, w1, slept1, sent1)) ->
            (err = Some "circuit breaker is open"%string /\
             Returns (eh1, w1, slept1, sent1) = Returns (eh, w, [], [])) \/
            retrying fuel eh operation 0 None w [] []
            = Returns (err, eh1, w1, slept1, sent1)).
  { intros err eh1 w1 slept1 sent1 [= -> ->].
    destruct Hcases as [[Herr Hst] | Hrun]; [left; split; assumption|].
    right. cbn [retryClosure] in Hrun.
    destruct (retrying fuel eh operation 0 None w [] [])
      as [[[[[err' eh2] w2] slept2] sent2]| |]; [|discriminate ..].
    injection Hrun as -> -> -> -> ->. reflexivity. }
  assert (Hfacts : forall err eh1 w1 slept1 sent1,
            (returnErr, st) = (err, Returns (eh1, w1, slept1, sent1)) ->
            eh1 = setErrorCount eh (Nat.iter (length sent1) countOne (errorCount eh)) /\
            ((forall w0, snd (operation w0) = []) -> sent1 = [])).
  { intros err eh1 w1 slept1 sent1 Heq.
    destruct (Hloop _ _ _ _ _ Heq) as [[_ [= -> _ _ ->]] | Hrun].
    - split; [symmetry; apply setErrorCount_same | reflexivity].
    - apply retrying_Returns in Hrun. destruct Hrun as (new & -> & -> & Hnew).
      rewrite app_nil_r. split; [reflexivity | exact Hnew]. }
  split; [|split].
  - intros result eh' w' slept sent.
    destruct st as [[[[eh1 w1] slept1] sent1]| |]; [|discriminate ..].
    destruct (Hfacts _ _ _ _ _ eq_refl) as [-> Hsilent].
    destruct returnErr as [err|].
    + rewrite (Hafter _).
      cbn [setErrorCount lastResetTime errorCount].
      intros [= <- <- <- <- <-].
      destruct (5 * Minute <? Sub since (lastResetTime eh));
        cbn [setErrorCount setCircuitBreaker retryAttempts retryDelay errorThreshold errorCount];
        repeat split; try assumption; try discriminate.
      intros _. rewrite Nat.add_comm. reflexivity.
    + intros [= <- <- <- <- <-].
      cbn [setErrorCount setCircuitBreaker retryAttempts retryDelay errorThreshold errorCount].
      repeat split; try assumption. intros Hsome. congruence.
  - intros Hopen Hwait. injection (Hrefuse Hopen Hwait) as -> _ ->.
    rewrite (Hafter _). eexists. reflexivity.
  - intros Hmax Hfuel Hall.
    destruct Hcases as [[-> ->] | Hrun].
    + rewrite (Hafter _). eexists. reflexivity.
    + cbn [retryClosure] in Hrun.
      destruct (retrying_enough fuel eh 0 None w [] [] Hmax) as [outcome Hreturns];
        [lia | rewrite Z.sub_0_r; exact Hfuel | exact Hall|].
      rewrite Hreturns in Hrun. destruct outcome as [[[[err eh1] w1] slept1] sent1].
      injection Hrun as -> ->.
      destruct err as [e|]; [|eexists; reflexivity].
      rewrite (Hafter _). eexists. reflexivity.
Qed.

End Reporting.

(** For an operation that leaves the handler alone the loop with the
    handler in it returns what the loop of X22 returns. *)
Lemma retrying_without_touches (operation : W -> option string * W) (fuel : nat) :
  forall eh attempt lastErr w slept sent result eh' w' slept' sent',
    retrying fuel eh (fun w0 => (operation w0, [])) attempt lastErr w slept sent
    = Returns (result, eh', w', slept', sent') ->
    retryLoop fuel eh operation attempt lastErr w slept = (result, (w', slept')) /\
    eh' = eh /\ sent' = sent.
Proof.
  induction fuel as [|fuel IH];
    intros eh attempt lastErr w slept sent result eh' w' slept' sent'; [discriminate|].
  cbn [retrying retryLoop touchAllLocked rev app].
  destruct (attempt <=? retryAttempts eh);
    [|intros [= <- <- <- <- <-]; repeat split].
  destruct (operation w) as [[e|] w1].
  - apply IH.
  - intros [= <- <- <- <- <-]. repeat split.
Qed.

Lemma Handle_counts (eh : ErrorHandler) (severity : ErrorSeverity) (since now : Z) :
  severity <> SeverityCritical ->
  Sub since (lastResetTime eh) <= 5 * Minute ->
  Handle eh severity since now = Some (setErrorCount eh (wrap_int (errorCount eh + 1))).
Proof.
  intros Hseverity Hrecent. unfold Handle. cbn [setErrorCount lastResetTime].
  replace (5 * Minute <? Sub since (lastResetTime eh)) with false
    by (symmetry; apply Z.ltb_ge; exact Hrecent).
  destruct severity; try reflexivity. congruence.
Qed.

(** X24.  [Handle] counts every call, whatever its severity: calls that
    are not critical and come within five minutes of the last reset each add
    one to the error count and change nothing else, so that messages of
    severity info alone bring the handler into degraded mode. *)
Theorem X24_Handle_counts_every_severity (calls : list (ErrorSeverity * Z * Z)) :
  forall eh : ErrorHandler,
    Forall (fun call =>
              fst (fst call) <> SeverityCritical /\
              Sub (snd (fst call)) (lastResetTime eh) <= 5 * Minute) calls ->
    0 <= errorCount eh ->
    errorCount eh + Z.of_nat (length calls) <= GoStrconv.maxInt ->
    HandleAll eh calls = Some (setErrorCount eh (errorCount eh + Z.of_nat (length calls))) /\
    (forall eh', HandleAll eh calls = Some eh' ->
                 IsInDegradedMode eh' = true <->
                 errorThreshold eh ÷ 2 < errorCount eh + Z.of_nat (length calls)).
Proof.
  assert (Hall : forall (calls : list (ErrorSeverity * Z * Z)) (eh : ErrorHandler),
            Forall (fun call =>
                      fst (fst call) <> SeverityCritical /\
                      Sub (snd (fst call)) (lastResetTime eh) <= 5 * Minute) calls ->
            0 <= errorCount eh ->
            errorCount eh + Z.of_nat (length calls) <= GoStrconv.maxInt ->
            HandleAll eh calls
            = Some (setErrorCount eh (errorCount eh + Z.of_nat (length calls)))).
  { clear calls. induction calls as [|[[severity since] now] rest IH];
      intros eh Hcalls Hcount Hmax.
    - cbn [HandleAll length Z.of_nat]. rewrite Z.add_0_r. destruct eh; reflexivity.
    - apply Forall_cons in Hcalls. destruct Hcalls as [[Hseverity Hrecent] Hrest].
      cbn [fst snd] in Hseverity, Hrecent. cbn [length] in Hmax. cbn [HandleAll].
      rewrite (Handle_counts _ _ _ _ Hseverity Hrecent).
      rewrite wrap_int_succ by lia.
      rewrite IH; cbn [setErrorCount errorCount lastResetTime]; [|exact Hrest | lia | lia].
      unfold setErrorCount. cbn [exitOnCritical retryAttempts retryDelay circuitBreaker
                                 errorThreshold errorCount lastResetTime length].
      do 2 f_equal. lia. }
  intros eh Hcalls Hcount Hmax. rewrite (Hall calls eh Hcalls Hcount Hmax).
  split; [reflexivity|]. intros eh' [= <-].
  unfold IsInDegradedMode. cbn [setErrorCount errorThreshold errorCount].
  apply Z.ltb_lt.
Qed.

End HandlerCounts.

(** X23 on the handler of [NewErrorHandler] and a reload that fails every
    time and reports each failure as a warning: after the four runs the count
    stands at six, four for the reports and two for the failed call, and the
    handler is in degraded mode. *)
Lemma X23_HandleWithRetry_outcome_witness :
  match errorhandler.HandleWithRetry 5 (errorhandler.NewErrorHandler 0) reloadFails
          "reloading nginx" (2 * errorhandler.Second) (3 * errorhandler.Second)
          (4 * errorhandler.Second) (4 * errorhandler.Second) 0%nat with
  | errorhandler.Returns (result, eh', ran, slept, sent) =>
      result <> None /\ ran = 4%nat /\ length sent = 4%nat /\
      slept = [30 * errorhandler.Second; 20 * errorhandler.Second;
               5 * errorhandler.Second]%Z /\
      errorhandler.errorCount eh' = 6%Z /\
      errorhandler.IsInDegradedMode eh' = true
  | _ => False
  end.
Proof.
  destruct (errorhandler.HandleWithRetry 5 (errorhandler.NewErrorHandler 0) reloadFails
              "reloading nginx" (2 * errorhandler.Second) (3 * errorhandler.Second)
              (4 * errorhandler.Second) (4 * errorhandler.Second) 0%nat)
    as [[[[[result eh'] ran] slept] sent]| |] eqn:Hrun;
    try (vm_compute in Hrun; discriminate Hrun).
  destruct (X23_HandleWithRetry_outcome reloadFails 5 (errorhandler.NewErrorHandler 0)
              "reloading nginx" (2 * errorhandler.Second) (3 * errorhandler.Second)
              (4 * errorhandler.Second) (4 * errorhandler.Second) 0%nat) as [Hreturned _].
  destruct (Hreturned _ _ _ _ _ Hrun) as (_ & _ & Hthreshold & _ & _ & Hcount).
  assert (Hvalues : result <> None /\ ran = 4%nat /\ length sent = 4%nat /\
                    slept = [30 * errorhandler.Second; 20 * errorhandler.Second;
                             5 * errorhandler.Second]%Z).
  { vm_compute in Hrun. injection Hrun as <- _ <- <- <-.
    repeat split; [discriminate | reflexivity ..]. }
  destruct Hvalues as (Hresult & Hran & Hsent & Hslept).
  specialize (Hcount Hresult). rewrite Hsent in Hcount.
  assert (Hsix : errorhandler.errorCount eh' = 6%Z) by (rewrite Hcount; reflexivity).
  repeat split; try assumption.
  unfold errorhandler.IsInDegradedMode. rewrite Hthreshold, Hsix. reflexivity.
Defined.

(** X24 on the handler of [NewErrorHandler] after six messages of severity
    info, a second apart: it is in degraded mode. *)
Lemma X24_Handle_counts_every_severity_witness :
  let calls := map (fun second => (errorhandler.SeverityInfo,
                                   (second * errorhandler.Second)%Z,
                                   (second * errorhandler.Second)%Z))
                 [1; 2; 3; 4; 5; 6]%Z in
  exists eh',
    errorhandler.HandleAll (errorhandler.NewErrorHandler 0) calls = Some eh' /\
    errorhandler.errorCount eh' = 6%Z /\
    errorhandler.IsInDegradedMode eh' = true.
Proof.
  cbv zeta.
  match goal with
  | |- exists eh', errorhandler.HandleAll ?eh ?calls = _ /\ _ =>
      destruct (X24_Handle_counts_every_severity calls eh) as [Hrun Hmode]
  end.
  - repeat (constructor; [split; [discriminate | vm_compute; discriminate]|]). constructor.
  - vm_compute. discriminate.
  - vm_compute. discriminate.
  - eexists. split; [exact Hrun|]. split; [reflexivity|].
    apply (Hmode _ Hrun). vm_compute. reflexivity.
Defined.

(** ** Generating without FastCGI ([GenerateNginxConfig]) *)

Section PlainContainers.
Variable U : UnicodeTables.
Variable sha256_hex : string -> string.
Variable filepath_Join : string -> string -> string.
Variable sm : SnippetManager.
Variable fastcgiManager : FastCGIParameterManager.

Lemma slice_to_long (s : string) (n : nat) :
  n <= String.length s -> slice_to s n = Ok (substring 0 n s).
Proof.
  intros Hlen. unfold slice_to.
  destruct (Nat.leb_spec n (String.length s)); [reflexivity | lia].
Qed.

Lemma DownloadSnippet_no_panic (containerID filePath : string) (w w' : World) (m : string) :
  12 <= String.length containerID ->
  DownloadSnippet U sha256_hex filepath_Join sm containerID filePath w <> (Panic m, w').
Proof.
  intros Hlen. unfold DownloadSnippet, downloadFromContainer, saveToCache.
  destruct (String.eqb filePath EmptyString); [discriminate|].
  destruct (validateFilePath filePath); [discriminate|].
  rewrite (slice_to_long _ _ Hlen).
  destruct (loadFromCache _ _ _) as [cached| |]; [discriminate | |];
    (destruct (CopyFromContainer (sm_client sm) containerID filePath);
     [discriminate | discriminate |];
     destruct (os_MkdirAll _ _) as [[? |] w1]; [discriminate|];
     destruct (os_WriteFile _ _ _) as [[? |] w2]; discriminate).
Qed.

Lemma DownloadAllSnippets_no_panic (config : ContainerConfig.t) (w w' : World) (m : string) :
  12 <= String.length (ContainerConfig.ContainerID config) ->
  DownloadAllSnippets U sha256_hex filepath_Join sm config w <> (Panic m, w').
Proof.
  intros Hlen. unfold DownloadAllSnippets, downloadInto.
  pose proof (fun path w0 => DownloadSnippet_no_panic
                (ContainerConfig.ContainerID config) path w0) as Hsafe.
  destruct (String.eqb (ContainerConfig.ConfigurationSnippet config) EmptyString).
  - destruct (String.eqb (ContainerConfig.ServerSnippet config) EmptyString);
      [discriminate|].
    destruct (DownloadSnippet _ _ _ _ _ (ContainerConfig.ServerSnippet config) w)
      as [[[snippet|]| |] w1] eqn:Hserver; try discriminate.
    exfalso. exact (Hsafe _ _ _ _ Hlen Hserver).
  - destruct (DownloadSnippet _ _ _ _ _ (ContainerConfig.ConfigurationSnippet config) w)
      as [[[snippet|]| |] w1] eqn:Hconfig; try discriminate;
      try (exfalso; exact (Hsafe _ _ _ _ Hlen Hconfig));
      (destruct (String.eqb (ContainerConfig.ServerSnippet config) EmptyString);
       [discriminate|];
       destruct (DownloadSnippet _ _ _ _ _ (ContainerConfig.ServerSnippet config) w1)
         as [[[snippet'|]| |] w2] eqn:Hserver; try discriminate;
       exfalso; exact (Hsafe _ _ _ _ Hlen Hserver)).
Qed.

Lemma serverSnippetFor_Ok (hostContainers : list ContainerData.t) (w : World) :
  Forall plainContainer hostContainers ->
  exists snippet w',
    serverSnippetFor U sha256_hex filepath_Join sm hostContainers w = (Ok snippet, w').
Proof.
  induction 1 as [|container rest [Hlen _] _ IH]; cbn [serverSnippetFor]; [eauto|].
  destruct (negb _); [|exact IH].
  destruct (DownloadAllSnippets _ _ _ _ _ _) as [[snippets| |] w1] eqn:Hall; [eauto | eauto|].
  exfalso. exact (DownloadAllSnippets_no_panic _ _ _ _ Hlen Hall).
Qed.

Lemma locationFor_Ok (host : string) (container : ContainerData.t) (w : World) :
  plainContainer container ->
  exists location w',
    locationFor U sha256_hex filepath_Join sm fastcgiManager host container w
    = (Ok location, w').
Proof.
  intros [Hlen Hplain]. unfold locationFor, configSnippetFor.
  rewrite (slice_to_long _ _ Hlen), Hplain.
  destruct (negb _); [|eauto].
  destruct (DownloadAllSnippets _ _ _ _ _ _) as [[snippets| |] w1] eqn:Hall; [eauto | eauto|].
  exfalso. exact (DownloadAllSnippets_no_panic _ _ _ _ Hlen Hall).
Qed.

Lemma hostContainersLoop_Ok (host : string) (hostContainers : list ContainerData.t) :
  Forall plainContainer hostContainers ->
  forall w, exists result w',
    hostContainersLoop U sha256_hex filepath_Join sm fastcgiManager host hostContainers w
    = (Ok result, w').
Proof.
  induction 1 as [|container rest Hplain _ IH]; intros w; cbn [hostContainersLoop]; [eauto|].
  destruct (locationFor_Ok host container w Hplain) as (location & w1 & ->).
  destruct (IH w1) as ([upstreams locations] & w2 & ->). eauto.
Qed.

Lemma hostGroupsLoop_Ok (visit : list (string * list ContainerData.t)) :
  Forall (fun group => Forall plainContainer (snd group)) visit ->
  forall w, exists result w',
    hostGroupsLoop U sha256_hex filepath_Join sm fastcgiManager visit w = (Ok result, w').
Proof.
  induction 1 as [|[host members] rest Hplain _ IH]; intros w; cbn [hostGroupsLoop]; [eauto|].
  cbn [snd] in Hplain. unfold serverFor.
  destruct (serverSnippetFor_Ok members w Hplain) as (snippet & w1 & ->).
  destruct (hostContainersLoop_Ok host members Hplain w1) as ([upstreams locations] & w2 & ->).
  destruct (IH w2) as ([upstreams' servers] & w3 & ->). eauto.
Qed.

(** X25.  When every container has an id of at least twelve bytes and none
    asks for FastCGI, [GenerateNginxConfig] returns a configuration, in
    whatever order it visits the hosts and whatever the runtime and the file
    system answer: a snippet that cannot be downloaded costs a warning, never
    the configuration. *)
Theorem X25_GenerateNginxConfig_succeeds (containers : list ContainerData.t) (now : Z)
  (w : World) :
  Forall plainContainer containers ->
  (exists config w',
      GenerateNginxConfig U sha256_hex filepath_Join containers sm fastcgiManager now w
        (Ok config, w')) /\
  (forall result,
      GenerateNginxConfig U sha256_hex filepath_Join containers sm fastcgiManager now w result ->
      exists config, fst result = Ok config).
Proof.
  intros Hplain.
  assert (Hrun : forall visit,
            Permutation visit (GroupContainersByHost containers) ->
            exists config w',
              GenerateNginxConfigIn U sha256_hex filepath_Join visit sm fastcgiManager now w
              = (Ok config, w')).
  { intros visit Hperm. unfold GenerateNginxConfigIn.
    destruct (hostGroupsLoop_Ok visit) with (w := w) as ([upstreams servers] & w' & ->);
      [|eauto].
    destruct (group_fold_partition containers [] (NoDup_nil_2 (A:=string)) (List.Forall_nil _))
      as (_ & _ & Hall).
    cbn [map concat] in Hall. rewrite app_nil_r in Hall.
    fold (GroupContainersByHost containers) in Hall.
    apply List.Forall_forall. intros group Hgroup.
    apply List.Forall_forall. intros container Hin.
    apply (proj1 (List.Forall_forall _ _) Hplain), (Permutation_in _ Hall), in_concat.
    exists (snd group). split; [|exact Hin].
    apply in_map, (Permutation_in _ Hperm), Hgroup. }
  split.
  - destruct (Hrun _ (Permutation_refl _)) as (config & w' & Hok).
    exists config, w', (GroupContainersByHost containers). split; [reflexivity | exact Hok].
  - intros result (visit & Hperm & <-).
    destruct (Hrun visit Hperm) as (config & w' & ->). exists config. reflexivity.
Qed.

End PlainContainers.

(** X25 on the web application and its API. *)
Lemma X25_GenerateNginxConfig_succeeds_witness :
  Forall plainContainer Running.containers /\
  exists config w',
    GenerateNginxConfig asciiTables Fixture.hash Fixture.join Running.containers
      Fixture.sm Fixture.fpm 0 Fixture.world (Ok config, w').
Proof.
  assert (Hplain : Forall plainContainer Running.containers).
  { repeat constructor; vm_compute; lia. }
  split; [exact Hplain|].
  exact (proj1 (X25_GenerateNginxConfig_succeeds asciiTables Fixture.hash Fixture.join
                  Fixture.sm Fixture.fpm Running.containers 0 Fixture.world Hplain)).
Defined.

(** ** What listing the containers asks of the runtime ([ListContainers]) *)

Section ListingEffects.
Variable U : UnicodeTables.
Variable cli : Client.

Lemma listContainer_effects (container : Summary.t) (w : World) :
  let result := listContainer U cli container w in
  files (snd result) = files w /\
  runtime_calls (snd result) = inspections [container] ++ runtime_calls w /\
  (forall e, fst result <> Err e).
Proof.
  cbv zeta. unfold listContainer, inspections.
  destruct (hasNginxLabels (Summary.Labels container)) eqn:Hlabels.
  - rewrite filter_cons_True, filter_nil by exact Hlabels. cbn [negb map rev app].
    destruct (ContainerInspect cli (Summary.ID container)) as [containerJSON| |];
      [|repeat split; discriminate ..].
    destruct (extractNetworkInfo containerJSON) as [ip network].
    destruct (ExtractConfig U _ _ ip _) as [config| |]; [|repeat split; discriminate ..].
    destruct (negb (ContainerConfig.Enabled config)); [repeat split; discriminate|].
    destruct (ValidateConfig config); repeat split; discriminate.
  - rewrite filter_cons_False, filter_nil by congruence. cbn [negb map rev app].
    repeat split; discriminate.
Qed.

Lemma inspections_cons (container : Summary.t) (rest : list Summary.t) :
  inspections (container :: rest) = inspections rest ++ inspections [container].
Proof.
  unfold inspections.
  destruct (decide (hasNginxLabels (Summary.Labels container) = true)) as [Hlabels | Hnone].
  - rewrite !filter_cons_True, filter_nil by exact Hlabels. reflexivity.
  - rewrite !filter_cons_False, filter_nil by exact Hnone. cbn [map rev].
    rewrite app_nil_r. reflexivity.
Qed.

Lemma listContainers_effects (listed : list Summary.t) :
  forall w,
    let result := listContainers U cli listed w in
    files (snd result) = files w /\
    (forall e, fst result <> Err e) /\
    (forall datas, fst result = Ok datas ->
                   runtime_calls (snd result) = inspections listed ++ runtime_calls w).
Proof.
  induction listed as [|container rest IH]; intros w; cbv zeta; cbn [listContainers].
  - repeat split; discriminate.
  - destruct (listContainer_effects container w) as (Hfiles & Hcalls & Hnoerr).
    destruct (listContainer U cli container w) as [[data| |] w1];
      cbn [fst snd] in Hfiles, Hcalls, Hnoerr;
      [|exfalso; exact (Hnoerr _ eq_refl) | repeat split; [exact Hfiles | discriminate ..]].
    destruct (IH w1) as (Hfiles' & Hnoerr' & Hcalls').
    destruct (listContainers U cli rest w1) as [[datas| |] w2];
      cbn [fst snd] in Hfiles', Hcalls', Hnoerr' |- *.
    + repeat split; [congruence | discriminate|]. intros ? _.
      rewrite (Hcalls' _ eq_refl), Hcalls, (inspections_cons container rest), app_assoc.
      reflexivity.
    + exfalso. exact (Hnoerr' _ eq_refl).
    + repeat split; [congruence | discriminate ..].
Qed.

(** X26.  [ListContainers] asks the runtime for the list and then inspects
    each container that carries an ingress label, once and in the order of
    the list; it inspects no other container, copies nothing and touches no
    file.  It returns an error only when the runtime cannot list the
    containers: a container that cannot be inspected, or whose labels are
    refused, is left out without failing the listing. *)
Theorem X26_ListContainers_effects (w : World) :
  let result := ListContainers U cli w in
  files (snd result) = files w /\
  (forall e, fst result = Err e ->
             exists cause,
               ContainerList cli = Err cause /\
               e = "failed to list containers: " +:+ cause /\
               runtime_calls (snd result) = CallContainerList :: runtime_calls w) /\
  (forall listed datas,
      ContainerList cli = Ok listed -> fst result = Ok datas ->
      runtime_calls (snd result)
      = inspections listed ++ CallContainerList :: runtime_calls w).
Proof.
  cbv zeta. unfold ListContainers.
  destruct (ContainerList cli) as [listed|cause|m].
  - destruct (listContainers_effects listed (issue CallContainerList w))
      as (Hfiles & Hnoerr & Hcalls).
    split; [exact Hfiles|]. split.
    + intros e He. exfalso. exact (Hnoerr e He).
    + intros listed' datas [= <-] Hok. exact (Hcalls datas Hok).
  - cbn [fst snd issue files runtime_calls]. split; [reflexivity|]. split.
    + intros e [= <-]. exists cause. repeat split.
    + discriminate.
  - cbn [fst snd issue files]. split; [reflexivity|]. split; discriminate.
Qed.

End ListingEffects.

(** ** Sorting locations that are in order ([sortLocationsByPriority]) *)

(** The insertion loop on elements none of which is less than one before
    it: each is put down where it stands. *)
Lemma insertion_fold_of_sorted {A : Type} (less : A -> A -> bool) (data : list A) :
  forall sorted_rev,
    StronglySorted (fun a b => less b a = false) (rev sorted_rev ++ data) ->
    fold_left (fun sorted_rev x => insertLess less x sorted_rev) data sorted_rev
    = rev data ++ sorted_rev.
Proof.
  induction data as [|x rest IH]; intros sorted_rev Hsorted; [reflexivity|].
  cbn [fold_left rev].
  assert (Hput : insertLess less x sorted_rev = x :: sorted_rev).
  { destruct sorted_rev as [|y earlier]; [reflexivity|]. cbn [insertLess].
    rewrite (StronglySorted_app_1_elem_of _ _ _ y x Hsorted); [reflexivity | |].
    - apply list_elem_of_In, in_rev. rewrite rev_involutive. left. reflexivity.
    - left. }
  rewrite Hput, IH, <- app_assoc; [reflexivity|].
  cbn [rev]. rewrite <- app_assoc. exact Hsorted.
Qed.

(** X27.  On the slices of up to twelve locations that [sort.Slice] sorts
    by insertion, [sortLocationsByPriority] returns a list that is already
    in the order of emission as it is, ties included; sorting twice gives
    what sorting once gives. *)
Theorem X27_sortLocationsByPriority_keeps_order
  (pdqsort : (LocationConfig.t -> LocationConfig.t -> bool)
             -> list LocationConfig.t -> list LocationConfig.t)
  (locations : list LocationConfig.t) :
  length locations <= 12 ->
  (StronglySorted emittedBefore locations ->
   sortLocationsByPriority pdqsort locations = locations) /\
  sortLocationsByPriority pdqsort (sortLocationsByPriority pdqsort locations)
  = sortLocationsByPriority pdqsort locations.
Proof.
  intros Hshort.
  assert (Hkeep : forall l,
            length l <= 12 -> StronglySorted emittedBefore l ->
            sortLocationsByPriority pdqsort l = l).
  { intros l Hl Hsorted. unfold sortLocationsByPriority, sort_Slice.
    destruct (Nat.leb_spec (length l) 12) as [_ | Hlong]; [|lia].
    unfold insertionSortLessFunc.
    rewrite insertion_fold_of_sorted, app_nil_r; [apply rev_involutive|].
    cbn [rev app].
    apply (StronglySorted_weaken emittedBefore); [|exact Hsorted].
    intros a b Hab. apply locationLess_false. exact Hab. }
  split; [apply Hkeep; exact Hshort|].
  destruct (sort_Slice_sorted_permutation pdqsort locationLess locations
              locationLess_asym locationLess_negtrans (or_introl Hshort)) as [Hperm Hsorted].
  apply Hkeep.
  - unfold sortLocationsByPriority. rewrite (Permutation_length Hperm). exact Hshort.
  - apply (StronglySorted_weaken (fun a b => locationLess b a = false)); [|exact Hsorted].
    intros a b Hab. apply locationLess_false. exact Hab.
Qed.

(** X27 on two locations of one priority and paths of one length. *)
Lemma X27_sortLocationsByPriority_keeps_order_witness :
  let locations := [Fixture.location "/api" 100; Fixture.location "/web" 100] in
  length locations <= 12 /\
  sortLocationsByPriority insertionSortLessFunc locations = locations.
Proof.
  cbv zeta. split; [cbn; lia|].
  apply X27_sortLocationsByPriority_keeps_order; [cbn; lia|].
  repeat constructor; right; cbn; lia.
Defined.
